(** * Travel-booking backend: routes, middleware and models

    A shallow embedding of the Express/Mongoose backend
    (backend/src/routes/{auth,users,bookings,restaurants}.ts,
    backend/src/middleware/auth.ts, backend/src/models/{User,Booking}.ts).

    Conventions of the embedding.
    - The document store is a pair of lists (users, bookings); every handler
      is a function from the store and the request to a response and the
      next store.  One request runs at a time.
    - JavaScript strings are [string]s; case mapping and whitespace are the
      ASCII ones.
    - Integers of the request (page, limit), dates (milliseconds) and
      amounts are [Z]; ratings are rationals.  Coordinates, radii and
      distances are binary64 numbers ([float]) with the IEEE 754
      operations; [Math.sin], [Math.cos] and [Math.atan2], whose results
      ECMAScript leaves to the implementation, are fields of the class
      [MathLib].
    - An id is the string of its hexadecimal digits; an id of the path is
      cast by Mongoose to an ObjectId, so it is compared with a stored id
      without regard to the case of the letters.  [save] validates a
      document against its schema before the [pre('save')] hooks run.
    - Functions of the libraries the backend calls (jsonwebtoken, bcryptjs,
      validator.js) are fields of the class [Platform]; the results hold for
      every implementation of them.  What a request cannot decide (clock,
      salt, fresh identifier, random digits, configuration) is in [Env]. *)

From Stdlib Require Import String Ascii List ZArith Bool Lia.
From Stdlib Require Import QArith Floats.
From Stdlib Require Import Sorting.Sorted Sorting.Permutation.
From Stdlib Require Import Numbers.DecimalString.
Import ListNotations.

Close Scope Q_scope.
Local Open Scope string_scope.
Local Open Scope bool_scope.
Local Open Scope list_scope.

(* ------------------------------------------------------------------ *)
(** ** JavaScript string and array primitives used by the backend *)

Module JS.

Definition isLower (c : ascii) : bool :=
  let n := nat_of_ascii c in (97 <=? n)%nat && (n <=? 122)%nat.

Definition isUpper (c : ascii) : bool :=
  let n := nat_of_ascii c in (65 <=? n)%nat && (n <=? 90)%nat.

Definition isDigit (c : ascii) : bool :=
  let n := nat_of_ascii c in (48 <=? n)%nat && (n <=? 57)%nat.

Definition upcase (c : ascii) : ascii :=
  if isLower c then ascii_of_nat (nat_of_ascii c - 32) else c.

Definition downcase (c : ascii) : ascii :=
  if isUpper c then ascii_of_nat (nat_of_ascii c + 32) else c.

Fixpoint mapString (f : ascii -> ascii) (s : string) : string :=
  match s with
  | EmptyString => EmptyString
  | String c s' => String (f c) (mapString f s')
  end.

(** [s.toUpperCase()], [s.toLowerCase()] *)
Definition toUpperCase : string -> string := mapString upcase.
Definition toLowerCase : string -> string := mapString downcase.

Fixpoint existsString (p : ascii -> bool) (s : string) : bool :=
  match s with
  | EmptyString => false
  | String c s' => p c || existsString p s'
  end.

(** [s.startsWith(p)] *)
Definition startsWith (s p : string) : bool := String.prefix p s.

(** [hay.includes(needle)] *)
Fixpoint includes (hay needle : string) : bool :=
  String.prefix needle hay ||
  match hay with
  | EmptyString => false
  | String _ hay' => includes hay' needle
  end.

(** [s.split(sep)] for a one-character separator: never empty. *)
Fixpoint split (sep : ascii) (s : string) : list string :=
  match s with
  | EmptyString => [EmptyString]
  | String c s' =>
      if Ascii.eqb c sep then EmptyString :: split sep s'
      else match split sep s' with
           | [] => [String c EmptyString]
           | w :: ws => String c w :: ws
           end
  end.

Definition isSpace (c : ascii) : bool :=
  let n := nat_of_ascii c in
  (n =? 32)%nat || ((9 <=? n)%nat && (n <=? 13)%nat).

Fixpoint trimStart (s : string) : string :=
  match s with
  | EmptyString => EmptyString
  | String c s' => if isSpace c then trimStart s' else s
  end.

Fixpoint trimEnd (s : string) : string :=
  match s with
  | EmptyString => EmptyString
  | String c s' =>
      match trimEnd s' with
      | EmptyString => if isSpace c then EmptyString else String c EmptyString
      | t => String c t
      end
  end.

(** [s.trim()] *)
Definition trim (s : string) : string := trimEnd (trimStart s).

(** [s.substr(start, len)] for non-negative arguments *)
Definition substr (start len : nat) (s : string) : string :=
  String.substring start len s.

(** Truthiness of a possibly undefined string: [undefined] and [''] are
    falsy, every other string is truthy. *)
Definition truthy (o : option string) : bool :=
  match o with
  | Some s => negb (s =? "")
  | None => false
  end.

(** [parseInt(x) || d]: [None] stands for NaN; NaN and 0 are falsy. *)
Definition orDefault (x : option Z) (d : Z) : Z :=
  match x with
  | Some n => if (n =? 0)%Z then d else n
  | None => d
  end.

(** [Math.ceil(n / d)] for integers [n] and [d <> 0]. *)
Definition ceilDiv (n d : Z) : Z := (- ((- n) / d))%Z.

(** Relative index of [Array.prototype.slice]: negative counts from the
    end, and the result is clamped to [0, len]. *)
Definition relIndex (len i : Z) : Z :=
  if (i <? 0)%Z then Z.max (len + i) 0 else Z.min i len.

(** [arr.slice(start, end)] *)
Definition slice {A : Type} (l : list A) (start stop : Z) : list A :=
  let len := Z.of_nat (length l) in
  let k := relIndex len start in
  let final := relIndex len stop in
  firstn (Z.to_nat (final - k)) (skipn (Z.to_nat k) l).

(** [n.toString(36)] for a non-negative integer. *)
Definition digit36 (d : N) : ascii :=
  if (d <? 10)%N then ascii_of_N (48 + d) else ascii_of_N (87 + d).

Fixpoint toString36_aux (fuel : nat) (n : N) (acc : string) : string :=
  match fuel with
  | O => acc
  | S fuel' =>
      let acc' := String (digit36 (n mod 36)) acc in
      if (n <? 36)%N then acc' else toString36_aux fuel' (n / 36) acc'
  end.

Definition toString36 (n : N) : string :=
  toString36_aux (S (N.to_nat (N.log2 n))) n EmptyString.

End JS.

(* ------------------------------------------------------------------ *)
(** ** JSON values, as sent by [res.json] *)

#[local] Set Warnings "-register-all".

Inductive json : Type :=
| JNull
| JBool (b : bool)
| JNum (n : Z)
| JStr (s : string)
| JArr (items : list json)
| JObj (fields : list (string * json)).

Definition Fields := list (string * json).

Fixpoint getField (k : string) (o : Fields) : option json :=
  match o with
  | [] => None
  | (k', v) :: o' => if k =? k' then Some v else getField k o'
  end.

(** [delete o.k] *)
Definition deleteField (k : string) (o : Fields) : Fields :=
  filter (fun kv => negb (k =? fst kv)) o.

Definition hasField (k : string) (o : Fields) : bool :=
  existsb (fun kv => k =? fst kv) o.

Definition optField {A} (k : string) (f : A -> json) (o : option A) : Fields :=
  match o with
  | Some a => [(k, f a)]
  | None => []
  end.

(* ------------------------------------------------------------------ *)
(** ** Libraries and per-request environment *)

(** Payload of an access token: [{ userId, email, role }]. *)
Record JwtPayload := mkJwtPayload {
  userId : string;
  jwt_email : string;
  jwt_role : string
}.

(** The library functions the backend calls.  [jwt_verify] and [parseDate]
    return [None] where the library throws (resp. yields an invalid date). *)
Class Platform := {
  jwt_sign : JwtPayload -> string -> string -> string;
  jwt_verify : string -> option string -> option JwtPayload;
  bcrypt_hash : string -> string -> string;
  bcrypt_compare : string -> string -> bool;
  isEmail : string -> bool;
  normalizeEmail : string -> string;
  isMongoId : string -> bool;
  isISO8601 : string -> bool;
  parseDate : string -> option Z;
  emailPattern : string -> bool
}.

(** [process.env], the clock and the sources of fresh values. *)
Record Env := mkEnv {
  JWT_SECRET : option string;
  JWT_EXPIRE : option string;
  now : Z;                  (* Date.now() *)
  salt : string;            (* bcrypt.genSalt(10) *)
  freshId : string;         (* the ObjectId of a new document *)
  random36 : string         (* Math.random().toString(36) *)
}.

(* ------------------------------------------------------------------ *)
(** ** models/User.ts *)

Record Passport := mkPassport {
  number : option string;
  expiryDate : option Z;
  countryOfIssue : option string
}.

Record Preferences := mkPreferences {
  currency : option string;
  language : option string;
  notifications : option bool
}.

(** A user document.  [u_password] is [None] on a document loaded without
    the password path ([select: false], [select('-password')]). *)
Record User := mkUser {
  u_id : string;
  firstName : string;
  lastName : string;
  email : string;
  u_password : option string;
  phone : option string;
  dateOfBirth : option Z;
  passport : option Passport;
  preferences : Preferences;
  isEmailVerified : bool;
  role : string;
  u_createdAt : Z;
  u_updatedAt : Z;
  u_v : Z
}.

Definition currencies : list string := ["USD"; "EUR"; "GBP"; "JPY"; "CAD"; "AUD"].
Definition languages : list string := ["en"; "es"; "fr"; "de"; "it"; "pt"; "zh"; "ja"].
Definition roles : list string := ["user"; "admin"].

Definition inList (s : string) (l : list string) : bool :=
  existsb (String.eqb s) l.

Definition defaultPreferences : Preferences :=
  mkPreferences (Some "USD") (Some "en") (Some true).

Definition setPassword (u : User) (p : option string) : User :=
  mkUser (u_id u) (firstName u) (lastName u) (email u) p (phone u)
         (dateOfBirth u) (passport u) (preferences u) (isEmailVerified u)
         (role u) (u_createdAt u) (u_updatedAt u) (u_v u).

(** [.select('-password')] and the default projection of the schema. *)
Definition withoutPassword (u : User) : User := setPassword u None.

(** [UserSchema.pre('save')]: a new or changed password is hashed. *)
Definition userPreSave `{Platform} (env : Env) (modified : bool) (u : User) : User :=
  if negb modified then u
  else setPassword u (option_map (fun p => bcrypt_hash p (salt env)) (u_password u)).

(** [comparePassword]: [None] when bcrypt rejects (no hash loaded). *)
Definition comparePassword `{Platform} (u : User) (entered : string) : option bool :=
  match u_password u with
  | Some h => Some (bcrypt_compare entered h)
  | None => None
  end.

(** [getSignedJwtToken]: [None] when [JWT_SECRET] is not set (it throws). *)
Definition getSignedJwtToken `{Platform} (env : Env) (u : User) : option string :=
  match JWT_SECRET env with
  | None => None
  | Some secret =>
      if secret =? "" then None
      else
        let expiresIn := match JWT_EXPIRE env with Some e => e | None => "30d" end in
        Some (jwt_sign (mkJwtPayload (u_id u) (email u) (role u)) secret expiresIn)
  end.

Definition passportToObject (p : Passport) : Fields :=
  optField "number" JStr (number p) ++
  optField "expiryDate" JNum (expiryDate p) ++
  optField "countryOfIssue" JStr (countryOfIssue p).

Definition preferencesToObject (p : Preferences) : Fields :=
  optField "currency" JStr (currency p) ++
  optField "language" JStr (language p) ++
  optField "notifications" JBool (notifications p).

(** [this.toObject()]: the paths the document holds. *)
Definition toObject (u : User) : Fields :=
  [("_id", JStr (u_id u));
   ("firstName", JStr (firstName u));
   ("lastName", JStr (lastName u));
   ("email", JStr (email u))] ++
  optField "password" JStr (u_password u) ++
  optField "phone" JStr (phone u) ++
  optField "dateOfBirth" JNum (dateOfBirth u) ++
  optField "passport" (fun p => JObj (passportToObject p)) (passport u) ++
  [("preferences", JObj (preferencesToObject (preferences u)));
   ("isEmailVerified", JBool (isEmailVerified u));
   ("role", JStr (role u));
   ("createdAt", JNum (u_createdAt u));
   ("updatedAt", JNum (u_updatedAt u));
   ("__v", JNum (u_v u))].

(** [UserSchema.methods.toJSON] *)
Definition toJSON (u : User) : Fields :=
  let user := toObject u in
  let user := deleteField "password" user in
  let user := deleteField "__v" user in
  user.

(* ------------------------------------------------------------------ *)
(** ** models/Booking.ts *)

Record Booking := mkBooking {
  b_id : string;
  b_user : string;
  b_type : string;
  bookingReference : string;
  status : string;
  totalAmount : Z;
  b_currency : string;
  bookingDetails : json;
  b_createdAt : Z;
  b_updatedAt : Z
}.

Definition bookingTypes : list string := ["flight"; "hotel"; "car"; "restaurant"].
Definition bookingStatuses : list string :=
  ["pending"; "confirmed"; "cancelled"; "completed"].

Definition setStatus (b : Booking) (s : string) : Booking :=
  mkBooking (b_id b) (b_user b) (b_type b) (bookingReference b) s
            (totalAmount b) (b_currency b) (bookingDetails b)
            (b_createdAt b) (b_updatedAt b).

Definition setReference (b : Booking) (r : string) : Booking :=
  mkBooking (b_id b) (b_user b) (b_type b) r (status b)
            (totalAmount b) (b_currency b) (bookingDetails b)
            (b_createdAt b) (b_updatedAt b).

(** The reference built by [BookingSchema.pre('save')]. *)
Definition generateReference (env : Env) (type : string) : string :=
  let timestamp := JS.toString36 (Z.to_N (now env)) in
  let random := JS.substr 2 5 (random36 env) in
  JS.toUpperCase (JS.toUpperCase type ++ "-" ++ timestamp ++ "-" ++ random).

(** [BookingSchema.pre('save')] *)
Definition bookingPreSave (env : Env) (b : Booking) : Booking :=
  if bookingReference b =? "" then setReference b (generateReference env (b_type b))
  else b.

(* ------------------------------------------------------------------ *)
(** ** The document store and the query helpers of Mongoose *)

Record Store := mkStore {
  users : list User;
  bookings : list Booking
}.

(** [User.findById(id)] with the password path loaded. *)
Definition findUserById (st : Store) (id : string) : option User :=
  find (fun u => u_id u =? id) (users st).

(** [User.findOne({ email })] with the password path loaded. *)
Definition findUserByEmail (st : Store) (e : string) : option User :=
  find (fun u => email u =? e) (users st).

Definition replaceUser (u : User) (l : list User) : list User :=
  map (fun x => if u_id x =? u_id u then u else x) l.

Definition replaceBooking (b : Booking) (l : list Booking) : list Booking :=
  map (fun x => if b_id x =? b_id b then b else x) l.

(** [timestamps: true]: a save stamps [updatedAt]. *)
Definition touch (env : Env) (b : Booking) : Booking :=
  mkBooking (b_id b) (b_user b) (b_type b) (bookingReference b) (status b)
            (totalAmount b) (b_currency b) (bookingDetails b)
            (b_createdAt b) (now env).

(** The validators of [BookingSchema]: [required] on every path (an empty
    string and [null] count as missing), the enumerations of [type] and
    [status], and [min: 0] on the amount. *)
Definition validBooking (b : Booking) : bool :=
  negb (b_user b =? "") &&
  inList (b_type b) bookingTypes &&
  negb (bookingReference b =? "") &&
  inList (status b) bookingStatuses &&
  (0 <=? totalAmount b)%Z &&
  negb (b_currency b =? "") &&
  match bookingDetails b with
  | JNull => false
  | _ => true
  end.

(** [booking.save()] on a loaded booking.  Mongoose validates the document
    against the schema before any [pre('save')] hook of the schema runs; a
    document that fails is rejected ([None], the promise rejects) and
    nothing is written.  Otherwise the hook runs, the update time is
    stamped and the stored document is overwritten. *)
Definition saveBooking (env : Env) (st : Store) (b : Booking) : option (Booking * Store) :=
  if negb (validBooking b) then None
  else
    let b' := touch env (bookingPreSave env b) in
    Some (b', mkStore (users st) (replaceBooking b' (bookings st))).

(* ------------------------------------------------------------------ *)
(** ** The response envelope *)

Record Pagination := mkPagination {
  pg_page : Z;
  pg_limit : Z;
  pg_total : Z;
  pg_totalPages : Z
}.

Record FieldError := mkFieldError {
  fe_path : string;
  fe_msg : string
}.

(** [{ status, message?, data?, errors?, pagination? }] and the HTTP code. *)
Record Response (D : Type) := mkResponse {
  statusCode : Z;
  res_status : string;
  message : option string;
  data : option D;
  errors : list FieldError;
  pagination : option Pagination
}.

Arguments mkResponse {D}.
Arguments statusCode {D}.
Arguments res_status {D}.
Arguments message {D}.
Arguments data {D}.
Arguments errors {D}.
Arguments pagination {D}.

Definition failure {D} (code : Z) (msg : string) : Response D :=
  mkResponse code "error" (Some msg) None [] None.

Definition invalid {D} (errs : list FieldError) : Response D :=
  mkResponse 400 "error" (Some "Validation errors") None errs None.

Definition success {D} (code : Z) (msg : option string) (d : D) : Response D :=
  mkResponse code "success" msg (Some d) [] None.

Definition isEmptyList {A} (l : list A) : bool :=
  match l with [] => true | _ => false end.

(* ------------------------------------------------------------------ *)
(** ** middleware/auth.ts *)

Record Headers := mkHeaders {
  authorization : option string;
  cookie : option string
}.

(** What a middleware does with a request: answer it, or call [next()]
    with [req.user] as given. *)
Inductive MwResult :=
| Respond (code : Z) (msg : string)
| Next (user : option User).

(** The token of the Authorization header: [split(' ')[1]] when the header
    starts with "Bearer". *)
Definition headerToken (h : Headers) : option string :=
  match authorization h with
  | Some a =>
      if negb (a =? "") && JS.startsWith a "Bearer"
      then nth_error (JS.split " " a) 1
      else None
  | None => None
  end.

(** The [reduce] over the cookie header: the object [acc], keys to values,
    the latest assignment first. *)
Definition parseCookies (c : string) : list (string * option string) :=
  fold_left
    (fun acc ck =>
       let parts := JS.split "=" (JS.trim ck) in
       (nth 0 parts EmptyString, nth_error parts 1) :: acc)
    (JS.split ";" c) [].

Fixpoint lookupCookie (k : string) (acc : list (string * option string))
  : option string :=
  match acc with
  | [] => None
  | (k', v) :: acc' => if k =? k' then v else lookupCookie k acc'
  end.

(** [cookies.token] *)
Definition cookieToken (c : string) : option string :=
  lookupCookie "token" (parseCookies c).

(** The token [authenticate] ends up with, before [if (!token)]. *)
Definition extractToken (h : Headers) : option string :=
  let token := headerToken h in
  if negb (JS.truthy token) && JS.truthy (cookie h)
  then match cookie h with
       | Some c => cookieToken c
       | None => token
       end
  else token.

(** [jwt.verify] then [User.findById(decoded.userId).select('-password')];
    the outer [option] is [None] when [jwt.verify] throws. *)
Definition resolveToken `{Platform} (env : Env) (st : Store) (token : string)
  : option (option User) :=
  match jwt_verify token (JWT_SECRET env) with
  | None => None
  | Some decoded => Some (option_map withoutPassword (findUserById st (userId decoded)))
  end.

Definition authenticate `{Platform} (env : Env) (st : Store) (h : Headers) : MwResult :=
  let token := extractToken h in
  if negb (JS.truthy token) then Respond 401 "Access denied. No token provided."
  else
    match token with
    | None => Respond 401 "Access denied. No token provided."
    | Some t =>
        match resolveToken env st t with
        | None => Respond 401 "Invalid token."
        | Some None => Respond 401 "Token is valid but user no longer exists."
        | Some (Some user) => Next (Some user)
        end
    end.

Definition authorize (allowed : list string) (reqUser : option User) : MwResult :=
  match reqUser with
  | None => Respond 401 "Access denied. Please log in."
  | Some u =>
      if negb (inList (role u) allowed)
      then Respond 403 "Access denied. Insufficient permissions."
      else Next (Some u)
  end.

Definition optionalAuth `{Platform} (env : Env) (st : Store) (h : Headers) : MwResult :=
  let token := headerToken h in
  if JS.truthy token then
    match token with
    | None => Next None
    | Some t =>
        match resolveToken env st t with
        | Some (Some user) => Next (Some user)
        | _ => Next None
        end
    end
  else Next None.

(** A route behind [authenticate]: the handler runs only after [next()]. *)
Definition withAuth `{Platform} {D} (env : Env) (st : Store) (h : Headers)
    (handler : User -> Response D * Store) : Response D * Store :=
  match authenticate env st h with
  | Respond code msg => (failure code msg, st)
  | Next (Some u) => handler u
  | Next None => (failure 500 "Server Error", st)
  end.

(* ------------------------------------------------------------------ *)
(** ** Request bodies and express-validator checks *)

Inductive BodyValue :=
| BStr (s : string)
| BBool (b : bool)
| BPrefs (p : Preferences).

Definition Body := list (string * BodyValue).

Fixpoint bodyField (k : string) (b : Body) : option BodyValue :=
  match b with
  | [] => None
  | (k', v) :: b' => if k =? k' then Some v else bodyField k b'
  end.

(** The string a validator sees for a field ([undefined] reads as ['']). *)
Definition fieldString (v : option BodyValue) : string :=
  match v with
  | Some (BStr s) => s
  | Some (BBool true) => "true"
  | Some (BBool false) => "false"
  | Some (BPrefs _) => "[object Object]"
  | None => ""
  end.

(** Mongoose's cast of a value to a String path; [None] is a CastError. *)
Definition castString (v : BodyValue) : option string :=
  match v with
  | BStr s => Some s
  | BBool true => Some "true"
  | BBool false => Some "false"
  | BPrefs _ => None
  end.

Definition check (ok : bool) (path msg : string) : list FieldError :=
  if ok then [] else [mkFieldError path msg].

Definition notEmpty (b : Body) (path msg : string) : list FieldError :=
  check (negb (fieldString (bodyField path b) =? "")) path msg.

(** The part of a string that [.] of a regular expression can cross. *)
Fixpoint firstLine (s : string) : string :=
  match s with
  | EmptyString => EmptyString
  | String c s' =>
      if ((nat_of_ascii c =? 10) || (nat_of_ascii c =? 13))%nat then EmptyString
      else String c (firstLine s')
  end.

(** [/^(?=.*[a-z])(?=.*[A-Z])(?=.*\d)/] *)
Definition passwordPattern (s : string) : bool :=
  let l := firstLine s in
  JS.existsString JS.isLower l && JS.existsString JS.isUpper l &&
  JS.existsString JS.isDigit l.

(* ------------------------------------------------------------------ *)
(** ** routes/auth.ts *)

Definition registerValidation `{Platform} (b : Body) : list FieldError :=
  notEmpty b "firstName" "First name is required" ++
  notEmpty b "lastName" "Last name is required" ++
  check (isEmail (fieldString (bodyField "email" b))) "email" "Valid email is required" ++
  check (6 <=? String.length (fieldString (bodyField "password" b)))%nat "password"
        "Password must be at least 6 characters long" ++
  check (passwordPattern (fieldString (bodyField "password" b))) "password"
        "Password must contain at least one uppercase letter, one lowercase letter, and one number".

Definition loginValidation `{Platform} (b : Body) : list FieldError :=
  check (isEmail (fieldString (bodyField "email" b))) "email" "Valid email is required" ++
  notEmpty b "password" "Password is required".

(** Truthiness of a raw body value. *)
Definition truthyValue (v : option BodyValue) : bool :=
  match v with
  | Some (BStr s) => negb (s =? "")
  | Some (BBool b) => b
  | Some (BPrefs _) => true
  | None => false
  end.

(** [new Date(v)] cast to a Date path; [None] is an invalid date. *)
Definition castDate `{Platform} (v : BodyValue) : option Z :=
  match v with
  | BStr s => parseDate s
  | BBool true => Some 1%Z
  | BBool false => Some 0%Z
  | BPrefs _ => None
  end.

(** Casts of the optional paths of [new User({...})]: the outer [None] is a
    failed cast, the inner one an unset path. *)
Definition castOptString (v : option BodyValue) : option (option string) :=
  match v with
  | None => Some None
  | Some x => option_map (fun s => Some (JS.trim s)) (castString x)
  end.

Definition castOptDate `{Platform} (v : option BodyValue) : option (option Z) :=
  if truthyValue v then
    match v with
    | Some x => option_map Some (castDate x)
    | None => Some None
    end
  else Some None.

(** Validators of [UserSchema] on the paths a request can set. *)
Definition validNames (fn ln : string) : bool :=
  negb (fn =? "") && (String.length fn <=? 50)%nat &&
  negb (ln =? "") && (String.length ln <=? 50)%nat.

Definition validUser `{Platform} (u : User) : bool :=
  validNames (firstName u) (lastName u) &&
  negb (email u =? "") && emailPattern (email u) &&
  match u_password u with
  | Some p => (6 <=? String.length p)%nat
  | None => false
  end.

(** [new User({...})] followed by [user.save()]: setters, validation, the
    pre-save hook and the unique index on [email].  [None] when it throws. *)
Definition createUser `{Platform} (env : Env) (st : Store)
    (fn ln em : string) (pw phoneV dobV : option BodyValue) : option (User * Store) :=
  match option_map castString pw, castOptString phoneV, castOptDate dobV with
  | Some (Some password), Some ph, Some dob =>
      let u := mkUser (freshId env) (JS.trim fn) (JS.trim ln)
                      (JS.trim (JS.toLowerCase em)) (Some password) ph dob None
                      defaultPreferences false "user" (now env) (now env) 0 in
      if negb (validUser u) then None
      else
        let u' := userPreSave env true u in
        if existsb (fun x => email x =? email u') (users st) then None
        else Some (u', mkStore (users st ++ [u']) (bookings st))
  | _, _, _ => None
  end.

(** [POST /api/auth/register] *)
Definition register `{Platform} (env : Env) (st : Store) (b : Body)
  : Response (Fields * string) * Store :=
  let errs := registerValidation b in
  if negb (isEmptyList errs) then (invalid errs, st)
  else
    let firstName := JS.trim (fieldString (bodyField "firstName" b)) in
    let lastName := JS.trim (fieldString (bodyField "lastName" b)) in
    let email := normalizeEmail (fieldString (bodyField "email" b)) in
    match findUserByEmail st email with
    | Some _ => (failure 400 "User with this email already exists", st)
    | None =>
        match createUser env st firstName lastName email (bodyField "password" b)
                         (bodyField "phone" b) (bodyField "dateOfBirth" b) with
        | None => (failure 500 "Error creating user account", st)
        | Some (user, st') =>
            match getSignedJwtToken env user with
            | None => (failure 500 "Error creating user account", st')
            | Some token =>
                (success 201 (Some "User registered successfully") (toJSON user, token), st')
            end
        end
    end.

(** [POST /api/auth/login] *)
Definition login `{Platform} (env : Env) (st : Store) (b : Body)
  : Response (Fields * string) :=
  let errs := loginValidation b in
  if negb (isEmptyList errs) then invalid errs
  else
    let email := normalizeEmail (fieldString (bodyField "email" b)) in
    match findUserByEmail st email with
    | None => failure 401 "Invalid email or password"
    | Some user =>
        match bodyField "password" b with
        | Some (BStr password) =>
            match comparePassword user password with
            | None => failure 500 "Error during login"
            | Some false => failure 401 "Invalid email or password"
            | Some true =>
                match getSignedJwtToken env user with
                | None => failure 500 "Error during login"
                | Some token => success 200 (Some "Login successful") (toJSON user, token)
                end
            end
        | _ => failure 500 "Error during login"
        end
    end.

(** [GET /api/auth/me] *)
Definition me `{Platform} (env : Env) (st : Store) (h : Headers)
  : Response Fields * Store :=
  withAuth env st h (fun user => (success 200 None (toJSON user), st)).

(* ------------------------------------------------------------------ *)
(** ** Sorting and cursors *)

(** A stable sort, as [Array.prototype.sort] and the [sort] of a query are
    taken to be: [leb x y] says that [x] may stay before [y]. *)
Fixpoint insertBy {A} (leb : A -> A -> bool) (x : A) (l : list A) : list A :=
  match l with
  | [] => [x]
  | y :: l' => if leb x y then x :: l else y :: insertBy leb x l'
  end.

Definition sortBy {A} (leb : A -> A -> bool) (l : list A) : list A :=
  fold_right (insertBy leb) [] l.

(** [.skip(s).limit(n)] of a cursor: a negative skip is refused by the
    driver, a zero limit is no limit, a negative one counts as positive. *)
Definition skipLimit {A} (l : list A) (s n : Z) : option (list A) :=
  if (s <? 0)%Z then None
  else
    let rest := skipn (Z.to_nat s) l in
    Some (if (n =? 0)%Z then rest else firstn (Z.to_nat (Z.abs n)) rest).

(* ------------------------------------------------------------------ *)
(** ** [User.findByIdAndUpdate(id, update, { new: true, runValidators: true })] *)

Record UserPatch := mkUserPatch {
  p_firstName : option string;
  p_lastName : option string;
  p_phone : option string;
  p_dateOfBirth : option Z;
  p_preferences : option Preferences;
  p_passport : option Passport
}.

Definition orElse {A} (o : option A) (d : A) : A :=
  match o with Some a => a | None => d end.

Definition applyPatch (env : Env) (p : UserPatch) (u : User) : User :=
  mkUser (u_id u)
         (orElse (p_firstName p) (firstName u))
         (orElse (p_lastName p) (lastName u))
         (email u) (u_password u)
         (match p_phone p with Some x => Some x | None => phone u end)
         (match p_dateOfBirth p with Some x => Some x | None => dateOfBirth u end)
         (match p_passport p with Some x => Some x | None => passport u end)
         (orElse (p_preferences p) (preferences u))
         (isEmailVerified u) (role u) (u_createdAt u) (now env) (u_v u).

Definition validPreferences (p : Preferences) : bool :=
  match currency p with Some c => inList c currencies | None => true end &&
  match language p with Some l => inList l languages | None => true end.

(** The update validators of the paths a patch sets. *)
Definition validPatch (p : UserPatch) : bool :=
  match p_firstName p with
  | Some s => negb (s =? "") && (String.length s <=? 50)%nat
  | None => true
  end &&
  match p_lastName p with
  | Some s => negb (s =? "") && (String.length s <=? 50)%nat
  | None => true
  end &&
  match p_preferences p with
  | Some q => validPreferences q
  | None => true
  end.

(** Outer [None]: the update throws; inner [None]: no such document.  The
    document comes back without the password path. *)
Definition findByIdAndUpdate (env : Env) (st : Store) (id : string) (p : UserPatch)
  : option (option User * Store) :=
  if negb (validPatch p) then None
  else
    match findUserById st id with
    | None => Some (None, st)
    | Some u =>
        let u' := applyPatch env p u in
        Some (Some (withoutPassword u'),
              mkStore (replaceUser u' (users st)) (bookings st))
    end.

(** The value of a body key that a string sanitizer has run on. *)
Definition trimmed (b : Body) (k : string) : option string :=
  match bodyField k b with
  | Some v => Some (JS.trim (fieldString (Some v)))
  | None => None
  end.

Definition isPresent (b : Body) (k : string) : bool :=
  match bodyField k b with Some _ => true | None => false end.

Definition optionalCheck (b : Body) (k : string) (ok : string -> bool) (msg : string)
  : list FieldError :=
  match bodyField k b with
  | Some v => check (ok (fieldString (Some v))) k msg
  | None => []
  end.

(** The date of an optional body key, cast to a Date path. *)
Definition patchDate `{Platform} (b : Body) (k : string) : option (option Z) :=
  match bodyField k b with
  | Some v => option_map Some (castDate v)
  | None => Some None
  end.

Definition patchPreferences (b : Body) (k : string) : option (option Preferences) :=
  match bodyField k b with
  | Some (BPrefs p) => Some (Some p)
  | Some _ => None
  | None => Some None
  end.

(** [PUT /api/auth/profile] *)
Definition authProfile `{Platform} (env : Env) (st : Store) (h : Headers) (b : Body)
  : Response Fields * Store :=
  withAuth env st h (fun reqUser =>
    let errs := optionalCheck b "dateOfBirth" isISO8601 "Invalid date format" in
    if negb (isEmptyList errs) then (invalid errs, st)
    else
      match patchDate b "dateOfBirth", patchPreferences b "preferences" with
      | Some dob, Some prefs =>
          let updateData :=
            mkUserPatch (trimmed b "firstName") (trimmed b "lastName")
                        (trimmed b "phone") dob prefs None in
          match findByIdAndUpdate env st (u_id reqUser) updateData with
          | None => (failure 500 "Error updating profile", st)
          | Some (None, st') => (failure 404 "User not found", st')
          | Some (Some user, st') =>
              (success 200 (Some "Profile updated successfully") (toJSON user), st')
          end
      | _, _ => (failure 500 "Error updating profile", st)
      end).

(* ------------------------------------------------------------------ *)
(** ** routes/users.ts *)

Definition lengthBetween (lo hi : nat) (s : string) : bool :=
  ((lo <=? String.length s) && (String.length s <=? hi))%nat.

(** [PUT /api/users/profile] *)
Definition usersProfile `{Platform} (env : Env) (st : Store) (h : Headers) (b : Body)
  : Response Fields * Store :=
  withAuth env st h (fun reqUser =>
    let errs :=
      optionalCheck b "firstName" (fun s => lengthBetween 1 50 (JS.trim s)) "Invalid value" ++
      optionalCheck b "lastName" (fun s => lengthBetween 1 50 (JS.trim s)) "Invalid value" ++
      optionalCheck b "dateOfBirth" isISO8601 "Invalid value" in
    if negb (isEmptyList errs) then (invalid errs, st)
    else if negb (isPresent b "firstName" || isPresent b "lastName" ||
                  isPresent b "phone" || isPresent b "dateOfBirth")
    then (failure 400 "No valid fields provided for update", st)
    else
      match patchDate b "dateOfBirth" with
      | Some dob =>
          let updates :=
            mkUserPatch (trimmed b "firstName") (trimmed b "lastName")
                        (trimmed b "phone") dob None None in
          match findByIdAndUpdate env st (u_id reqUser) updates with
          | None => (failure 500 "Error updating profile", st)
          | Some (None, st') => (failure 404 "User not found", st')
          | Some (Some user, st') =>
              (success 200 (Some "Profile updated successfully") (toJSON user), st')
          end
      | None => (failure 500 "Error updating profile", st)
      end).

(** validator.js [isBoolean] and the cast of Mongoose to a Boolean path. *)
Definition isBoolean (s : string) : bool := inList s ["true"; "false"; "1"; "0"].

Definition castBool (v : BodyValue) : option bool :=
  match v with
  | BBool b => Some b
  | BStr s => if inList s ["true"; "1"] then Some true
              else if inList s ["false"; "0"] then Some false else None
  | BPrefs _ => None
  end.

Definition mergeOpt {A} (new old : option A) : option A :=
  match new with Some x => Some x | None => old end.

(** [PUT /api/users/preferences]: the response carries [user.preferences]. *)
Definition usersPreferences `{Platform} (env : Env) (st : Store) (h : Headers) (b : Body)
  : Response Fields * Store :=
  withAuth env st h (fun reqUser =>
    let errs :=
      optionalCheck b "currency" (fun s => inList s currencies) "Invalid value" ++
      optionalCheck b "language" (fun s => inList s languages) "Invalid value" ++
      optionalCheck b "notifications" isBoolean "Invalid value" in
    if negb (isEmptyList errs) then (invalid errs, st)
    else if negb (isPresent b "currency" || isPresent b "language" ||
                  isPresent b "notifications")
    then (failure 400 "No preferences provided for update", st)
    else
      match option_map castString (bodyField "currency" b),
            option_map castString (bodyField "language" b),
            option_map castBool (bodyField "notifications" b) with
      | Some None, _, _ | _, Some None, _ | _, _, Some None =>
          (failure 500 "Error updating preferences", st)
      | c, l, n =>
          let old := preferences reqUser in
          let merged :=
            mkPreferences (mergeOpt (orElse c None) (currency old))
                          (mergeOpt (orElse l None) (language old))
                          (mergeOpt (orElse n None) (notifications old)) in
          match findByIdAndUpdate env st (u_id reqUser)
                  (mkUserPatch None None None None (Some merged) None) with
          | None => (failure 500 "Error updating preferences", st)
          | Some (None, st') => (failure 404 "User not found", st')
          | Some (Some user, st') =>
              (success 200 (Some "Preferences updated successfully")
                       (preferencesToObject (preferences user)), st')
          end
      end).

(** [PUT /api/users/passport]: the response carries [user.passport]. *)
Definition usersPassport `{Platform} (env : Env) (st : Store) (h : Headers) (b : Body)
  : Response Fields * Store :=
  withAuth env st h (fun reqUser =>
    let errs :=
      notEmpty b "number" "Passport number is required" ++
      check (isISO8601 (fieldString (bodyField "expiryDate" b))) "expiryDate"
            "Valid expiry date is required" ++
      notEmpty b "countryOfIssue" "Country of issue is required" in
    if negb (isEmptyList errs) then (invalid errs, st)
    else
      match option_map castDate (bodyField "expiryDate" b),
            option_map castString (bodyField "number" b),
            option_map castString (bodyField "countryOfIssue" b) with
      | Some (Some expiry), Some (Some num), Some (Some country) =>
          if (expiry <=? now env)%Z
          then (failure 400 "Passport expiry date must be in the future", st)
          else
            match findByIdAndUpdate env st (u_id reqUser)
                    (mkUserPatch None None None None None
                       (Some (mkPassport (Some num) (Some expiry) (Some country)))) with
            | None => (failure 500 "Error updating passport information", st)
            | Some (None, st') => (failure 404 "User not found", st')
            | Some (Some user, st') =>
                (success 200 (Some "Passport information updated successfully")
                         (match passport user with
                          | Some p => passportToObject p
                          | None => []
                          end), st')
            end
      | _, _, _ => (failure 500 "Error updating passport information", st)
      end).

Definition ownedBy (uid : string) (b : Booking) : bool := b_user b =? uid.

Definition isActive (b : Booking) : bool := inList (status b) ["pending"; "confirmed"].

(** [Booking.countDocuments({ user, status: { $in: ['pending', 'confirmed'] } })] *)
Definition activeBookings (st : Store) (uid : string) : nat :=
  length (filter (fun b => ownedBy uid b && isActive b) (bookings st)).

(** [Booking.deleteMany({ user })] then [User.findByIdAndDelete(id)] *)
Definition deleteUserAndBookings (st : Store) (uid : string) : Store :=
  mkStore (filter (fun u => negb (u_id u =? uid)) (users st))
          (filter (fun b => negb (ownedBy uid b)) (bookings st)).

(** [DELETE /api/users/account] *)
Definition deleteAccount `{Platform} (env : Env) (st : Store) (h : Headers) (b : Body)
  : Response unit * Store :=
  withAuth env st h (fun reqUser =>
    let errs := notEmpty b "password" "Password is required for account deletion" in
    if negb (isEmptyList errs) then (invalid errs, st)
    else
      match findUserById st (u_id reqUser) with
      | None => (failure 404 "User not found", st)
      | Some user =>
          match bodyField "password" b with
          | Some (BStr password) =>
              match comparePassword user password with
              | None => (failure 500 "Error deleting account", st)
              | Some false => (failure 401 "Invalid password", st)
              | Some true =>
                  if (0 <? activeBookings st (u_id reqUser))%nat
                  then (failure 400 "Cannot delete account with active bookings. Please cancel or complete all bookings first.", st)
                  else (mkResponse 200 "success" (Some "Account deleted successfully")
                                   None [] None,
                        deleteUserAndBookings st (u_id reqUser))
              end
          | _ => (failure 500 "Error deleting account", st)
          end
      end).

(** A numeric query parameter as its reader takes it: not sent, sent but
    not a number (a validator refuses it, [parseInt]/[parseFloat] give
    NaN), or a number. *)
Inductive Param (A : Type) :=
| Absent
| Malformed
| Given (a : A).

Arguments Absent {A}.
Arguments Malformed {A}.
Arguments Given {A}.

(** [parseInt(x)] of an unvalidated parameter; [None] is NaN. *)
Definition parsed {A} (p : Param A) : option A :=
  match p with
  | Given a => Some a
  | _ => None
  end.

(** [GET /api/users] (admin) *)
Definition listUsers `{Platform} (env : Env) (st : Store) (h : Headers)
    (qpage qlimit : Param Z) : Response (list Fields) * Store :=
  withAuth env st h (fun reqUser =>
    match authorize ["admin"] (Some reqUser) with
    | Respond code msg => (failure code msg, st)
    | Next _ =>
        let page := JS.orDefault (parsed qpage) 1 in
        let limit := JS.orDefault (parsed qlimit) 20 in
        let skip := ((page - 1) * limit)%Z in
        let all := sortBy (fun a b => (u_createdAt b <=? u_createdAt a)%Z)
                          (map withoutPassword (users st)) in
        match skipLimit all skip limit with
        | None => (failure 500 "Error fetching users", st)
        | Some found =>
            let total := Z.of_nat (length (users st)) in
            (mkResponse 200 "success" None (Some (map toJSON found)) []
                        (Some (mkPagination page limit total (JS.ceilDiv total limit))), st)
        end
    end).

(* ------------------------------------------------------------------ *)
(** ** routes/bookings.ts *)

(** [.populate('user', 'firstName lastName email')] *)
Definition populateUser (st : Store) (b : Booking) : option Fields :=
  option_map (fun u => [("_id", JStr (u_id u)); ("firstName", JStr (firstName u));
                        ("lastName", JStr (lastName u)); ("email", JStr (email u))])
             (findUserById st (b_user b)).

Definition populated (st : Store) (b : Booking) : Booking * option Fields :=
  (b, populateUser st b).

Record BookingsQuery := mkBookingsQuery {
  bq_type : option string;
  bq_status : option string;
  bq_page : Param Z;
  bq_limit : Param Z
}.

Definition optionalIn (v : option string) (allowed : list string) (path : string)
  : list FieldError :=
  match v with
  | Some s => check (inList s allowed) path "Invalid value"
  | None => []
  end.

(** [optional().isInt({ min, max })] *)
Definition optionalInt (p : Param Z) (ok : Z -> bool) (path : string) : list FieldError :=
  match p with
  | Absent => []
  | Malformed => [mkFieldError path "Invalid value"]
  | Given n => check (ok n) path "Invalid value"
  end.

Definition bookingsValidation (q : BookingsQuery) : list FieldError :=
  optionalIn (bq_type q) bookingTypes "type" ++
  optionalIn (bq_status q) bookingStatuses "status" ++
  optionalInt (bq_page q) (fun n => (1 <=? n)%Z) "page" ++
  optionalInt (bq_limit q) (fun n => (1 <=? n)%Z && (n <=? 100)%Z) "limit".

(** The filter [{ user, type?, status? }] *)
Definition matchesFilters (uid : string) (q : BookingsQuery) (b : Booking) : bool :=
  ownedBy uid b &&
  (if JS.truthy (bq_type q) then b_type b =? orElse (bq_type q) "" else true) &&
  (if JS.truthy (bq_status q) then status b =? orElse (bq_status q) "" else true).

(** [GET /api/bookings] *)
Definition listBookings `{Platform} (env : Env) (st : Store) (h : Headers)
    (q : BookingsQuery) : Response (list (Booking * option Fields)) * Store :=
  withAuth env st h (fun reqUser =>
    let errs := bookingsValidation q in
    if negb (isEmptyList errs) then (invalid errs, st)
    else
      let page := orElse (parsed (bq_page q)) 1%Z in
      let limitNum := orElse (parsed (bq_limit q)) 20%Z in
      let skip := ((page - 1) * limitNum)%Z in
      let matching := filter (matchesFilters (u_id reqUser) q) (bookings st) in
      let sorted := sortBy (fun a b => (b_createdAt b <=? b_createdAt a)%Z) matching in
      match skipLimit sorted skip limitNum with
      | None => (failure 500 "Error fetching bookings", st)
      | Some found =>
          let total := Z.of_nat (length matching) in
          (mkResponse 200 "success" None (Some (map (populated st) found)) []
                      (Some (mkPagination page limitNum total (JS.ceilDiv total limitNum))),
           st)
      end).

(** Mongoose casts a string in the place of an [_id] to an ObjectId.  The
    24 hexadecimal digits that [isMongoId] lets through denote the same
    ObjectId in every spelling of the letters, so two ids are compared on
    their lower-case spelling, the one [toString] gives. *)
Definition sameObjectId (a b : string) : bool :=
  JS.toLowerCase a =? JS.toLowerCase b.

(** [Booking.findOne({ _id: id, user })] *)
Definition findOwnBooking (st : Store) (id uid : string) : option Booking :=
  find (fun b => sameObjectId (b_id b) id && ownedBy uid b) (bookings st).

Definition idValidation `{Platform} (id : string) : list FieldError :=
  check (isMongoId id) "id" "Valid booking ID is required".

(** [GET /api/bookings/:id] *)
Definition getBooking `{Platform} (env : Env) (st : Store) (h : Headers) (id : string)
  : Response (Booking * option Fields) * Store :=
  withAuth env st h (fun reqUser =>
    let errs := idValidation id in
    if negb (isEmptyList errs) then (invalid errs, st)
    else
      match findOwnBooking st id (u_id reqUser) with
      | None => (failure 404 "Booking not found", st)
      | Some booking => (success 200 None (populated st booking), st)
      end).

(** The handler of [DELETE /api/bookings/:id], after [authenticate]. *)
Definition cancelHandler `{Platform} (env : Env) (st : Store) (reqUser : User)
    (id : string) : Response Booking * Store :=
  let errs := idValidation id in
  if negb (isEmptyList errs) then (invalid errs, st)
  else
    match findOwnBooking st id (u_id reqUser) with
    | None => (failure 404 "Booking not found", st)
    | Some booking =>
        if status booking =? "cancelled"
        then (failure 400 "Booking is already cancelled", st)
        else if status booking =? "completed"
        then (failure 400 "Cannot cancel a completed booking", st)
        else
          match saveBooking env st (setStatus booking "cancelled") with
          | None => (failure 500 "Error cancelling booking", st)
          | Some (booking', st') =>
              (success 200 (Some "Booking cancelled successfully") booking', st')
          end
    end.

(** [DELETE /api/bookings/:id] *)
Definition cancelBooking `{Platform} (env : Env) (st : Store) (h : Headers) (id : string)
  : Response Booking * Store :=
  withAuth env st h (fun reqUser => cancelHandler env st reqUser id).

(** [Booking.findOne({ bookingReference, user })] *)
Definition findByReference (st : Store) (ref uid : string) : option Booking :=
  find (fun b => (bookingReference b =? ref) && ownedBy uid b) (bookings st).

(** The handler of [GET /api/bookings/reference/:reference]. *)
Definition referenceHandler (st : Store) (reqUser : User) (reference : string)
  : Response (Booking * option Fields) * Store :=
  match findByReference st (JS.toUpperCase reference) (u_id reqUser) with
  | None => (failure 404 "Booking not found with this reference number", st)
  | Some booking => (success 200 None (populated st booking), st)
  end.

(** [GET /api/bookings/reference/:reference] *)
Definition getByReference `{Platform} (env : Env) (st : Store) (h : Headers)
    (reference : string) : Response (Booking * option Fields) * Store :=
  withAuth env st h (fun reqUser => referenceHandler st reqUser reference).

(* ------------------------------------------------------------------ *)
(** ** routes/restaurants.ts *)

#[local] Set Warnings "-inexact-float".

Record Coordinates := mkCoordinates { lat : float; lng : float }.

Record Location := mkLocation {
  address : string;
  city : string;
  country : string;
  coordinates : Coordinates
}.

Record Contact := mkContact {
  c_phone : string;
  website : option string;
  c_email : option string
}.

Record Hours := mkHours { open : string; close : string; closed : bool }.

Record OpeningHours := mkOpeningHours {
  monday : Hours; tuesday : Hours; wednesday : Hours; thursday : Hours;
  friday : Hours; saturday : Hours; sunday : Hours
}.

Record Restaurant := mkRestaurant {
  r_id : string;
  name : string;
  cuisine : list string;
  rating : Q;
  priceRange : string;
  location : Location;
  contact : Contact;
  openingHours : OpeningHours;
  images : list string;
  features : list string;
  description : string
}.

Definition opens (o c : string) : Hours := mkHours o c false.

Definition goldenSpoon : Restaurant :=
  mkRestaurant "REST001" "The Golden Spoon" ["Italian"; "Mediterranean"] 4.5%Q "$$$"
    (mkLocation "789 Restaurant Row" "New York" "USA"
                (mkCoordinates 40.7580%float (-73.9855)%float))
    (mkContact "+1-555-0123" (Some "https://thegoldenspoon.com")
               (Some "info@thegoldenspoon.com"))
    (mkOpeningHours (opens "17:00" "22:00") (opens "17:00" "22:00")
                    (opens "17:00" "22:00") (opens "17:00" "23:00")
                    (opens "17:00" "23:00") (opens "16:00" "23:00")
                    (opens "16:00" "22:00"))
    ["https://example.com/restaurant1-1.jpg"; "https://example.com/restaurant1-2.jpg"]
    ["Outdoor Seating"; "Wine Bar"; "Romantic"; "Business Dining"]
    "An elegant Italian restaurant featuring authentic Mediterranean cuisine in the heart of Manhattan.".

Definition sakuraSushi : Restaurant :=
  mkRestaurant "REST002" "Sakura Sushi" ["Japanese"; "Sushi"] 4.8%Q "$$"
    (mkLocation "456 Sushi Street" "Los Angeles" "USA"
                (mkCoordinates 34.0522%float (-118.2437)%float))
    (mkContact "+1-555-0456" (Some "https://sakurasushi.com") None)
    (mkOpeningHours (opens "11:30" "21:00") (opens "11:30" "21:00")
                    (opens "11:30" "21:00") (opens "11:30" "21:00")
                    (opens "11:30" "22:00") (opens "11:30" "22:00")
                    (opens "12:00" "21:00"))
    ["https://example.com/restaurant2-1.jpg"; "https://example.com/restaurant2-2.jpg"]
    ["Fresh Fish"; "Sushi Bar"; "Takeout"; "Lunch Specials"]
    "Fresh, authentic sushi and Japanese cuisine made with the finest ingredients.".

Definition lePetitBistro : Restaurant :=
  mkRestaurant "REST003" "Le Petit Bistro" ["French"] 4.3%Q "$$$$"
    (mkLocation "123 French Quarter" "Chicago" "USA"
                (mkCoordinates 41.8781%float (-87.6298)%float))
    (mkContact "+1-555-0789" (Some "https://lepetitbistro.com")
               (Some "reservations@lepetitbistro.com"))
    (mkOpeningHours (mkHours "" "" true) (opens "17:30" "22:00")
                    (opens "17:30" "22:00") (opens "17:30" "22:00")
                    (opens "17:30" "23:00") (opens "17:30" "23:00")
                    (opens "17:00" "21:30"))
    ["https://example.com/restaurant3-1.jpg"; "https://example.com/restaurant3-2.jpg"]
    ["Fine Dining"; "Wine Cellar"; "Chef's Table"; "Private Dining"]
    "Classic French cuisine in an intimate bistro setting with an extensive wine collection.".

Definition mockRestaurants : list Restaurant :=
  [goldenSpoon; sakuraSushi; lePetitBistro].

(** [xs.some(x => x.toLowerCase().includes(needle.toLowerCase()))] *)
Definition someIncludes (xs : list string) (needle : string) : bool :=
  existsb (fun x => JS.includes (JS.toLowerCase x) (JS.toLowerCase needle)) xs.

Definition matchesCuisine (q : option string) (r : Restaurant) : bool :=
  if JS.truthy q then someIncludes (cuisine r) (orElse q "") else true.

Definition matchesPriceRange (q : option string) (r : Restaurant) : bool :=
  if JS.truthy q then priceRange r =? orElse q "" else true.

(** [if (rating) matchesRating = restaurant.rating >= parseFloat(rating)];
    a comparison with NaN is false. *)
Definition matchesRating (q : Param Q) (r : Restaurant) : bool :=
  match q with
  | Absent => true
  | Malformed => false
  | Given x => Qle_bool x (rating r)
  end.

Definition matchesFeatures (q : option string) (r : Restaurant) : bool :=
  if JS.truthy q
  then existsb (fun feature => someIncludes (features r) feature)
               (JS.split "," (orElse q ""))
  else true.

(** The pagination block shared by [/search] and [/nearby]. *)
Definition paginate {A} (items : list A) (qpage qlimit : Param Z)
  : list A * Pagination :=
  let page := JS.orDefault (parsed qpage) 1 in
  let limit := JS.orDefault (parsed qlimit) 20 in
  let startIndex := ((page - 1) * limit)%Z in
  let endIndex := (page * limit)%Z in
  (JS.slice items startIndex endIndex,
   mkPagination page limit (Z.of_nat (length items))
                (JS.ceilDiv (Z.of_nat (length items)) limit)).

Record SearchQuery := mkSearchQuery {
  sq_location : option string;
  sq_cuisine : option string;
  sq_priceRange : option string;
  sq_rating : Param Q;
  sq_features : option string;
  sq_page : Param Z;
  sq_limit : Param Z
}.

Definition priceRanges : list string := ["$"; "$$"; "$$$"; "$$$$"].

Definition searchValidation (q : SearchQuery) : list FieldError :=
  check (JS.truthy (sq_location q)) "location" "Location is required" ++
  optionalIn (sq_priceRange q) priceRanges "priceRange" ++
  match sq_rating q with
  | Absent => []
  | Malformed => [mkFieldError "rating" "Invalid value"]
  | Given x => check (Qle_bool 1 x && Qle_bool x 5) "rating" "Invalid value"
  end.

Definition matchesLocation (loc : string) (r : Restaurant) : bool :=
  JS.includes (JS.toLowerCase (city (location r))) (JS.toLowerCase loc) ||
  JS.includes (JS.toLowerCase (country (location r))) (JS.toLowerCase loc).

Definition searchFilter (q : SearchQuery) (r : Restaurant) : bool :=
  matchesLocation (orElse (sq_location q) "") r &&
  matchesCuisine (sq_cuisine q) r &&
  matchesPriceRange (sq_priceRange q) r &&
  matchesRating (sq_rating q) r &&
  matchesFeatures (sq_features q) r.

(** The list [/search] paginates: filtered, then sorted by rating,
    descending. *)
Definition searchResults (q : SearchQuery) : list Restaurant :=
  sortBy (fun a b => Qle_bool (rating b) (rating a))
         (filter (searchFilter q) mockRestaurants).

(** [GET /api/restaurants/search]; the echo of the search parameters in
    [data] is left out. *)
Definition search `{Platform} (env : Env) (st : Store) (h : Headers) (q : SearchQuery)
  : Response (list Restaurant) :=
  let errs := searchValidation q in
  match optionalAuth env st h with
  | Respond code msg => failure code msg
  | Next _ =>
      if negb (isEmptyList errs) then invalid errs
      else
        let (paginatedRestaurants, pg) :=
          paginate (searchResults q) (sq_page q) (sq_limit q) in
        mkResponse 200 "success" None (Some paginatedRestaurants) [] (Some pg)
  end.

(** [Math.sin], [Math.cos] and [Math.atan2].  ECMAScript asks for an
    approximation and leaves the result to the implementation, so the
    three functions are parameters.  The arithmetic operators and
    [Math.sqrt] are the IEEE 754 operations on binary64. *)
Class MathLib := {
  Math_sin : float -> float;
  Math_cos : float -> float;
  Math_atan2 : float -> float -> float
}.

(** [Math.PI] *)
Definition Math_PI : float := 3.141592653589793%float.

(** The Haversine formula of [/nearby]. *)
Local Open Scope float_scope.

Definition calculateDistance `{MathLib} (lat1 lng1 lat2 lng2 : float) : float :=
  let R := 6371 in
  let dLat := (lat2 - lat1) * (Math_PI / 180) in
  let dLng := (lng2 - lng1) * (Math_PI / 180) in
  let a :=
    Math_sin (dLat / 2) * Math_sin (dLat / 2) +
    Math_cos (lat1 * (Math_PI / 180)) * Math_cos (lat2 * (Math_PI / 180)) *
    Math_sin (dLng / 2) * Math_sin (dLng / 2) in
  let c := 2 * Math_atan2 (sqrt a) (sqrt (1 - a)) in
  R * c.

Record NearbyQuery := mkNearbyQuery {
  nq_lat : Param float;
  nq_lng : Param float;
  nq_radius : Param float;
  nq_cuisine : option string;
  nq_priceRange : option string;
  nq_rating : Param Q;
  nq_page : Param Z;
  nq_limit : Param Z
}.

Definition isGiven {A} (p : Param A) : bool :=
  match p with Given _ => true | _ => false end.

Definition nearbyValidation (q : NearbyQuery) : list FieldError :=
  check (isGiven (nq_lat q)) "lat" "Valid latitude is required" ++
  check (isGiven (nq_lng q)) "lng" "Valid longitude is required" ++
  match nq_radius q with
  | Absent => []
  | Malformed => [mkFieldError "radius" "Radius must be between 0.1 and 50 km"]
  | Given r => check ((0.1 <=? r) && (r <=? 50)) "radius"
                     "Radius must be between 0.1 and 50 km"
  end.

(** [{ ...restaurant, distance }] *)
Definition withDistance `{MathLib} (userLat userLng : float) (r : Restaurant)
  : Restaurant * float :=
  (r, calculateDistance userLat userLng
        (lat (coordinates (location r))) (lng (coordinates (location r)))).

Definition nearbyFilter (q : NearbyQuery) (r : Restaurant * float) : bool :=
  matchesCuisine (nq_cuisine q) (fst r) &&
  matchesPriceRange (nq_priceRange q) (fst r) &&
  matchesRating (nq_rating q) (fst r).

(** The comparator [(a, b) => a.distance - b.distance] of the sort: [a]
    may stay before [b] unless the difference is positive. *)
Definition byDistance (a b : Restaurant * float) : bool :=
  negb (0 <? snd a - snd b).

(** The list [/nearby] paginates. *)
Definition nearbyRestaurants `{MathLib} (q : NearbyQuery)
    (userLat userLng searchRadius : float) : list (Restaurant * float) :=
  sortBy byDistance
    (filter (nearbyFilter q)
       (filter (fun r => snd r <=? searchRadius)
          (map (withDistance userLat userLng) mockRestaurants))).

(** [GET /api/restaurants/nearby]; the echo of the search parameters in
    [data] is left out. *)
Definition nearby `{MathLib} (q : NearbyQuery) : Response (list (Restaurant * float)) :=
  let errs := nearbyValidation q in
  if negb (isEmptyList errs) then invalid errs
  else
    match nq_lat q, nq_lng q with
    | Given userLat, Given userLng =>
        let searchRadius := orElse (parsed (nq_radius q)) 5 in
        let (paginatedRestaurants, pg) :=
          paginate (nearbyRestaurants q userLat userLng searchRadius)
                   (nq_page q) (nq_limit q) in
        mkResponse 200 "success" None (Some paginatedRestaurants) [] (Some pg)
    | _, _ => failure 500 "Error finding nearby restaurants"
    end.

Local Close Scope float_scope.

(** [GET /api/restaurants/:id] *)
Definition getRestaurant (id : string) : Response Restaurant :=
  match find (fun r => r_id r =? id) mockRestaurants with
  | None => failure 404 "Restaurant not found"
  | Some restaurant => success 200 None restaurant
  end.

(* ------------------------------------------------------------------ *)
(** ** A concrete platform and a sample store

    Simple stand-ins for the libraries, used to run the handlers on
    concrete requests: a token is the secret, a colon and the user id; a
    hash wraps the password. *)

Module Sample.

Definition isHex (c : ascii) : bool :=
  JS.isDigit c ||
  (let n := nat_of_ascii c in
   ((97 <=? n) && (n <=? 102) || (65 <=? n) && (n <=? 70))%nat).

Fixpoint allString (p : ascii -> bool) (s : string) : bool :=
  match s with
  | EmptyString => true
  | String c s' => p c && allString p s'
  end.

Definition verify (token : string) (secret : option string) : option JwtPayload :=
  match secret with
  | Some sec =>
      if String.prefix (sec ++ ":")%string token
      then Some (mkJwtPayload
                   (String.substring (String.length sec + 1) (String.length token) token)
                   "" "")
      else None
  | None => None
  end.

Definition platform : Platform := {|
  jwt_sign := fun p secret _ => (secret ++ ":" ++ userId p)%string;
  jwt_verify := verify;
  bcrypt_hash := fun p _ => ("h(" ++ p ++ ")")%string;
  bcrypt_compare := fun entered h => (h =? "h(" ++ entered ++ ")")%string;
  isEmail := fun s => JS.includes s "@";
  normalizeEmail := JS.toLowerCase;
  isMongoId := fun s => (String.length s =? 24)%nat && allString isHex s;
  isISO8601 := fun s => (String.length s =? 10)%nat;
  parseDate := fun _ => Some 0%Z;
  emailPattern := fun s => JS.includes s "@"
|}.

Definition env : Env :=
  mkEnv (Some "s3cret") None 1700000000000 "salt" "64b7f0c2a1d3e4f5a6b7c8dc" "0.k3x9q2m7".

Definition aliceId : string := "64b7f0c2a1d3e4f5a6b7c8d0".
Definition bobId : string := "64b7f0c2a1d3e4f5a6b7c8d1".

Definition alice : User :=
  mkUser aliceId "Alice" "Ames" "alice@example.com" (Some "h(Passw0rd)") None None None
         defaultPreferences false "user" 1000 1000 0.

Definition bob : User :=
  mkUser bobId "Bob" "Bell" "bob@example.com" (Some "h(Secr3tB)") None None None
         defaultPreferences false "admin" 2000 2000 0.

Definition booking (id owner ref st : string) (created : Z) : Booking :=
  mkBooking id owner "flight" ref st 100 "USD"
            (JObj [("flightNumber", JStr "TB101")]) created created.

Definition pendingId : string := "74b7f0c2a1d3e4f5a6b7c8e0".
Definition doneId : string := "74b7f0c2a1d3e4f5a6b7c8e1".
Definition bobsId : string := "74b7f0c2a1d3e4f5a6b7c8e2".

(** Alice holds a pending and a completed booking, Bob a cancelled one. *)
Definition store : Store :=
  mkStore [alice; bob]
          [booking pendingId aliceId "FLIGHT-LOA1B2C3-K3X9Q" "pending" 10;
           booking doneId aliceId "FLIGHT-LOA1B2C4-ZZ9QA" "completed" 20;
           booking bobsId bobId "HOTEL-LOA1B2C5-AB12C" "cancelled" 30].

Definition bearer (id : string) : Headers :=
  mkHeaders (Some ("Bearer s3cret:" ++ id)%string) None.

Definition viaCookie (id : string) : Headers :=
  mkHeaders None (Some ("theme=dark; token=s3cret:" ++ id)%string).

Definition anonymous : Headers := mkHeaders None None.

(** Stand-ins for the trigonometric functions, good near 0: the first
    terms of their series. *)
Definition math : MathLib := {|
  Math_sin := fun x => (x - x * x * x / 6)%float;
  Math_cos := fun x => (1 - x * x / 2)%float;
  Math_atan2 := fun y x => (y / x)%float
|}.

End Sample.

(* ------------------------------------------------------------------ *)
(** ** Vocabulary of the properties *)

(** An object without a [password] key. *)
Definition noPassword (o : Fields) : Prop := hasField "password" o = false.

(** A property of the [data] of a response, when it carries one. *)
Definition dataSatisfies {D} (P : D -> Prop) (r : Response D) : Prop :=
  match data r with
  | Some d => P d
  | None => True
  end.

(** A property of the account a middleware attaches, when it attaches one. *)
Definition attachedSatisfies (P : User -> Prop) (r : MwResult) : Prop :=
  match r with
  | Next (Some u) => P u
  | _ => True
  end.

(** The page in the words of the specification: the items at the indices
    from [(p-1)·L] (included) to [p·L] (excluded). *)
Definition pageOf {A} (items : list A) (p L : Z) : list A :=
  firstn (Z.to_nat L) (skipn (Z.to_nat ((p - 1) * L)) items).

(** [t] is the ceiling of [N / L]: the least integer with [N <= t·L]. *)
Definition isCeiling (N L t : Z) : Prop :=
  (N <= t * L /\ (t - 1) * L < N)%Z.

(** The bookings a listing request matches, newest first. *)
Definition matchingBookings (st : Store) (uid : string) (q : BookingsQuery) : list Booking :=
  sortBy (fun a b => (b_createdAt b <=? b_createdAt a)%Z)
         (filter (matchesFilters uid q) (bookings st)).

(** The accounts of the admin listing, newest first, passwords not
    loaded. *)
Definition newestUsers (st : Store) : list User :=
  sortBy (fun a b => (u_createdAt b <=? u_createdAt a)%Z)
         (map withoutPassword (users st)).

(** Two strings that differ at most in the case of their letters. *)
Definition caseVariant (r r' : string) : Prop :=
  JS.toLowerCase r = JS.toLowerCase r'.

(* ------------------------------------------------------------------ *)
(** ** middleware/errorHandler.ts *)

(** An error as the handler reads it: [name], [message], the optional
    [status], [statusCode] and [code], the messages of the values of
    [errors] (absent on most errors) and the stack. *)
Record ErrorWithStatus := mkError {
  e_name : string;
  e_message : string;
  e_status : option Z;
  e_statusCode : option Z;
  e_code : option Z;
  e_errors : option (list string);
  e_stack : option string
}.

(** The call [res.status(code).json(body)] that ends the handler: the
    HTTP code and the body [{ status, message, stack? }] handed to
    Express. *)
Record ErrorResponse := mkErrorResponse {
  er_code : Z;
  er_status : string;
  er_message : string;
  er_stack : option string
}.

(** [a || b] on numbers that may be missing: [undefined] and [0] are
    falsy. *)
Definition orNumber (a : option Z) (b : Z) : Z :=
  match a with
  | Some n => if (n =? 0)%Z then b else n
  | None => b
  end.

(** [xs.join(', ')] *)
Definition joinComma (xs : list string) : string := String.concat ", " xs.

(** The local [error] of the handler: message, status, statusCode. *)
Definition ErrorView : Type := string * option Z * option Z.

(** [res.status(code).json(body)] sends only a code from 100 to 999; on
    any other the call throws a RangeError. *)
Definition validStatus (code : Z) : bool := (100 <=? code)%Z && (code <=? 999)%Z.

(** [...(process.env.NODE_ENV === 'development' && { stack: err.stack })] *)
Definition sentStack (nodeEnv : option string) (stack : option string) : option string :=
  match nodeEnv with
  | Some e => if e =? "development" then stack else None
  | None => None
  end.

(** [errorHandler]; [None] when the handler itself throws, which
    [Object.values(err.errors)] does on an error named ValidationError
    that has no [errors], and [res.status] does on a status that is not an
    HTTP code. *)
Definition errorHandler (nodeEnv : option string) (err : ErrorWithStatus)
  : option ErrorResponse :=
  let error : ErrorView := (e_message err, e_status err, e_statusCode err) in
  let error : ErrorView :=
    if e_name err =? "CastError" then ("Resource not found", Some 404%Z, None)
    else error in
  let error : ErrorView :=
    match e_code err with
    | Some c => if (c =? 11000)%Z then ("Duplicate field value entered", Some 400%Z, None)
                else error
    | None => error
    end in
  let validated : option ErrorView :=
    if e_name err =? "ValidationError" then
      match e_errors err with
      | Some msgs => Some (joinComma msgs, Some 400%Z, None)
      | None => None
      end
    else Some error in
  match validated with
  | None => None
  | Some error =>
      let error : ErrorView :=
        if e_name err =? "JsonWebTokenError" then ("Invalid token", Some 401%Z, None)
        else error in
      let error : ErrorView :=
        if e_name err =? "TokenExpiredError" then ("Token expired", Some 401%Z, None)
        else error in
      let '(msg, st, stc) := error in
      let statusCode := orNumber st (orNumber stc 500) in
      if validStatus statusCode then
        Some (mkErrorResponse statusCode "error"
                (if msg =? "" then "Server Error" else msg)
                (sentStack nodeEnv (e_stack err)))
      else None
  end.

(** The error [notFound] hands to [next]. *)
Definition notFound (originalUrl : string) (stack : option string) : ErrorWithStatus :=
  mkError "Error" ("Route " ++ originalUrl ++ " not found") (Some 404%Z) None None None
          stack.

(* ------------------------------------------------------------------ *)
(** ** The dev-server configuration: the filter put on [console.warn] *)

(** [true] when the replaced [console.warn] returns without printing: some
    argument is a string (here [Some]) that includes one of the three
    words. *)
Definition warnSuppressed (args : list (option string)) : bool :=
  existsb (fun arg =>
             match arg with
             | Some s => JS.includes s "unload" || JS.includes s "beforeunload" ||
                         JS.includes s "deprecated"
             | None => false
             end) args.

(* ------------------------------------------------------------------ *)
(** ** More vocabulary *)

(** The paths of an account that no update route may change. *)
Definition identityOf (u : User) : string * string * option string * string * bool * Z :=
  (u_id u, email u, u_password u, role u, isEmailVerified u, u_createdAt u).

(** A string without the character [c]. *)
Definition lacks (c : ascii) (s : string) : bool :=
  negb (JS.existsString (Ascii.eqb c) s).

(** A string without white space. *)
Definition spaceless (s : string) : bool := negb (JS.existsString JS.isSpace s).

(** [st'] is [st], or [st] after one account took a patch. *)
Definition patchedStore (st st' : Store) : Prop :=
  st' = st \/
  exists env p u,
    In u (users st) /\
    st' = mkStore (replaceUser (applyPatch env p u) (users st)) (bookings st).

(** The sample platform with a date parser that reads every date as a day
    in 2027, after the clock of the sample environment. *)
Definition laterPlatform : Platform := {|
  jwt_sign := @jwt_sign Sample.platform;
  jwt_verify := @jwt_verify Sample.platform;
  bcrypt_hash := @bcrypt_hash Sample.platform;
  bcrypt_compare := @bcrypt_compare Sample.platform;
  isEmail := @isEmail Sample.platform;
  normalizeEmail := @normalizeEmail Sample.platform;
  isMongoId := @isMongoId Sample.platform;
  isISO8601 := @isISO8601 Sample.platform;
  parseDate := fun _ => Some 1800000000000%Z;
  emailPattern := @emailPattern Sample.platform
|}.

(** A pending booking of Alice without details, which the schema
    requires, and the sample store holding it. *)
Definition detailless : Booking :=
  mkBooking Sample.pendingId Sample.aliceId "flight" "FLIGHT-LOA1B2C3-K3X9Q" "pending"
            100 "USD" JNull 10 10.

Definition legacyStore : Store := mkStore (users Sample.store) [detailless].

(** A booking of Alice that was stored with a reference in lower case,
    and the sample store holding it. *)
Definition lowerCased : Booking :=
  Sample.booking Sample.pendingId Sample.aliceId "abc-1" "confirmed" 10.

Definition lowerStore : Store := mkStore (users Sample.store) [lowerCased].

(** Binary64 numbers in the order of [<=]. *)
Definition SFisNaN (a : spec_float) : bool :=
  match a with S754_nan => true | _ => false end.

(** The place of a number in the order: sign class, exponent and mantissa,
    compared one after the other. *)
Definition SFkey (a : spec_float) : Z * Z * Z :=
  match a with
  | S754_nan => (0, 0, 0)
  | S754_infinity true => (-2, 0, 0)
  | S754_infinity false => (2, 0, 0)
  | S754_zero _ => (0, 0, 0)
  | S754_finite true m e => (-1, - e, - Zpos m)
  | S754_finite false m e => (1, e, Zpos m)
  end%Z.

Definition lexcmp (p q : Z * Z * Z) : comparison :=
  let '(a1, a2, a3) := p in
  let '(b1, b2, b3) := q in
  match (a1 ?= b1)%Z with
  | Eq => match (a2 ?= b2)%Z with
          | Eq => (a3 ?= b3)%Z
          | c => c
          end
  | c => c
  end.

(** The items of a listing request are the requester's own. *)
Definition ownListing (uid : string) (found : list (Booking * option Fields)) : Prop :=
  Forall (fun pb => b_user (fst pb) = uid) found.

(* ------------------------------------------------------------------ *)
(** ** Sanity checks: the handlers run on the sample store *)

Example authenticate_bearer :
  @authenticate Sample.platform Sample.env Sample.store (Sample.bearer Sample.aliceId)
  = Next (Some (withoutPassword Sample.alice)).
Proof. reflexivity. Qed.

Example authenticate_cookie :
  @authenticate Sample.platform Sample.env Sample.store (Sample.viaCookie Sample.aliceId)
  = Next (Some (withoutPassword Sample.alice)).
Proof. reflexivity. Qed.

Example authenticate_anonymous :
  @authenticate Sample.platform Sample.env Sample.store Sample.anonymous
  = Respond 401 "Access denied. No token provided.".
Proof. reflexivity. Qed.

Example generateReference_sample :
  generateReference Sample.env "flight" = "FLIGHT-LOYW3V28-K3X9Q".
Proof. vm_compute. reflexivity. Qed.

(** A save of a booking without details is refused, and the cancel is
    answered 500 with the booking still pending. *)
Example cancel_detailless_sample :
  @cancelBooking Sample.platform Sample.env legacyStore (Sample.bearer Sample.aliceId)
     Sample.pendingId
  = (failure 500 "Error cancelling booking", legacyStore).
Proof. reflexivity. Qed.

(** Around the place of Sakura Sushi, radius 1 km: the restaurant itself,
    at distance 0. *)
Example nearby_sample :
  @nearby Sample.math
     (mkNearbyQuery (Given 34.0522%float) (Given (-118.2437)%float) (Given 1%float)
                    None None Absent Absent Absent)
  = mkResponse 200 "success" None (Some [(sakuraSushi, 0%float)]) []
               (Some (mkPagination 1 20 1 1)).
Proof. vm_compute. reflexivity. Qed.

Example toObject_keeps_password :
  hasField "password" (toObject Sample.alice) = true.
Proof. reflexivity. Qed.

(* ------------------------------------------------------------------ *)
(** ** Basic facts about the primitives *)

Lemma isEmptyList_true {A} (l : list A) : isEmptyList l = true <-> l = [].
Proof. destruct l; simpl; split; congruence. Qed.

Lemma check_nil (ok : bool) (path msg : string) : check ok path msg = [] <-> ok = true.
Proof. destruct ok; simpl; split; congruence. Qed.

Lemma find_In {A} (p : A -> bool) (l : list A) (x : A) :
  find p l = Some x -> In x l /\ p x = true.
Proof. apply find_some. Qed.

Lemma findUserById_spec (st : Store) (id : string) (u : User) :
  findUserById st id = Some u -> In u (users st) /\ u_id u = id.
Proof.
  intros Hf. apply find_In in Hf. destruct Hf as [Hin Heq].
  split; [assumption | now apply String.eqb_eq].
Qed.

Lemma findOwnBooking_spec (st : Store) (id uid : string) (b : Booking) :
  findOwnBooking st id uid = Some b ->
  In b (bookings st) /\ sameObjectId (b_id b) id = true /\ b_user b = uid.
Proof.
  intros Hf. apply find_In in Hf. destruct Hf as [Hin Hp].
  apply andb_true_iff in Hp. destruct Hp as [Hid Hown].
  repeat split; [assumption | assumption | now apply String.eqb_eq].
Qed.

(** After a loaded booking is written back, the same query finds it. *)
Lemma findOwnBooking_replace (l : list Booking) (us : list User) (id : string)
    (b b' : Booking) :
  findOwnBooking (mkStore us l) id (b_user b') = Some b ->
  b_id b' = b_id b ->
  findOwnBooking (mkStore us (replaceBooking b' l)) id (b_user b') = Some b'.
Proof.
  unfold findOwnBooking, ownedBy; simpl. intros Hf Hid.
  induction l as [|x l IH]; simpl in *; [discriminate|].
  destruct (sameObjectId (b_id x) id && (b_user x =? b_user b')) eqn:Hp.
  - injection Hf as <-. rewrite Hid, String.eqb_refl.
    apply andb_true_iff in Hp. destruct Hp as [Hsame _].
    now rewrite Hid, Hsame, String.eqb_refl.
  - destruct (b_id x =? b_id b') eqn:Hx.
    + apply String.eqb_eq in Hx. rewrite <- Hx, String.eqb_refl.
      destruct (sameObjectId (b_id x) id); [reflexivity|]. simpl. now apply IH.
    + rewrite Hp. now apply IH.
Qed.

Section Middleware.
Context `{Platform}.

Lemma withAuth_next {D} env st h (handler : User -> Response D * Store) u :
  authenticate env st h = Next (Some u) -> withAuth env st h handler = handler u.
Proof. unfold withAuth. now intros ->. Qed.

Lemma withAuth_respond {D} env st h (handler : User -> Response D * Store) code msg :
  authenticate env st h = Respond code msg ->
  withAuth env st h handler = (failure code msg, st).
Proof. unfold withAuth. now intros ->. Qed.

(** [authenticate] reads the users of the store and nothing else. *)
Lemma authenticate_same_users env st st' h :
  users st' = users st -> authenticate env st' h = authenticate env st h.
Proof.
  intros Hu. unfold authenticate, resolveToken, findUserById. now rewrite Hu.
Qed.

(** What [next()] with an attached account implies. *)
Lemma authenticate_next_inv env st h ou :
  authenticate env st h = Next ou ->
  exists t d stored,
    extractToken h = Some t /\ t <> "" /\
    jwt_verify t (JWT_SECRET env) = Some d /\
    findUserById st (userId d) = Some stored /\
    ou = Some (withoutPassword stored).
Proof.
  unfold authenticate, resolveToken.
  destruct (extractToken h) as [t|] eqn:Ht; simpl; [|discriminate].
  destruct (t =? "") eqn:Hempty; simpl; [discriminate|].
  destruct (jwt_verify t (JWT_SECRET env)) as [d|] eqn:Hv; [|discriminate].
  destruct (findUserById st (userId d)) as [stored|] eqn:Hf; simpl; [|discriminate].
  intros Heq. injection Heq as <-.
  exists t, d, stored. repeat split; try assumption.
  now apply String.eqb_neq.
Qed.

End Middleware.

(* ------------------------------------------------------------------ *)
(** ** Booking lifecycle *)

Section Cancellation.
Context `{Platform}.

Lemma idValidation_ok id : isMongoId id = true -> idValidation id = [].
Proof. unfold idValidation. now intros ->. Qed.

(** A valid document has a reference, so the pre-save hook leaves it as it
    is. *)
Lemma bookingPreSave_valid env b : validBooking b = true -> bookingPreSave env b = b.
Proof.
  unfold validBooking, bookingPreSave. intros Hv.
  destruct (bookingReference b =? ""); [|reflexivity].
  rewrite !andb_true_iff in Hv. destruct Hv as [[[[[[_ _] Hr] _] _] _] _].
  discriminate Hr.
Qed.

(** Setting one status of the enumeration in the place of another neither
    makes nor breaks validity. *)
Lemma validBooking_setStatus b s :
  inList (status b) bookingStatuses = true -> inList s bookingStatuses = true ->
  validBooking (setStatus b s) = validBooking b.
Proof. unfold validBooking. simpl. now intros -> ->. Qed.

Lemma saveBooking_valid env st b :
  validBooking b = true ->
  saveBooking env st b
  = Some (touch env b, mkStore (users st) (replaceBooking (touch env b) (bookings st))).
Proof.
  intros Hv. unfold saveBooking. rewrite Hv. simpl. now rewrite bookingPreSave_valid.
Qed.

Lemma saveBooking_invalid env st b : validBooking b = false -> saveBooking env st b = None.
Proof. intros Hv. unfold saveBooking. now rewrite Hv. Qed.

(** Whatever a save writes passes the validators. *)
Lemma saveBooking_writes_valid env st b b' st' :
  saveBooking env st b = Some (b', st') -> validBooking b' = true.
Proof.
  unfold saveBooking. destruct (validBooking b) eqn:Hv; [|discriminate].
  simpl. rewrite (bookingPreSave_valid _ _ Hv). intros Heq. injection Heq as <- _.
  exact Hv.
Qed.

Lemma active_in_enum b :
  status b = "pending" \/ status b = "confirmed" ->
  inList (status b) bookingStatuses = true.
Proof. intros [-> | ->]; reflexivity. Qed.

Lemma cancelHandler_terminal env st u id b :
  isMongoId id = true ->
  findOwnBooking st id (u_id u) = Some b ->
  status b = "cancelled" \/ status b = "completed" ->
  cancelHandler env st u id =
    (failure 400 (if status b =? "cancelled" then "Booking is already cancelled"
                  else "Cannot cancel a completed booking"), st).
Proof.
  intros Hid Hf Hs. unfold cancelHandler.
  rewrite (idValidation_ok _ Hid). simpl. rewrite Hf.
  destruct Hs as [-> | ->]; reflexivity.
Qed.

Lemma cancelHandler_active env st u id b :
  isMongoId id = true ->
  findOwnBooking st id (u_id u) = Some b ->
  status b = "pending" \/ status b = "confirmed" ->
  cancelHandler env st u id =
    match saveBooking env st (setStatus b "cancelled") with
    | None => (failure 500 "Error cancelling booking", st)
    | Some (b', st') => (success 200 (Some "Booking cancelled successfully") b', st')
    end.
Proof.
  intros Hid Hf Hs. unfold cancelHandler.
  rewrite (idValidation_ok _ Hid). simpl. rewrite Hf.
  destruct Hs as [Hs | Hs]; rewrite Hs; reflexivity.
Qed.

End Cancellation.

(** C1, as stated, fails: Alice's pending booking in [legacyStore] has no
    details, which the schema requires; the save is refused and the cancel
    is answered 500, the booking still pending. *)
Lemma cancel_unsaved_counterexample :
  ~ (forall (P : Platform) (env : Env) (st : Store) (h : Headers) (id : string)
            (u : User) (b : Booking),
        authenticate env st h = Next (Some u) ->
        isMongoId id = true ->
        findOwnBooking st id (u_id u) = Some b ->
        status b = "pending" \/ status b = "confirmed" ->
        statusCode (fst (cancelBooking env st h id)) = 200%Z
        /\ exists b', findOwnBooking (snd (cancelBooking env st h id)) id (u_id u) = Some b'
                      /\ status b' = "cancelled").
Proof.
  intros Hclaim.
  destruct (Hclaim Sample.platform Sample.env legacyStore (Sample.bearer Sample.aliceId)
              Sample.pendingId (withoutPassword Sample.alice) detailless
              eq_refl eq_refl eq_refl (or_introl eq_refl)) as [Hcode _].
  vm_compute in Hcode. discriminate Hcode.
Qed.

(** C1 (amended).  For a booking the requester owns, DELETE /bookings/:id
    answers 400 and leaves the store as it is when the status is cancelled
    or completed.  When the status is pending or confirmed and the stored
    booking passes the validators of its schema, the answer is 200, the
    stored booking is the old one with status cancelled and a new update
    time, and every later cancel of the same booking by the same account
    answers 400 without a change.  A pending or confirmed booking that the
    schema refuses is answered 500 and stays as it was. *)
Theorem cancel_booking_lifecycle `{Platform} :
  forall env st h id u b,
    authenticate env st h = Next (Some u) ->
    isMongoId id = true ->
    findOwnBooking st id (u_id u) = Some b ->
    ((status b = "cancelled" \/ status b = "completed") ->
     exists msg, cancelBooking env st h id = (failure 400 msg, st))
    /\
    ((status b = "pending" \/ status b = "confirmed") ->
     (validBooking b = true ->
      exists b' st',
        cancelBooking env st h id =
          (success 200 (Some "Booking cancelled successfully") b', st')
        /\ b' = touch env (setStatus b "cancelled")
        /\ status b' = "cancelled"
        /\ validBooking b' = true
        /\ findOwnBooking st' id (u_id u) = Some b'
        /\ users st' = users st
        /\ forall env2 h2 u2,
             authenticate env2 st' h2 = Next (Some u2) ->
             u_id u2 = u_id u ->
             cancelBooking env2 st' h2 id =
               (failure 400 "Booking is already cancelled", st'))
     /\ (validBooking b = false ->
         cancelBooking env st h id = (failure 500 "Error cancelling booking", st))).
Proof.
  intros env st h id u b Hauth Hid Hfind. split; intros Hs.
  - exists (if status b =? "cancelled" then "Booking is already cancelled"
            else "Cannot cancel a completed booking").
    unfold cancelBooking. rewrite (withAuth_next _ _ _ _ _ Hauth).
    now apply cancelHandler_terminal.
  - assert (Hvalid : validBooking (setStatus b "cancelled") = validBooking b)
      by (apply validBooking_setStatus; [now apply active_in_enum | reflexivity]).
    split; intros Hv.
    + set (b' := touch env (setStatus b "cancelled")).
      set (st' := mkStore (users st) (replaceBooking b' (bookings st))).
      destruct (findOwnBooking_spec _ _ _ _ Hfind) as (Hin & Hbid & Hown).
      assert (Hfind' : findOwnBooking st' id (u_id u) = Some b').
      { unfold st'. replace (u_id u) with (b_user b') by exact Hown.
        apply findOwnBooking_replace with (b := b); [|reflexivity].
        replace (b_user b') with (u_id u) by (symmetry; exact Hown). now destruct st. }
      exists b', st'. repeat split; try assumption.
      * unfold cancelBooking. rewrite (withAuth_next _ _ _ _ _ Hauth).
        rewrite (cancelHandler_active env st u id b Hid Hfind Hs).
        now rewrite saveBooking_valid by (now rewrite Hvalid).
      * unfold b'. unfold validBooking in *. simpl. exact (eq_trans Hvalid Hv).
      * intros env2 h2 u2 Hauth2 Hu2.
        unfold cancelBooking. rewrite (withAuth_next _ _ _ _ _ Hauth2).
        rewrite <- Hu2 in Hfind'.
        now rewrite (cancelHandler_terminal env2 st' u2 id b' Hid Hfind') by now left.
    + unfold cancelBooking. rewrite (withAuth_next _ _ _ _ _ Hauth).
      rewrite (cancelHandler_active env st u id b Hid Hfind Hs).
      now rewrite saveBooking_invalid by (now rewrite Hvalid).
Qed.

Lemma cancel_booking_lifecycle_witness :
  exists b' st',
    @cancelBooking Sample.platform Sample.env Sample.store
       (Sample.bearer Sample.aliceId) "74B7F0C2A1D3E4F5A6B7C8E0"
    = (success 200 (Some "Booking cancelled successfully") b', st')
    /\ status b' = "cancelled"
    /\ @cancelBooking Sample.platform Sample.env st'
         (Sample.bearer Sample.aliceId) "74B7F0C2A1D3E4F5A6B7C8E0"
       = (failure 400 "Booking is already cancelled", st').
Proof.
  destruct (@cancel_booking_lifecycle Sample.platform Sample.env Sample.store
              (Sample.bearer Sample.aliceId) "74B7F0C2A1D3E4F5A6B7C8E0"
              (withoutPassword Sample.alice)
              (Sample.booking Sample.pendingId Sample.aliceId
                 "FLIGHT-LOA1B2C3-K3X9Q" "pending" 10)
              eq_refl eq_refl eq_refl) as [_ Hactive].
  destruct (proj1 (Hactive (or_introl eq_refl)) eq_refl)
    as (b' & st' & Hcancel & _ & Hstatus & _ & _ & Husers & Hagain).
  exists b', st'. repeat split; try assumption.
  apply (Hagain Sample.env (Sample.bearer Sample.aliceId) (withoutPassword Sample.alice)).
  - rewrite (@authenticate_same_users Sample.platform _ Sample.store st' _ Husers).
    reflexivity.
  - reflexivity.
Defined.

(* ------------------------------------------------------------------ *)
(** ** Account deletion *)

Lemma filter_nil_iff {A} (p : A -> bool) (l : list A) :
  filter p l = [] <-> forall x, In x l -> p x = false.
Proof.
  induction l as [|a l IH]; simpl.
  - split; [intros _ x [] | reflexivity].
  - destruct (p a) eqn:Hp; split.
    + discriminate.
    + intros Hall. specialize (Hall a (or_introl eq_refl)). congruence.
    + intros Hnil x [<- | Hin]; [assumption | now apply IH].
    + intros Hall. apply IH. intros x Hin. apply Hall. now right.
Qed.

Lemma isActive_iff (b : Booking) :
  isActive b = true <-> status b = "pending" \/ status b = "confirmed".
Proof.
  unfold isActive, inList. simpl.
  rewrite !orb_true_iff, !String.eqb_eq.
  intuition discriminate.
Qed.

Lemma activeBookings_pos (st : Store) (uid : string) :
  (0 < activeBookings st uid)%nat <->
  exists b, In b (bookings st) /\ b_user b = uid /\
            (status b = "pending" \/ status b = "confirmed").
Proof.
  unfold activeBookings. split.
  - intros Hpos.
    destruct (filter (fun b => ownedBy uid b && isActive b) (bookings st))
      as [|b l] eqn:Hf; [simpl in Hpos; lia|].
    assert (Hin : In b (filter (fun b => ownedBy uid b && isActive b) (bookings st)))
      by (rewrite Hf; now left).
    apply filter_In in Hin. destruct Hin as [Hin Hp].
    apply andb_true_iff in Hp. destruct Hp as [Ho Ha].
    exists b. repeat split; [assumption | now apply String.eqb_eq | now apply isActive_iff].
  - intros (b & Hin & Ho & Hs).
    assert (Hinf : In b (filter (fun b => ownedBy uid b && isActive b) (bookings st))).
    { apply filter_In. split; [assumption|].
      apply andb_true_iff. split; [now apply String.eqb_eq | now apply isActive_iff]. }
    destruct (filter _ (bookings st)); [destruct Hinf | simpl; lia].
Qed.

Lemma deleteUserAndBookings_users (st : Store) (uid : string) (x : User) :
  In x (users (deleteUserAndBookings st uid)) <-> In x (users st) /\ u_id x <> uid.
Proof.
  unfold deleteUserAndBookings; simpl. rewrite filter_In, negb_true_iff, String.eqb_neq.
  tauto.
Qed.

Lemma deleteUserAndBookings_bookings (st : Store) (uid : string) (x : Booking) :
  In x (bookings (deleteUserAndBookings st uid)) <-> In x (bookings st) /\ b_user x <> uid.
Proof.
  unfold deleteUserAndBookings, ownedBy; simpl.
  rewrite filter_In, negb_true_iff, String.eqb_neq. tauto.
Qed.

Lemma deleteUserAndBookings_gone (st : Store) (uid : string) :
  findUserById (deleteUserAndBookings st uid) uid = None.
Proof.
  destruct (findUserById (deleteUserAndBookings st uid) uid) as [x|] eqn:Hf; [|reflexivity].
  apply findUserById_spec in Hf. destruct Hf as [Hin Hid].
  apply deleteUserAndBookings_users in Hin. tauto.
Qed.

(** C2.  With the account's password supplied, DELETE /users/account is
    refused (400, store unchanged) as soon as one booking of the account is
    pending or confirmed; when all of them are cancelled or completed it
    answers 200 and the account and every booking it owns are gone, the
    other accounts and bookings being kept. *)
Theorem delete_account_guard `{Platform} :
  forall env st h body u stored pw,
    authenticate env st h = Next (Some u) ->
    findUserById st (u_id u) = Some stored ->
    bodyField "password" body = Some (BStr pw) ->
    pw <> "" ->
    comparePassword stored pw = Some true ->
    ((exists b, In b (bookings st) /\ b_user b = u_id u /\
                (status b = "pending" \/ status b = "confirmed")) ->
     deleteAccount env st h body =
       (failure 400 "Cannot delete account with active bookings. Please cancel or complete all bookings first.", st))
    /\
    ((forall b, In b (bookings st) -> b_user b = u_id u ->
                status b = "cancelled" \/ status b = "completed") ->
     exists st',
       deleteAccount env st h body =
         (mkResponse 200 "success" (Some "Account deleted successfully") None [] None, st')
       /\ findUserById st' (u_id u) = None
       /\ (forall x, In x (users st') <-> In x (users st) /\ u_id x <> u_id u)
       /\ (forall x, In x (bookings st') <-> In x (bookings st) /\ b_user x <> u_id u)).
Proof.
  intros env st h body u stored pw Hauth Hstored Hbody Hpw Hcmp.
  assert (Hrun : deleteAccount env st h body =
                 if (0 <? activeBookings st (u_id u))%nat
                 then (failure 400 "Cannot delete account with active bookings. Please cancel or complete all bookings first.", st)
                 else (mkResponse 200 "success" (Some "Account deleted successfully")
                                  None [] None,
                       deleteUserAndBookings st (u_id u))).
  { unfold deleteAccount. rewrite (withAuth_next _ _ _ _ _ Hauth).
    unfold notEmpty. rewrite Hbody. simpl.
    apply String.eqb_neq in Hpw. rewrite Hpw. simpl.
    rewrite Hstored, Hcmp. reflexivity. }
  split.
  - intros Hactive. rewrite Hrun.
    apply activeBookings_pos in Hactive. apply Nat.ltb_lt in Hactive.
    now rewrite Hactive.
  - intros Hterminal. exists (deleteUserAndBookings st (u_id u)).
    split; [|split; [|split]].
    + rewrite Hrun.
      destruct (0 <? activeBookings st (u_id u))%nat eqn:Hlt; [|reflexivity].
      apply Nat.ltb_lt, activeBookings_pos in Hlt.
      destruct Hlt as (b & Hin & Ho & Hs).
      destruct (Hterminal b Hin Ho) as [Ht | Ht]; rewrite Ht in Hs;
        destruct Hs; discriminate.
    + apply deleteUserAndBookings_gone.
    + intros x. apply deleteUserAndBookings_users.
    + intros x. apply deleteUserAndBookings_bookings.
Qed.

Lemma delete_account_guard_witness :
  @deleteAccount Sample.platform Sample.env Sample.store (Sample.bearer Sample.aliceId)
     [("password", BStr "Passw0rd")]
  = (failure 400 "Cannot delete account with active bookings. Please cancel or complete all bookings first.",
     Sample.store).
Proof.
  apply (@delete_account_guard Sample.platform Sample.env Sample.store
           (Sample.bearer Sample.aliceId) [("password", BStr "Passw0rd")]
           (withoutPassword Sample.alice) Sample.alice "Passw0rd"
           eq_refl eq_refl eq_refl).
  - discriminate.
  - reflexivity.
  - exists (Sample.booking Sample.pendingId Sample.aliceId
              "FLIGHT-LOA1B2C3-K3X9Q" "pending" 10).
    split; [now left | split; [reflexivity | now left]].
Defined.

(** Bob's only booking is cancelled: his account can be deleted. *)
Example delete_account_sample :
  @deleteAccount Sample.platform Sample.env Sample.store (Sample.bearer Sample.bobId)
     [("password", BStr "Secr3tB")]
  = (mkResponse 200 "success" (Some "Account deleted successfully") None [] None,
     mkStore [Sample.alice]
       [Sample.booking Sample.pendingId Sample.aliceId "FLIGHT-LOA1B2C3-K3X9Q" "pending" 10;
        Sample.booking Sample.doneId Sample.aliceId "FLIGHT-LOA1B2C4-ZZ9QA" "completed" 20]).
Proof. reflexivity. Qed.

(* ------------------------------------------------------------------ *)
(** ** Registration and login *)

Lemma findUserByEmail_some (st : Store) (e : string) (u : User) :
  In u (users st) -> email u = e -> exists v, findUserByEmail st e = Some v.
Proof.
  intros Hin He. unfold findUserByEmail.
  destruct (find (fun x => email x =? e) (users st)) as [v|] eqn:Hf; [now exists v|].
  apply (find_none _ _ Hf) in Hin. apply String.eqb_neq in Hin. contradiction.
Qed.

Lemma findUserByEmail_none (st : Store) (e : string) :
  findUserByEmail st e = None <-> forall u, In u (users st) -> email u <> e.
Proof.
  unfold findUserByEmail. split.
  - intros Hf u Hin. apply String.eqb_neq. exact (find_none _ _ Hf u Hin).
  - intros Hall.
    destruct (find (fun x => email x =? e) (users st)) as [v|] eqn:Hf; [|reflexivity].
    apply find_In in Hf. destruct Hf as [Hin He]. apply String.eqb_eq in He.
    now destruct (Hall v Hin).
Qed.

Section Registration.
Context `{Platform}.

Lemma createUser_store env st fn ln em pw ph dob u st' :
  createUser env st fn ln em pw ph dob = Some (u, st') ->
  users st' = users st ++ [u] /\ bookings st' = bookings st /\
  existsb (fun x => email x =? email u) (users st) = false.
Proof.
  unfold createUser.
  destruct (option_map castString pw) as [[password|]|]; try discriminate.
  destruct (castOptString ph) as [p|]; try discriminate.
  destruct (castOptDate dob) as [d|]; try discriminate.
  match goal with |- context [negb (validUser ?x)] => destruct (validUser x) end;
    simpl; try discriminate.
  match goal with |- context [existsb ?f ?l] => destruct (existsb f l) eqn:Hdup end;
    try discriminate.
  intros Heq. injection Heq as <- <-. simpl. auto.
Qed.

(** The store after [register]: untouched, or one account more whose
    email no stored account has. *)
Lemma register_store env st b :
  snd (register env st b) = st \/
  exists u, users (snd (register env st b)) = users st ++ [u] /\
            bookings (snd (register env st b)) = bookings st /\
            existsb (fun x => email x =? email u) (users st) = false.
Proof.
  unfold register.
  destruct (negb (isEmptyList (registerValidation b))); [now left|].
  destruct (findUserByEmail st _); [now left|].
  match goal with |- context [createUser ?e ?s ?a ?b ?c ?d ?f ?g] =>
    destruct (createUser e s a b c d f g) as [[u st']|] eqn:Hc end; [|now left].
  right. exists u. apply createUser_store in Hc.
  destruct (getSignedJwtToken env u); simpl; exact Hc.
Qed.

(** Emails stay pairwise distinct: the unique index of the schema. *)
Lemma register_keeps_emails_unique env st b :
  NoDup (map email (users st)) ->
  NoDup (map email (users (snd (register env st b)))).
Proof.
  intros Hnd. destruct (register_store env st b) as [-> | (u & Hu & _ & Hfresh)];
    [assumption|].
  rewrite Hu, map_app. simpl.
  apply (Permutation_NoDup (l := email u :: map email (users st))).
  - apply Permutation_cons_append.
  - constructor; [|assumption].
    intros Hin. apply in_map_iff in Hin. destruct Hin as (x & Hx & Hinx).
    assert (Hex : existsb (fun y => email y =? email u) (users st) = true).
    { apply existsb_exists. exists x. split; [assumption | now apply String.eqb_eq]. }
    congruence.
Qed.

End Registration.

(** C3, as stated, fails: a request that repeats a registered email but
    breaks a validation rule (here a three-letter password) is answered
    with the validation error, not with the conflict. *)
Lemma register_conflict_counterexample :
  ~ (forall (P : Platform) (env : Env) (st : Store) (b : Body) (u : User),
        In u (users st) ->
        email u = fieldString (bodyField "email" b) ->
        fst (register env st b) = failure 400 "User with this email already exists"
        /\ snd (register env st b) = st).
Proof.
  intros Hclaim.
  destruct (Hclaim Sample.platform Sample.env Sample.store
              [("firstName", BStr "Alice"); ("lastName", BStr "Ames");
               ("email", BStr "alice@example.com"); ("password", BStr "abc")]
              Sample.alice (or_introl eq_refl) eq_refl) as [Hresp _].
  vm_compute in Hresp. discriminate Hresp.
Qed.

(** C3 (amended).  When the email of a registration request, as the
    validator normalizes it, is the email of a stored account, the stored
    accounts are unchanged; the answer is the conflict (400, "User with
    this email already exists") if the request passes validation, and the
    validation error otherwise. *)
Theorem register_existing_email `{Platform} :
  forall env st b u,
    In u (users st) ->
    email u = normalizeEmail (fieldString (bodyField "email" b)) ->
    snd (register env st b) = st
    /\ (registerValidation b = [] ->
        fst (register env st b) = failure 400 "User with this email already exists")
    /\ (registerValidation b <> [] ->
        fst (register env st b) = invalid (registerValidation b)).
Proof.
  intros env st b u Hin Hemail.
  destruct (findUserByEmail_some st _ u Hin Hemail) as [v Hfind].
  unfold register. rewrite Hfind.
  destruct (registerValidation b) as [|e errs]; simpl.
  - split; [reflexivity | split; [reflexivity | congruence]].
  - split; [reflexivity | split; [discriminate | reflexivity]].
Qed.

Lemma register_existing_email_witness :
  @register Sample.platform Sample.env Sample.store
     [("firstName", BStr "Alice"); ("lastName", BStr "Ames");
      ("email", BStr "Alice@Example.com"); ("password", BStr "Passw0rd")]
  = (failure 400 "User with this email already exists", Sample.store).
Proof.
  destruct (@register_existing_email Sample.platform Sample.env Sample.store
              [("firstName", BStr "Alice"); ("lastName", BStr "Ames");
               ("email", BStr "Alice@Example.com"); ("password", BStr "Passw0rd")]
              Sample.alice (or_introl eq_refl) eq_refl) as (Hstore & Hvalid & _).
  rewrite (surjective_pairing (register _ _ _)).
  now rewrite Hstore, (Hvalid eq_refl).
Defined.

(** A new email is registered: the account is stored with a hashed
    password and the response carries no password. *)
Example register_sample :
  @register Sample.platform Sample.env Sample.store
     [("firstName", BStr " Carol "); ("lastName", BStr "Cole");
      ("email", BStr "Carol@Example.com"); ("password", BStr "Passw0rd")]
  = (success 201 (Some "User registered successfully")
       (toJSON (mkUser "64b7f0c2a1d3e4f5a6b7c8dc" "Carol" "Cole" "carol@example.com"
                       (Some "h(Passw0rd)") None None None defaultPreferences false
                       "user" 1700000000000 1700000000000 0),
        "s3cret:64b7f0c2a1d3e4f5a6b7c8dc"),
     mkStore [Sample.alice; Sample.bob;
              mkUser "64b7f0c2a1d3e4f5a6b7c8dc" "Carol" "Cole" "carol@example.com"
                     (Some "h(Passw0rd)") None None None defaultPreferences false
                     "user" 1700000000000 1700000000000 0]
             (bookings Sample.store)).
Proof. vm_compute. reflexivity. Qed.

(** Validation comes before the lookup: an empty password does not match,
    but that request is stopped by validation (400) while the unknown
    email gets 401. *)
Lemma login_validation_first :
  ~ (forall (P : Platform) (env : Env) (st : Store) (b1 b2 : Body) (u : User) (pw : string),
        (forall x, In x (users st) -> email x <> fieldString (bodyField "email" b1)) ->
        In u (users st) ->
        email u = fieldString (bodyField "email" b2) ->
        bodyField "password" b2 = Some (BStr pw) ->
        comparePassword u pw = Some false ->
        statusCode (login env st b1) = 401%Z
        /\ statusCode (login env st b2) = 401%Z
        /\ message (login env st b1) = message (login env st b2)).
Proof.
  intros Hclaim.
  destruct (Hclaim Sample.platform Sample.env Sample.store
              [("email", BStr "ghost@example.com"); ("password", BStr "Passw0rd")]
              [("email", BStr "alice@example.com"); ("password", BStr "")]
              Sample.alice "") as (_ & Hcode & _).
  - intros x [<- | [<- | []]]; discriminate.
  - now left.
  - reflexivity.
  - reflexivity.
  - reflexivity.
  - vm_compute in Hcode. discriminate Hcode.
Qed.

(** With a string for a password, two login requests that pass
    validation, one whose email no account has and one whose email is
    stored but whose password does not match, get the very same response:
    401 with "Invalid email or password". *)
Lemma login_string_failures_coincide `{Platform} :
  forall env st b1 b2 u pw,
    loginValidation b1 = [] ->
    loginValidation b2 = [] ->
    findUserByEmail st (normalizeEmail (fieldString (bodyField "email" b1))) = None ->
    findUserByEmail st (normalizeEmail (fieldString (bodyField "email" b2))) = Some u ->
    bodyField "password" b2 = Some (BStr pw) ->
    comparePassword u pw = Some false ->
    login env st b1 = failure 401 "Invalid email or password"
    /\ login env st b2 = login env st b1.
Proof.
  intros env st b1 b2 u pw Hv1 Hv2 Hnone Hsome Hpw Hcmp.
  unfold login. rewrite Hv1, Hv2, Hnone, Hsome, Hpw, Hcmp. simpl. split; reflexivity.
Qed.

(** C4.  The two failures can be told apart.  Take two login requests that
    pass validation and carry a password that is not a string (the JSON
    value [true], an object), which matches no stored password.  The one
    whose email no account has is answered 401 "Invalid email or
    password".  For the one whose email is stored, [bcrypt.compare] throws
    on the value and the answer is 500 "Error during login": a caller
    learns from the status which emails are registered. *)
Theorem login_password_type_oracle `{Platform} :
  forall (env : Env) (st : Store) (b1 b2 : Body) (u : User),
    loginValidation b1 = [] ->
    loginValidation b2 = [] ->
    findUserByEmail st (normalizeEmail (fieldString (bodyField "email" b1))) = None ->
    findUserByEmail st (normalizeEmail (fieldString (bodyField "email" b2))) = Some u ->
    (forall pw, bodyField "password" b2 <> Some (BStr pw)) ->
    login env st b1 = failure 401 "Invalid email or password"
    /\ login env st b2 = failure 500 "Error during login"
    /\ statusCode (login env st b2) <> statusCode (login env st b1)
    /\ message (login env st b2) <> message (login env st b1).
Proof.
  intros env st b1 b2 u Hv1 Hv2 Hnone Hsome Hpw.
  assert (H1 : login env st b1 = failure 401 "Invalid email or password")
    by (unfold login; now rewrite Hv1, Hnone).
  assert (H2 : login env st b2 = failure 500 "Error during login").
  { unfold login. rewrite Hv2, Hsome. cbn [negb isEmptyList].
    destruct (bodyField "password" b2) as [[pw| |]|]; try reflexivity.
    now destruct (Hpw pw). }
  rewrite H1, H2. repeat split; discriminate.
Qed.

Lemma login_password_type_oracle_witness :
  @login Sample.platform Sample.env Sample.store
     [("email", BStr "ghost@example.com"); ("password", BBool true)]
  = failure 401 "Invalid email or password"
  /\ @login Sample.platform Sample.env Sample.store
       [("email", BStr "alice@example.com"); ("password", BBool true)]
     = failure 500 "Error during login".
Proof.
  destruct (@login_password_type_oracle Sample.platform Sample.env Sample.store
              [("email", BStr "ghost@example.com"); ("password", BBool true)]
              [("email", BStr "alice@example.com"); ("password", BBool true)]
              Sample.alice eq_refl eq_refl eq_refl eq_refl
              ltac:(intros pw; discriminate)) as (H1 & H2 & _).
  split; assumption.
Defined.

Example login_sample :
  @login Sample.platform Sample.env Sample.store
     [("email", BStr "alice@example.com"); ("password", BStr "Passw0rd")]
  = success 200 (Some "Login successful")
      (toJSON Sample.alice, "s3cret:64b7f0c2a1d3e4f5a6b7c8d0").
Proof. reflexivity. Qed.

(* ------------------------------------------------------------------ *)
(** ** Serialized accounts *)

Lemma hasField_deleteField (k : string) (o : Fields) :
  hasField k (deleteField k o) = false.
Proof.
  unfold hasField, deleteField. induction o as [|[k' v] o IH]; simpl; [reflexivity|].
  destruct (k =? k') eqn:Hk; simpl; [assumption|]. now rewrite Hk.
Qed.

Lemma hasField_deleteField_other (k k' : string) (o : Fields) :
  hasField k o = false -> hasField k (deleteField k' o) = false.
Proof.
  unfold hasField, deleteField. induction o as [|[k0 v] o IH]; simpl; [reflexivity|].
  intros Hno. apply orb_false_iff in Hno. destruct Hno as [Hk Hrest].
  destruct (k' =? k0); simpl; [now apply IH|]. rewrite Hk. now apply IH.
Qed.

Lemma toJSON_noPassword (u : User) : noPassword (toJSON u).
Proof.
  unfold noPassword, toJSON.
  apply hasField_deleteField_other, hasField_deleteField.
Qed.

Lemma toObject_noPassword (u : User) : u_password u = None -> noPassword (toObject u).
Proof.
  unfold noPassword, toObject. intros ->.
  destruct (phone u), (dateOfBirth u), (passport u); reflexivity.
Qed.

Lemma preferencesToObject_noPassword (p : Preferences) :
  noPassword (preferencesToObject p).
Proof.
  unfold noPassword, preferencesToObject.
  destruct (currency p), (language p), (notifications p); reflexivity.
Qed.

Lemma passportToObject_noPassword (p : Passport) : noPassword (passportToObject p).
Proof.
  unfold noPassword, passportToObject.
  destruct (number p), (expiryDate p), (countryOfIssue p); reflexivity.
Qed.

Lemma populateUser_noPassword (st : Store) (b : Booking) :
  match populateUser st b with Some o => noPassword o | None => True end.
Proof.
  unfold populateUser. destruct (findUserById st (b_user b)); simpl; [reflexivity | exact I].
Qed.

Create HintDb accounts.

#[local] Hint Resolve toJSON_noPassword preferencesToObject_noPassword
  passportToObject_noPassword : accounts.

(** Case analysis on every branch of a handler; each response with data
    is then closed by the lemmas above. *)
Ltac handler_cases :=
  repeat (cbn [data fst snd success failure invalid];
          match goal with
          | |- context [match ?x with _ => _ end] =>
              lazymatch x with
              | context [match _ with _ => _ end] => fail
              | _ => destruct x
              end
          end);
  cbn [data fst snd success failure invalid]; auto with accounts; try reflexivity.

Section Accounts.
Context `{Platform}.

Lemma withAuth_data {D} (P : D -> Prop) env st h
    (handler : User -> Response D * Store) :
  (forall u, dataSatisfies P (fst (handler u))) ->
  dataSatisfies P (fst (withAuth env st h handler)).
Proof.
  intros Hh. unfold withAuth.
  destruct (authenticate env st h) as [code msg | [u|]]; simpl; auto.
  - exact I.
  - exact I.
Qed.

Lemma authenticate_withoutPassword env st h :
  attachedSatisfies (fun u => u_password u = None) (authenticate env st h).
Proof.
  destruct (authenticate env st h) as [code msg | ou] eqn:Ha; simpl; [exact I|].
  destruct (authenticate_next_inv _ _ _ _ Ha) as (t & d & stored & _ & _ & _ & _ & ->).
  reflexivity.
Qed.

Lemma optionalAuth_withoutPassword env st h :
  attachedSatisfies (fun u => u_password u = None) (optionalAuth env st h).
Proof.
  unfold optionalAuth, resolveToken.
  destruct (JS.truthy (headerToken h)); [|exact I].
  destruct (headerToken h) as [t|]; [|exact I].
  destruct (jwt_verify t (JWT_SECRET env)) as [d|]; [|exact I].
  destruct (findUserById st (userId d)); simpl; [reflexivity | exact I].
Qed.

Lemma register_noPassword env st b :
  dataSatisfies (fun d => noPassword (fst d)) (fst (register env st b)).
Proof. unfold register, dataSatisfies. handler_cases. Qed.

Lemma login_noPassword env st b :
  dataSatisfies (fun d => noPassword (fst d)) (login env st b).
Proof. unfold login, dataSatisfies. handler_cases. Qed.

Lemma me_noPassword env st h : dataSatisfies noPassword (fst (me env st h)).
Proof. unfold me. apply withAuth_data. intros u. apply toJSON_noPassword. Qed.

Lemma authProfile_noPassword env st h b :
  dataSatisfies noPassword (fst (authProfile env st h b)).
Proof.
  unfold authProfile. apply withAuth_data. intros u.
  unfold dataSatisfies. handler_cases.
Qed.

Lemma usersProfile_noPassword env st h b :
  dataSatisfies noPassword (fst (usersProfile env st h b)).
Proof.
  unfold usersProfile. apply withAuth_data. intros u.
  unfold dataSatisfies. handler_cases.
Qed.

Lemma usersPreferences_noPassword env st h b :
  dataSatisfies noPassword (fst (usersPreferences env st h b)).
Proof.
  unfold usersPreferences. apply withAuth_data. intros u.
  unfold dataSatisfies. handler_cases.
Qed.

Lemma usersPassport_noPassword env st h b :
  dataSatisfies noPassword (fst (usersPassport env st h b)).
Proof.
  unfold usersPassport. apply withAuth_data. intros u.
  unfold dataSatisfies. handler_cases.
Qed.

Lemma listUsers_noPassword env st h qpage qlimit :
  dataSatisfies (Forall noPassword) (fst (listUsers env st h qpage qlimit)).
Proof.
  unfold listUsers. apply withAuth_data. intros u.
  unfold dataSatisfies.
  destruct (authorize ["admin"] (Some u)); simpl; [exact I|].
  destruct (skipLimit _ _ _) as [found|]; simpl; [|exact I].
  apply Forall_forall. intros o Hin. apply in_map_iff in Hin.
  destruct Hin as (x & <- & _). apply toJSON_noPassword.
Qed.

End Accounts.

(** C5.  Whatever the store and the request, the account object in the
    response of register, login, get-profile, the profile, preference and
    passport updates and the admin listing has no [password] key, and the
    account that mandatory or optional authentication attaches to the
    request has no password loaded.  The store is arbitrary, so this covers
    the read that follows an update. *)
Theorem accounts_never_carry_password `{Platform} :
  forall (env : Env) (st : Store) (h : Headers) (b : Body) (qpage qlimit : Param Z),
    dataSatisfies (fun d => noPassword (fst d)) (fst (register env st b))
    /\ dataSatisfies (fun d => noPassword (fst d)) (login env st b)
    /\ dataSatisfies noPassword (fst (me env st h))
    /\ dataSatisfies noPassword (fst (authProfile env st h b))
    /\ dataSatisfies noPassword (fst (usersProfile env st h b))
    /\ dataSatisfies noPassword (fst (usersPreferences env st h b))
    /\ dataSatisfies noPassword (fst (usersPassport env st h b))
    /\ dataSatisfies (Forall noPassword) (fst (listUsers env st h qpage qlimit))
    /\ attachedSatisfies (fun u => u_password u = None /\ noPassword (toObject u))
                         (authenticate env st h)
    /\ attachedSatisfies (fun u => u_password u = None /\ noPassword (toObject u))
                         (optionalAuth env st h).
Proof.
  intros env st h b qpage qlimit.
  split; [apply register_noPassword|].
  split; [apply login_noPassword|].
  split; [apply me_noPassword|].
  split; [apply authProfile_noPassword|].
  split; [apply usersProfile_noPassword|].
  split; [apply usersPreferences_noPassword|].
  split; [apply usersPassport_noPassword|].
  split; [apply listUsers_noPassword|].
  split.
  - generalize (authenticate_withoutPassword env st h).
    destruct (authenticate env st h) as [|[u|]]; simpl; auto using toObject_noPassword.
  - generalize (optionalAuth_withoutPassword env st h).
    destruct (optionalAuth env st h) as [|[u|]]; simpl; auto using toObject_noPassword.
Qed.

(** The profile update answers with the updated account, password left
    out, although the stored document keeps its hash. *)
Example authProfile_sample :
  @authProfile Sample.platform Sample.env Sample.store (Sample.bearer Sample.aliceId)
     [("firstName", BStr "Alicia"); ("password", BStr "Hacked1")]
  = (success 200 (Some "Profile updated successfully")
       (toJSON (mkUser Sample.aliceId "Alicia" "Ames" "alice@example.com" None None None
                       None defaultPreferences false "user" 1000 1700000000000 0)),
     mkStore [mkUser Sample.aliceId "Alicia" "Ames" "alice@example.com"
                     (Some "h(Passw0rd)") None None None defaultPreferences false
                     "user" 1000 1700000000000 0;
              Sample.bob]
             (bookings Sample.store)).
Proof. vm_compute. reflexivity. Qed.

Example listUsers_sample :
  fst (@listUsers Sample.platform Sample.env Sample.store (Sample.bearer Sample.bobId)
         Absent Absent)
  = mkResponse 200 "success" None
      (Some [toJSON Sample.bob; toJSON Sample.alice]) []
      (Some (mkPagination 1 20 2 1)).
Proof. vm_compute. reflexivity. Qed.

(* ------------------------------------------------------------------ *)
(** ** Mandatory and optional authentication *)

Section Authentication.
Context `{Platform}.

Lemma truthy_some (t : string) : t <> "" -> JS.truthy (Some t) = true.
Proof. intros Ht. simpl. apply String.eqb_neq in Ht. now rewrite Ht. Qed.

Lemma authenticate_no_token env st h :
  JS.truthy (extractToken h) = false ->
  authenticate env st h = Respond 401 "Access denied. No token provided.".
Proof. unfold authenticate. now intros ->. Qed.

Lemma authenticate_with_token env st h t :
  extractToken h = Some t -> t <> "" ->
  authenticate env st h =
    match resolveToken env st t with
    | None => Respond 401 "Invalid token."
    | Some None => Respond 401 "Token is valid but user no longer exists."
    | Some (Some user) => Next (Some user)
    end.
Proof.
  intros Ht Hne. unfold authenticate. rewrite Ht, (truthy_some _ Hne). reflexivity.
Qed.

(** Every refusal of [authenticate] is a 401. *)
Lemma authenticate_respond_401 env st h code msg :
  authenticate env st h = Respond code msg -> code = 401%Z.
Proof.
  unfold authenticate.
  destruct (negb (JS.truthy (extractToken h))); [congruence|].
  destruct (extractToken h) as [t|]; [|congruence].
  destruct (resolveToken env st t) as [[u|]|]; congruence.
Qed.

(** [optionalAuth] calls [next()] on every request. *)
Lemma optionalAuth_proceeds env st h : exists ou, optionalAuth env st h = Next ou.
Proof.
  unfold optionalAuth.
  destruct (JS.truthy (headerToken h)); [|now exists None].
  destruct (headerToken h) as [t|]; [|now exists None].
  destruct (resolveToken env st t) as [[u|]|]; eauto.
Qed.

(** Without a cookie header both middlewares read the same token. *)
Lemma extractToken_no_cookie h : JS.truthy (cookie h) = false ->
  extractToken h = headerToken h.
Proof. unfold extractToken. intros ->. now rewrite andb_false_r. Qed.

(** Without a cookie header, [optionalAuth] attaches exactly the account
    [authenticate] attaches, and proceeds without one where
    [authenticate] refuses. *)
Lemma optionalAuth_agrees_without_cookie env st h :
  JS.truthy (cookie h) = false ->
  optionalAuth env st h =
    match authenticate env st h with
    | Next ou => Next ou
    | Respond _ _ => Next None
    end.
Proof.
  intros Hc. unfold optionalAuth, authenticate.
  rewrite (extractToken_no_cookie _ Hc).
  destruct (JS.truthy (headerToken h)); simpl; [|reflexivity].
  destruct (headerToken h) as [t|]; [|reflexivity].
  destruct (resolveToken env st t) as [[u|]|]; reflexivity.
Qed.

End Authentication.

(** C6.  Mandatory authentication: no token (neither in the Authorization
    header nor in the cookie) gives 401; a token that [jwt.verify] rejects
    gives 401; a verified token whose account is not stored gives 401;
    otherwise the stored account, without its password, is attached and
    the handler runs.  An account is attached only in that last case, and
    a refusal answers 401 without running the handler. *)
Theorem authenticate_outcomes `{Platform} :
  forall (env : Env) (st : Store) (h : Headers),
    (JS.truthy (extractToken h) = false ->
     authenticate env st h = Respond 401 "Access denied. No token provided.")
    /\ (forall t, extractToken h = Some t -> t <> "" ->
          jwt_verify t (JWT_SECRET env) = None ->
          authenticate env st h = Respond 401 "Invalid token.")
    /\ (forall t d, extractToken h = Some t -> t <> "" ->
          jwt_verify t (JWT_SECRET env) = Some d ->
          findUserById st (userId d) = None ->
          authenticate env st h = Respond 401 "Token is valid but user no longer exists.")
    /\ (forall t d u, extractToken h = Some t -> t <> "" ->
          jwt_verify t (JWT_SECRET env) = Some d ->
          findUserById st (userId d) = Some u ->
          authenticate env st h = Next (Some (withoutPassword u))
          /\ u_password (withoutPassword u) = None
          /\ forall D (handler : User -> Response D * Store),
               withAuth env st h handler = handler (withoutPassword u))
    /\ (forall ou, authenticate env st h = Next ou ->
          exists t d u,
            extractToken h = Some t /\ t <> "" /\
            jwt_verify t (JWT_SECRET env) = Some d /\
            findUserById st (userId d) = Some u /\
            ou = Some (withoutPassword u))
    /\ (forall code msg, authenticate env st h = Respond code msg ->
          code = 401%Z
          /\ forall D (handler : User -> Response D * Store),
               withAuth env st h handler = (failure 401 msg, st)).
Proof.
  intros env st h.
  split; [apply authenticate_no_token|].
  split.
  { intros t Ht Hne Hv. rewrite (authenticate_with_token _ _ _ _ Ht Hne).
    unfold resolveToken. now rewrite Hv. }
  split.
  { intros t d Ht Hne Hv Hf. rewrite (authenticate_with_token _ _ _ _ Ht Hne).
    unfold resolveToken. now rewrite Hv, Hf. }
  split.
  { intros t d u Ht Hne Hv Hf.
    assert (Ha : authenticate env st h = Next (Some (withoutPassword u))).
    { rewrite (authenticate_with_token _ _ _ _ Ht Hne).
      unfold resolveToken. now rewrite Hv, Hf. }
    split; [assumption | split; [reflexivity|]].
    intros D handler. now apply withAuth_next. }
  split; [apply authenticate_next_inv|].
  intros code msg Ha.
  pose proof (authenticate_respond_401 _ _ _ _ _ Ha) as ->.
  split; [reflexivity|]. intros D handler. now apply withAuth_respond.
Qed.

Lemma authenticate_outcomes_witness :
  @authenticate Sample.platform Sample.env Sample.store Sample.anonymous
  = Respond 401 "Access denied. No token provided."
  /\ @authenticate Sample.platform Sample.env Sample.store
       (mkHeaders (Some "Bearer forged:64b7f0c2a1d3e4f5a6b7c8d0") None)
     = Respond 401 "Invalid token."
  /\ @authenticate Sample.platform Sample.env Sample.store
       (Sample.bearer "64b7f0c2a1d3e4f5a6b7c8ff")
     = Respond 401 "Token is valid but user no longer exists."
  /\ @authenticate Sample.platform Sample.env Sample.store (Sample.bearer Sample.aliceId)
     = Next (Some (withoutPassword Sample.alice)).
Proof.
  split; [|split; [|split]].
  - apply (@authenticate_outcomes Sample.platform Sample.env Sample.store Sample.anonymous).
    reflexivity.
  - apply (proj1 (proj2 (@authenticate_outcomes Sample.platform Sample.env Sample.store
                     (mkHeaders (Some "Bearer forged:64b7f0c2a1d3e4f5a6b7c8d0") None)))
             "forged:64b7f0c2a1d3e4f5a6b7c8d0");
      [reflexivity | discriminate | reflexivity].
  - apply (proj1 (proj2 (proj2 (@authenticate_outcomes Sample.platform Sample.env
                     Sample.store (Sample.bearer "64b7f0c2a1d3e4f5a6b7c8ff"))))
             "s3cret:64b7f0c2a1d3e4f5a6b7c8ff"
             (mkJwtPayload "64b7f0c2a1d3e4f5a6b7c8ff" "" ""));
      [reflexivity | discriminate | reflexivity | reflexivity].
  - apply (proj1 (proj2 (proj2 (proj2 (@authenticate_outcomes Sample.platform Sample.env
                     Sample.store (Sample.bearer Sample.aliceId)))))
             "s3cret:64b7f0c2a1d3e4f5a6b7c8d0"
             (mkJwtPayload Sample.aliceId "" "") Sample.alice);
      [reflexivity | discriminate | reflexivity | reflexivity].
Defined.

(** C7.  A request whose only token is in the cookie header: mandatory
    authentication attaches the account, optional authentication reads the
    Authorization header alone and proceeds without one. *)
Theorem optionalAuth_ignores_cookie_token :
  @authenticate Sample.platform Sample.env Sample.store (Sample.viaCookie Sample.aliceId)
  = Next (Some (withoutPassword Sample.alice))
  /\ @optionalAuth Sample.platform Sample.env Sample.store (Sample.viaCookie Sample.aliceId)
     = Next None.
Proof. split; reflexivity. Qed.

(* ------------------------------------------------------------------ *)
(** ** Pagination *)

Lemma nth_error_pageOf {A} (items : list A) (p L : Z) (i : nat) :
  (1 <= p)%Z -> (1 <= L)%Z ->
  nth_error (pageOf items p L) i =
    if (i <? Z.to_nat L)%nat then nth_error items (Z.to_nat ((p - 1) * L) + i) else None.
Proof.
  intros Hp HL. unfold pageOf.
  destruct (i <? Z.to_nat L)%nat eqn:Hi.
  - apply Nat.ltb_lt in Hi. rewrite nth_error_firstn.
    apply Nat.ltb_lt in Hi. rewrite Hi. apply nth_error_skipn.
  - apply Nat.ltb_ge in Hi. apply nth_error_None.
    rewrite length_firstn. lia.
Qed.

Lemma ceilDiv_isCeiling (N L : Z) : (0 < L)%Z -> isCeiling N L (JS.ceilDiv N L).
Proof.
  intros HL. unfold isCeiling, JS.ceilDiv.
  pose proof (Z.div_mod (- N) L ltac:(lia)) as Hdm.
  pose proof (Z.mod_pos_bound (- N) L HL) as Hmod.
  split; nia.
Qed.

Lemma isCeiling_unique (N L t t' : Z) :
  (0 < L)%Z -> isCeiling N L t -> isCeiling N L t' -> t = t'.
Proof. unfold isCeiling. intros HL [H1 H2] [H3 H4]. nia. Qed.

Lemma skipn_beyond {A} (l : list A) (n : nat) : (length l <= n)%nat -> skipn n l = [].
Proof. intros Hn. now apply skipn_all2. Qed.

Lemma pageOf_beyond {A} (items : list A) (p L : Z) :
  (1 <= L)%Z -> (JS.ceilDiv (Z.of_nat (length items)) L < p)%Z ->
  pageOf items p L = [].
Proof.
  intros HL Hp. unfold pageOf.
  destruct (ceilDiv_isCeiling (Z.of_nat (length items)) L ltac:(lia)) as [Hup _].
  rewrite skipn_beyond; [now rewrite firstn_nil|].
  apply Nat2Z.inj_le. rewrite Z2Nat.id by nia. nia.
Qed.

Lemma slice_pageOf {A} (items : list A) (p L : Z) :
  (1 <= p)%Z -> (1 <= L)%Z ->
  JS.slice items ((p - 1) * L) (p * L) = pageOf items p L.
Proof.
  intros Hp HL. unfold JS.slice, JS.relIndex, pageOf.
  set (len := Z.of_nat (length items)).
  assert (Hs : ((p - 1) * L <? 0)%Z = false) by (apply Z.ltb_ge; nia).
  assert (He : (p * L <? 0)%Z = false) by (apply Z.ltb_ge; nia).
  rewrite Hs, He.
  destruct (Z_le_gt_dec len ((p - 1) * L)) as [Hout | Hin].
  - rewrite (skipn_beyond items (Z.to_nat (Z.min ((p - 1) * L) len)))
      by (unfold len in *; lia).
    rewrite (skipn_beyond items (Z.to_nat ((p - 1) * L))) by (unfold len in *; lia).
    now rewrite !firstn_nil.
  - replace (Z.min ((p - 1) * L) len) with ((p - 1) * L)%Z by lia.
    destruct (Z_le_gt_dec (p * L) len) as [Hfull | Hshort].
    + replace (Z.min (p * L) len) with (p * L)%Z by lia.
      f_equal. f_equal. lia.
    + replace (Z.min (p * L) len) with len by lia.
      rewrite !firstn_all2; [reflexivity | |]; rewrite length_skipn; unfold len in *; lia.
Qed.

Lemma skipLimit_pageOf {A} (items : list A) (p L : Z) :
  (1 <= p)%Z -> (1 <= L)%Z ->
  skipLimit items ((p - 1) * L) L = Some (pageOf items p L).
Proof.
  intros Hp HL. unfold skipLimit, pageOf.
  assert (Hs : ((p - 1) * L <? 0)%Z = false) by (apply Z.ltb_ge; nia).
  assert (Hl : (L =? 0)%Z = false) by (apply Z.eqb_neq; lia).
  rewrite Hs, Hl. now rewrite Z.abs_eq by lia.
Qed.

Lemma orDefault_given (n d : Z) : n <> 0%Z -> JS.orDefault (Some n) d = n.
Proof. intros Hn. unfold JS.orDefault. apply Z.eqb_neq in Hn. now rewrite Hn. Qed.

Lemma paginate_pageOf {A} (items : list A) (p L : Z) :
  (1 <= p)%Z -> (1 <= L)%Z ->
  paginate items (Given p) (Given L) =
    (pageOf items p L,
     mkPagination p L (Z.of_nat (length items))
                  (JS.ceilDiv (Z.of_nat (length items)) L)).
Proof.
  intros Hp HL. unfold paginate, parsed.
  rewrite !orDefault_given by lia. now rewrite slice_pageOf.
Qed.

Lemma insertBy_length {A} (leb : A -> A -> bool) (x : A) (l : list A) :
  length (insertBy leb x l) = S (length l).
Proof.
  induction l as [|y l IH]; simpl; [reflexivity|].
  destruct (leb x y); simpl; [reflexivity | now rewrite IH].
Qed.

Lemma sortBy_length {A} (leb : A -> A -> bool) (l : list A) :
  length (sortBy leb l) = length l.
Proof.
  induction l as [|x l IH]; simpl; [reflexivity|].
  now rewrite insertBy_length, IH.
Qed.

Lemma optionalInt_ok (prm : Param Z) (ok : Z -> bool) (path : string) (n : Z) :
  optionalInt prm ok path = [] -> prm = Given n -> ok n = true.
Proof. intros Hv ->. simpl in Hv. now apply check_nil in Hv. Qed.

(** C9.  With a page number [p >= 1] and a page size [L >= 1], the
    pagination block answers with the items at the indices from (p-1)·L to
    p·L and with totalPages = ceil(N/L), N being the number of matching
    items; beyond the last page the slice is empty.  GET /restaurants/search
    and GET /bookings (where validation bounds L by 100) answer 200 with
    exactly that page and those counts. *)
Theorem pagination_invariant `{Platform} :
  forall (p L : Z),
    (1 <= p)%Z -> (1 <= L)%Z ->
    (forall (A : Type) (items : list A),
        paginate items (Given p) (Given L) =
          (pageOf items p L,
           mkPagination p L (Z.of_nat (length items))
                        (JS.ceilDiv (Z.of_nat (length items)) L))
        /\ skipLimit items ((p - 1) * L) L = Some (pageOf items p L)
        /\ isCeiling (Z.of_nat (length items)) L (JS.ceilDiv (Z.of_nat (length items)) L)
        /\ ((JS.ceilDiv (Z.of_nat (length items)) L < p)%Z -> pageOf items p L = []))
    /\ (forall env st h q,
          searchValidation q = [] -> sq_page q = Given p -> sq_limit q = Given L ->
          search env st h q =
            mkResponse 200 "success" None (Some (pageOf (searchResults q) p L)) []
              (Some (mkPagination p L (Z.of_nat (length (searchResults q)))
                       (JS.ceilDiv (Z.of_nat (length (searchResults q))) L))))
    /\ (forall env st h q u,
          authenticate env st h = Next (Some u) ->
          bookingsValidation q = [] -> bq_page q = Given p -> bq_limit q = Given L ->
          (L <= 100)%Z
          /\ listBookings env st h q =
             (mkResponse 200 "success" None
                (Some (map (populated st) (pageOf (matchingBookings st (u_id u) q) p L))) []
                (Some (mkPagination p L
                         (Z.of_nat (length (matchingBookings st (u_id u) q)))
                         (JS.ceilDiv (Z.of_nat (length (matchingBookings st (u_id u) q))) L))),
              st))
    /\ (forall env st h u,
          authenticate env st h = Next (Some u) -> role u = "admin" ->
          listUsers env st h (Given p) (Given L) =
            (mkResponse 200 "success" None
               (Some (map toJSON (pageOf (newestUsers st) p L))) []
               (Some (mkPagination p L
                        (Z.of_nat (length (newestUsers st)))
                        (JS.ceilDiv (Z.of_nat (length (newestUsers st))) L))),
             st)).
Proof.
  intros p L Hp HL. split; [|split; [|split]].
  - intros A items. split; [now apply paginate_pageOf|].
    split; [now apply skipLimit_pageOf|].
    split; [apply ceilDiv_isCeiling; lia | now apply pageOf_beyond].
  - intros env st h q Hv Hpage Hlimit. unfold search.
    destruct (optionalAuth_proceeds env st h) as [ou ->].
    rewrite Hv, Hpage, Hlimit. cbn [negb isEmptyList].
    now rewrite paginate_pageOf.
  - intros env st h q u Hauth Hv Hpage Hlimit.
    assert (HL100 : (L <= 100)%Z).
    { unfold bookingsValidation in Hv.
      apply app_eq_nil in Hv. destruct Hv as [_ Hv].
      apply app_eq_nil in Hv. destruct Hv as [_ Hv].
      apply app_eq_nil in Hv. destruct Hv as [_ Hv].
      pose proof (optionalInt_ok _ _ _ _ Hv Hlimit) as Hok. simpl in Hok.
      apply andb_true_iff in Hok. destruct Hok as [_ Hok]. now apply Z.leb_le. }
    split; [assumption|].
    unfold listBookings. rewrite (withAuth_next _ _ _ _ _ Hauth).
    rewrite Hv, Hpage, Hlimit. cbn [negb isEmptyList parsed orElse].
    fold (matchingBookings st (u_id u) q).
    rewrite skipLimit_pageOf by assumption.
    unfold matchingBookings at 3 4. now rewrite sortBy_length.
  - intros env st h u Hauth Hrole.
    unfold listUsers. rewrite (withAuth_next _ _ _ _ _ Hauth).
    assert (Hadmin : authorize ["admin"] (Some u) = Next (Some u))
      by (unfold authorize; now rewrite Hrole).
    rewrite Hadmin. cbn [parsed].
    rewrite !orDefault_given by lia.
    fold (newestUsers st). rewrite skipLimit_pageOf by assumption.
    unfold newestUsers at 3 4. now rewrite sortBy_length, length_map.
Qed.

Lemma pagination_invariant_witness :
  paginate [10; 20; 30]%Z (Given 2%Z) (Given 1%Z) = ([20%Z], mkPagination 2 1 3 3)
  /\ isCeiling 3 1 3.
Proof.
  destruct (proj1 (@pagination_invariant Sample.platform 2%Z 1%Z ltac:(lia) ltac:(lia))
              Z [10; 20; 30]%Z) as (Hpage & _ & Hceil & _).
  split; [exact Hpage | exact Hceil].
Defined.

(** Three restaurants are in the USA; page 2 of size 2 holds the one with
    the lowest rating, and page 3 is empty but still a success. *)
Example search_page_sample :
  @search Sample.platform Sample.env Sample.store Sample.anonymous
     (mkSearchQuery (Some "usa") None None Absent None (Given 2%Z) (Given 2%Z))
  = mkResponse 200 "success" None (Some [lePetitBistro]) [] (Some (mkPagination 2 2 3 2))
  /\ @search Sample.platform Sample.env Sample.store Sample.anonymous
       (mkSearchQuery (Some "usa") None None Absent None (Given 3%Z) (Given 2%Z))
     = mkResponse 200 "success" None (Some []) [] (Some (mkPagination 3 2 3 2)).
Proof. split; reflexivity. Qed.

(* ------------------------------------------------------------------ *)
(** ** Booking references *)

Lemma upcase_idem (c : ascii) : JS.upcase (JS.upcase c) = JS.upcase c.
Proof. destruct c as [[] [] [] [] [] [] [] []]; reflexivity. Qed.

Lemma upcase_not_lower (c : ascii) : JS.isLower (JS.upcase c) = false.
Proof. destruct c as [[] [] [] [] [] [] [] []]; reflexivity. Qed.

Lemma upcase_downcase (c : ascii) : JS.upcase (JS.downcase c) = JS.upcase c.
Proof. destruct c as [[] [] [] [] [] [] [] []]; reflexivity. Qed.

Lemma toUpperCase_idem (s : string) : JS.toUpperCase (JS.toUpperCase s) = JS.toUpperCase s.
Proof.
  unfold JS.toUpperCase. induction s as [|c s IH]; simpl; [reflexivity|].
  now rewrite upcase_idem, IH.
Qed.

Lemma toUpperCase_no_lower (s : string) :
  JS.existsString JS.isLower (JS.toUpperCase s) = false.
Proof.
  unfold JS.toUpperCase. induction s as [|c s IH]; simpl; [reflexivity|].
  now rewrite upcase_not_lower, IH.
Qed.

Lemma toUpperCase_toLowerCase (s : string) :
  JS.toUpperCase (JS.toLowerCase s) = JS.toUpperCase s.
Proof.
  unfold JS.toUpperCase, JS.toLowerCase. induction s as [|c s IH]; simpl; [reflexivity|].
  now rewrite upcase_downcase, IH.
Qed.

Lemma caseVariant_toUpperCase (r r' : string) :
  caseVariant r r' -> JS.toUpperCase r = JS.toUpperCase r'.
Proof.
  unfold caseVariant. intros Hv.
  rewrite <- (toUpperCase_toLowerCase r), <- (toUpperCase_toLowerCase r').
  now rewrite Hv.
Qed.

Lemma generateReference_upper (env : Env) (type : string) :
  JS.toUpperCase (generateReference env type) = generateReference env type
  /\ JS.existsString JS.isLower (generateReference env type) = false.
Proof.
  unfold generateReference. split; [apply toUpperCase_idem | apply toUpperCase_no_lower].
Qed.

Lemma mapString_app (f : ascii -> ascii) (a b : string) :
  JS.mapString f (a ++ b) = (JS.mapString f a ++ JS.mapString f b)%string.
Proof. induction a as [|c a IH]; simpl; [reflexivity | now rewrite IH]. Qed.

(** The reference the hook builds, part by part. *)
Lemma generateReference_parts (env : Env) (type : string) :
  generateReference env type
  = (JS.toUpperCase type ++ "-" ++
     JS.toUpperCase (JS.toString36 (Z.to_N (now env))) ++ "-" ++
     JS.toUpperCase (JS.substr 2 5 (random36 env)))%string.
Proof.
  unfold generateReference, JS.toUpperCase.
  rewrite !mapString_app. fold JS.toUpperCase. now rewrite toUpperCase_idem.
Qed.

Lemma upcase_fixed (c : ascii) : JS.upcase c = c <-> JS.isLower c = false.
Proof. destruct c as [[] [] [] [] [] [] [] []]; split; intros Hc; (reflexivity || discriminate Hc). Qed.

(** A string is its own upper-case form exactly when it has no lower-case
    letter. *)
Lemma toUpperCase_fixed (s : string) :
  JS.toUpperCase s = s <-> JS.existsString JS.isLower s = false.
Proof.
  unfold JS.toUpperCase. induction s as [|c s IH]; simpl; [tauto|].
  rewrite orb_false_iff, <- IH, <- upcase_fixed. split.
  - intros Heq. injection Heq as Hc Hs. now split.
  - intros [-> ->]. reflexivity.
Qed.

Lemma findByReference_unique (st : Store) (uid : string) (b : Booking) :
  In b (bookings st) -> b_user b = uid ->
  (forall b2, In b2 (bookings st) -> bookingReference b2 = bookingReference b -> b2 = b) ->
  findByReference st (bookingReference b) uid = Some b.
Proof.
  intros Hin Hown Huniq. unfold findByReference.
  destruct (find _ (bookings st)) as [x|] eqn:Hf.
  - apply find_In in Hf. destruct Hf as [Hinx Hp].
    apply andb_true_iff in Hp. destruct Hp as [Hr _]. apply String.eqb_eq in Hr.
    f_equal. now apply Huniq.
  - apply (find_none _ _ Hf) in Hin. unfold ownedBy in Hin.
    rewrite String.eqb_refl in Hin. apply String.eqb_eq in Hown.
    rewrite Hown in Hin. discriminate.
Qed.

Lemma getByReference_caseVariant `{Platform} env st h r r' :
  caseVariant r r' -> getByReference env st h r' = getByReference env st h r.
Proof.
  intros Hv. unfold getByReference, withAuth.
  destruct (authenticate env st h) as [code msg|[u|]]; try reflexivity.
  unfold referenceHandler. now rewrite (caseVariant_toUpperCase _ _ Hv).
Qed.

(** C10, as stated, fails: Alice's booking in [lowerStore] was stored with
    the reference "abc-1", which the hook keeps as it is; the lookup
    upper-cases what it is given, so not even "abc-1" itself finds the
    booking. *)
Lemma reference_lookup_counterexample :
  ~ (forall (P : Platform) (env : Env) (st : Store) (h : Headers) (u : User)
            (b : Booking) (r' : string),
        authenticate env st h = Next (Some u) ->
        In b (bookings st) -> b_user b = u_id u ->
        (forall b2, In b2 (bookings st) ->
                    bookingReference b2 = bookingReference b -> b2 = b) ->
        caseVariant (bookingReference b) r' ->
        getByReference env st h r' = (success 200 None (populated st b), st)).
Proof.
  intros Hclaim.
  specialize (Hclaim Sample.platform Sample.env lowerStore (Sample.bearer Sample.aliceId)
                (withoutPassword Sample.alice) lowerCased "abc-1"
                eq_refl (or_introl eq_refl) eq_refl).
  assert (Hfalse : @getByReference Sample.platform Sample.env lowerStore
                     (Sample.bearer Sample.aliceId) "abc-1"
                   = (success 200 None (populated lowerStore lowerCased), lowerStore)).
  { apply Hclaim; [|reflexivity]. now intros b2 [<- | []]. }
  vm_compute in Hfalse. discriminate Hfalse.
Qed.

(** C10 (amended).  A generated reference is the upper-cased type, "-",
    the time in base 36, "-" and the random part, all in upper case: it is
    its own upper-case form and has no lower-case letter.
    GET /bookings/reference/:reference gives the same response for a
    reference and for each of its case variants.  For a booking of the
    requester whose stored reference has no lower-case letter (every
    generated one is such) and is unique in the store, each case variant
    of the reference is answered with that booking.  A booking whose
    stored reference has a lower-case letter is answered to no lookup. *)
Theorem reference_lookup_case_insensitive `{Platform} :
  (forall env type,
      generateReference env type
      = (JS.toUpperCase type ++ "-" ++
         JS.toUpperCase (JS.toString36 (Z.to_N (now env))) ++ "-" ++
         JS.toUpperCase (JS.substr 2 5 (random36 env)))%string
      /\ JS.toUpperCase (generateReference env type) = generateReference env type
      /\ JS.existsString JS.isLower (generateReference env type) = false)
  /\ (forall env st h r r',
        caseVariant r r' -> getByReference env st h r' = getByReference env st h r)
  /\ (forall env st h u b r',
        authenticate env st h = Next (Some u) ->
        In b (bookings st) -> b_user b = u_id u ->
        JS.existsString JS.isLower (bookingReference b) = false ->
        (forall b2, In b2 (bookings st) ->
                    bookingReference b2 = bookingReference b -> b2 = b) ->
        caseVariant (bookingReference b) r' ->
        getByReference env st h r' = (success 200 None (populated st b), st)
        /\ getByReference env st h (bookingReference b)
           = (success 200 None (populated st b), st))
  /\ (forall env st h b r' found,
        JS.existsString JS.isLower (bookingReference b) = true ->
        data (fst (getByReference env st h r')) = Some found ->
        fst found <> b).
Proof.
  split.
  { intros env type. split; [apply generateReference_parts | apply generateReference_upper]. }
  split; [|split].
  - intros env st h r r' Hv. now apply getByReference_caseVariant.
  - intros env st h u b r' Hauth Hin Hown Hupper Huniq Hv.
    apply toUpperCase_fixed in Hupper.
    assert (Hfound : getByReference env st h (bookingReference b)
                     = (success 200 None (populated st b), st)).
    { unfold getByReference. rewrite (withAuth_next _ _ _ _ _ Hauth).
      unfold referenceHandler. rewrite Hupper.
      now rewrite (findByReference_unique st (u_id u) b Hin Hown Huniq). }
    split; [|assumption].
    now rewrite (getByReference_caseVariant env st h _ _ Hv).
  - intros env st h b r' found Hlower Hdata Heq.
    unfold getByReference, withAuth in Hdata.
    destruct (authenticate env st h) as [code msg | [u|]]; try discriminate Hdata.
    unfold referenceHandler in Hdata.
    destruct (findByReference st (JS.toUpperCase r') (u_id u)) as [x|] eqn:Hf;
      [|discriminate Hdata].
    cbn in Hdata. injection Hdata as <-. cbn in Heq. subst x.
    apply find_In in Hf. destruct Hf as [_ Hp].
    apply andb_true_iff in Hp. destruct Hp as [Hr _]. apply String.eqb_eq in Hr.
    assert (Hfix : JS.toUpperCase (bookingReference b) = bookingReference b)
      by (rewrite Hr; apply toUpperCase_idem).
    apply toUpperCase_fixed in Hfix. congruence.
Qed.

Lemma reference_lookup_case_insensitive_witness :
  @getByReference Sample.platform Sample.env Sample.store (Sample.bearer Sample.aliceId)
     "flight-loa1b2c3-K3x9q"
  = (success 200 None
       (populated Sample.store
          (Sample.booking Sample.pendingId Sample.aliceId
             "FLIGHT-LOA1B2C3-K3X9Q" "pending" 10)),
     Sample.store).
Proof.
  apply (proj1 (proj2 (proj2 (@reference_lookup_case_insensitive Sample.platform)))
           Sample.env Sample.store (Sample.bearer Sample.aliceId)
           (withoutPassword Sample.alice)
           (Sample.booking Sample.pendingId Sample.aliceId
              "FLIGHT-LOA1B2C3-K3X9Q" "pending" 10)
           "flight-loa1b2c3-K3x9q").
  - reflexivity.
  - now left.
  - reflexivity.
  - reflexivity.
  - intros b2 [<- | [<- | [<- | []]]]; [reflexivity | discriminate | discriminate].
  - reflexivity.
Defined.

(* ------------------------------------------------------------------ *)
(** ** Sorting *)

Section Sorting.
Context {A : Type} (leb : A -> A -> bool).
Hypothesis leb_total : forall a b, leb a b = false -> leb b a = true.
Hypothesis leb_trans : forall a b c, leb a b = true -> leb b c = true -> leb a c = true.

Lemma insertBy_perm (x : A) (l : list A) : Permutation (insertBy leb x l) (x :: l).
Proof.
  induction l as [|y l IH]; simpl; [reflexivity|].
  destruct (leb x y); [reflexivity|].
  rewrite IH. apply perm_swap.
Qed.

Lemma sortBy_perm (l : list A) : Permutation (sortBy leb l) l.
Proof.
  induction l as [|x l IH]; simpl; [reflexivity|].
  rewrite insertBy_perm. now constructor.
Qed.

Lemma sortBy_In (l : list A) (x : A) : In x (sortBy leb l) <-> In x l.
Proof.
  split; apply Permutation_in; [apply sortBy_perm | symmetry; apply sortBy_perm].
Qed.

Lemma insertBy_sorted (x : A) (l : list A) :
  StronglySorted (fun a b => leb a b = true) l ->
  StronglySorted (fun a b => leb a b = true) (insertBy leb x l).
Proof.
  induction 1 as [|y l Hsorted IH Hall]; simpl.
  - constructor; constructor.
  - destruct (leb x y) eqn:Hxy.
    + constructor; [now constructor|].
      constructor; [exact Hxy|].
      eapply Forall_impl; [|exact Hall].
      intros z Hyz. exact (leb_trans _ _ _ Hxy Hyz).
    + constructor; [exact IH|].
      apply Forall_forall. intros z Hz.
      apply (Permutation_in _ (insertBy_perm x l)) in Hz.
      destruct Hz as [<- | Hz]; [now apply leb_total|].
      rewrite Forall_forall in Hall. now apply Hall.
Qed.

Lemma sortBy_sorted (l : list A) :
  StronglySorted (fun a b => leb a b = true) (sortBy leb l).
Proof.
  induction l as [|x l IH]; simpl; [constructor | now apply insertBy_sorted].
Qed.

End Sorting.

Lemma StronglySorted_weaken {A} (P Q : A -> A -> Prop) (l : list A) :
  (forall a b, P a b -> Q a b) -> StronglySorted P l -> StronglySorted Q l.
Proof.
  intros Himp. induction 1 as [|x l Hs IH Hall]; constructor; [assumption|].
  eapply Forall_impl; [|exact Hall]. intros b. apply Himp.
Qed.

(* ------------------------------------------------------------------ *)
(** ** Binary64 numbers

    The order of the numbers and the sign of a difference, from the
    specification of the primitive operations ([FloatAxioms]). *)

Section Binary64.
Local Open Scope Z_scope.

Lemma digits2_pos_bounds (m : positive) :
  2 ^ (Zpos (digits2_pos m) - 1) <= Zpos m < 2 ^ Zpos (digits2_pos m).
Proof.
  induction m as [m IH | m IH |]; cbn [digits2_pos];
    [| | cbn; lia];
    rewrite Pos2Z.inj_succ;
    replace (Z.succ (Zpos (digits2_pos m)) - 1) with (Z.succ (Zpos (digits2_pos m) - 1)) by lia;
    rewrite !Z.pow_succ_r by lia; lia.
Qed.

Lemma shr_1_m (mrs : shr_record) :
  0 <= shr_m mrs -> shr_m (shr_1 mrs) = shr_m mrs / 2.
Proof.
  destruct mrs as [m r s]. cbn [shr_m]. intros Hm.
  destruct m as [|[p|p|]|p]; cbn [shr_1 shr_m]; try lia; try reflexivity.
  - apply Z.div_unique with (r := 1); lia.
  - apply Z.div_unique with (r := 0); lia.
Qed.

Lemma iter_shr_1_m (p : positive) (mrs : shr_record) :
  0 <= shr_m mrs ->
  shr_m (SpecFloat.iter_pos shr_1 p mrs) = shr_m mrs / 2 ^ Zpos p.
Proof.
  revert mrs. induction p as [p IH | p IH |]; intros mrs Hm; cbn [SpecFloat.iter_pos].
  - assert (Hpow : 2 ^ Zpos p~1 = 2 * (2 ^ Zpos p * 2 ^ Zpos p))
      by (replace (Zpos p~1) with (1 + Zpos p + Zpos p) by lia;
          rewrite !Z.pow_add_r by lia; ring).
    assert (Hp : 0 < 2 ^ Zpos p) by (apply Z.pow_pos_nonneg; lia).
    assert (H1 : 0 <= shr_m (shr_1 mrs))
      by (rewrite shr_1_m by assumption; apply Z.div_pos; lia).
    assert (H2 : 0 <= shr_m (SpecFloat.iter_pos shr_1 p (shr_1 mrs)))
      by (rewrite IH by assumption; apply Z.div_pos; assumption).
    rewrite IH, IH, shr_1_m by assumption.
    rewrite !Z.div_div by lia. now rewrite Hpow.
  - assert (Hpow : 2 ^ Zpos p~0 = 2 ^ Zpos p * 2 ^ Zpos p)
      by (replace (Zpos p~0) with (Zpos p + Zpos p) by lia;
          rewrite !Z.pow_add_r by lia; ring).
    assert (Hp : 0 < 2 ^ Zpos p) by (apply Z.pow_pos_nonneg; lia).
    assert (H2 : 0 <= shr_m (SpecFloat.iter_pos shr_1 p mrs))
      by (rewrite IH by assumption; apply Z.div_pos; assumption).
    rewrite IH, IH by assumption.
    rewrite !Z.div_div by lia. now rewrite Hpow.
  - rewrite shr_1_m by assumption. reflexivity.
Qed.

Lemma shr_record_of_loc_m (m : Z) (l : SpecFloat.location) : shr_m (shr_record_of_loc m l) = m.
Proof. destruct l as [|[]]; reflexivity. Qed.

(** Rounding to the format never turns a positive mantissa at an exponent
    of the format into zero. *)
Lemma shr_fexp_pos (m e : Z) (l : SpecFloat.location) :
  0 < m -> emin <= e ->
  0 < shr_m (fst (shr_fexp prec emax m e l)) /\ emin <= snd (shr_fexp prec emax m e l).
Proof.
  intros Hm He. unfold shr_fexp, shr.
  destruct m as [|q|q]; try lia.
  pose proof (digits2_pos_bounds q) as Hd. cbn [Zdigits2].
  destruct (fexp prec emax (Zpos (digits2_pos q) + e) - e) as [|p|p] eqn:Hn; cbn [fst snd];
    rewrite ?shr_record_of_loc_m; try (split; lia).
  unfold fexp, SpecFloat.emin, prec, emax in *.
  split; [|lia].
  rewrite iter_shr_1_m by (rewrite shr_record_of_loc_m; lia).
  rewrite shr_record_of_loc_m.
  apply Z.div_str_pos. split; [apply Z.pow_pos_nonneg; lia|].
  apply Z.le_trans with (2 ^ (Zpos (digits2_pos q) - 1)); [|lia].
  apply Z.pow_le_mono_r; lia.
Qed.

Lemma round_nearest_even_ge (m : Z) (l : SpecFloat.location) : m <= round_nearest_even m l.
Proof. destruct l as [|[]]; cbn; try destruct (Z.even m); lia. Qed.

Lemma binary_round_aux_sign (s : bool) (m e : Z) (l : SpecFloat.location) :
  0 < m -> emin <= e ->
  (exists m' e', binary_round_aux prec emax s m e l = S754_finite s m' e')
  \/ binary_round_aux prec emax s m e l = S754_infinity s.
Proof.
  intros Hm He. unfold binary_round_aux.
  destruct (shr_fexp_pos m e l Hm He) as [H1 H1e].
  destruct (shr_fexp prec emax m e l) as [mrs' e']. cbn [fst snd] in H1, H1e.
  pose proof (round_nearest_even_ge (shr_m mrs') (loc_of_shr_record mrs')) as Hr.
  destruct (shr_fexp_pos (round_nearest_even (shr_m mrs') (loc_of_shr_record mrs')) e'
              loc_Exact ltac:(lia) H1e) as [H2 _].
  destruct (shr_fexp prec emax _ e' loc_Exact) as [mrs'' e'']. cbn [fst] in H2.
  destruct (shr_m mrs'') as [|m2|m2]; try lia.
  destruct (e'' <=? emax - prec); [left; eauto | right; reflexivity].
Qed.

Lemma binary_round_sign (s : bool) (m : positive) (e : Z) :
  emin <= e ->
  (exists m' e', binary_round prec emax s m e = S754_finite s m' e')
  \/ binary_round prec emax s m e = S754_infinity s.
Proof.
  intros He. unfold binary_round.
  destruct (shl_align m e (fexp prec emax (Zpos (digits2_pos m) + e))) as [mz ez] eqn:Hal.
  apply binary_round_aux_sign; [lia|].
  unfold shl_align in Hal.
  destruct (fexp prec emax (Zpos (digits2_pos m) + e) - e) eqn:Hn;
    injection Hal as <- <-; try assumption.
  unfold fexp. lia.
Qed.

Lemma binary_normalize_sign (z e : Z) :
  emin <= e ->
  SFltb (S754_zero false) (binary_normalize prec emax z e false) = (0 <? z).
Proof.
  intros He. destruct z as [|m|m]; cbn [binary_normalize].
  - reflexivity.
  - destruct (binary_round_sign false m e He) as [(m' & e' & ->) | ->]; reflexivity.
  - destruct (binary_round_sign true m e He) as [(m' & e' & ->) | ->]; reflexivity.
Qed.

Lemma shl_align_val (m : positive) (e e' : Z) :
  e' <= e -> Zpos (fst (shl_align m e e')) = Zpos m * 2 ^ (e - e').
Proof.
  intros Hle. unfold shl_align.
  destruct (e' - e) as [|d|d] eqn:Hd; cbn [fst]; try lia.
  - replace (e - e') with 0 by lia. lia.
  - change (Pos.iter xO m d) with (shift_pos d m).
    rewrite shift_pos_correct, Z.pow_pos_fold.
    replace (e - e') with (Zpos d) by lia. lia.
Qed.

Lemma canonical_facts (m : positive) (e : Z) :
  canonical_mantissa prec emax m e = true ->
  emin <= e /\ Zpos m < 2 ^ 53 /\ (emin < e -> 2 ^ 52 <= Zpos m).
Proof.
  unfold canonical_mantissa, fexp, SpecFloat.emin, prec, emax. intros Hc.
  apply Z.eqb_eq in Hc. pose proof (digits2_pos_bounds m) as Hd.
  split; [lia|]. split.
  - apply Z.lt_le_trans with (2 ^ Zpos (digits2_pos m)); [lia|].
    apply Z.pow_le_mono_r; lia.
  - intros He. replace 52 with (Zpos (digits2_pos m) - 1) by lia. lia.
Qed.

(** Two numbers of the format at different exponents: the one with the
    larger exponent is larger. *)
Lemma aligned_lt (m1 m2 : positive) (e1 e2 : Z) :
  canonical_mantissa prec emax m1 e1 = true ->
  canonical_mantissa prec emax m2 e2 = true ->
  e1 < e2 ->
  Zpos m1 < Zpos m2 * 2 ^ (e2 - e1).
Proof.
  intros H1 H2 Hlt.
  destruct (canonical_facts _ _ H1) as (He1 & Hm1 & _).
  destruct (canonical_facts _ _ H2) as (_ & _ & Hm2).
  specialize (Hm2 ltac:(lia)).
  assert (Hp : 2 ^ 1 <= 2 ^ (e2 - e1)) by (apply Z.pow_le_mono_r; lia).
  change (2 ^ 1) with 2 in Hp. change (2 ^ 53) with (2 ^ 52 * 2) in Hm1. nia.
Qed.

Lemma SFsub_sign (X Y : spec_float) :
  valid_binary X = true -> valid_binary Y = true ->
  SFltb (S754_zero false) (SFsub prec emax X Y) = SFltb Y X.
Proof.
  destruct X as [sx|sx| |sx mx ex], Y as [sy|sy| |sy my ey]; intros HX HY;
    try (destruct sx; reflexivity); try (destruct sy; reflexivity);
    try (destruct sx, sy; reflexivity); try reflexivity.
  cbn [SpecFloat.valid_binary] in HX, HY. unfold bounded in HX, HY.
  apply andb_true_iff in HX, HY. destruct HX as [HX _], HY as [HY _].
  destruct (canonical_facts _ _ HX) as (Hex & _ & _).
  destruct (canonical_facts _ _ HY) as (Hey & _ & _).
  cbn [SFsub]. cbv zeta.
  rewrite binary_normalize_sign by lia.
  rewrite !shl_align_val by lia.
  unfold SFltb. cbn [SFcompare].
  change (Pos.compare_cont Eq my mx) with (Pos.compare my mx).
  assert (Hpx : 0 < Zpos mx * 2 ^ (ex - Z.min ex ey))
    by (apply Z.mul_pos_pos; [lia | apply Z.pow_pos_nonneg; lia]).
  assert (Hpy : 0 < Zpos my * 2 ^ (ey - Z.min ex ey))
    by (apply Z.mul_pos_pos; [lia | apply Z.pow_pos_nonneg; lia]).
  destruct (Z.compare_spec ey ex) as [Heq | Hlt | Hgt].
  - subst ey. rewrite Z.min_id, Z.sub_diag in *. change (2 ^ 0) with 1 in *.
    rewrite !Z.mul_1_r in *.
    destruct sx, sy; cbn [cond_Zopp];
      destruct (Pos.compare_spec my mx); cbn [CompOpp];
      try (apply Z.ltb_lt; lia); try (apply Z.ltb_ge; lia).
  - pose proof (aligned_lt my mx ey ex HY HX Hlt) as Hal.
    replace (Z.min ex ey) with ey in * by lia.
    rewrite Z.sub_diag in *. change (2 ^ 0) with 1 in *. rewrite Z.mul_1_r in *.
    destruct sx, sy; cbn [cond_Zopp];
      try (apply Z.ltb_lt; lia); try (apply Z.ltb_ge; lia).
  - pose proof (aligned_lt mx my ex ey HX HY Hgt) as Hal.
    replace (Z.min ex ey) with ex in * by lia.
    rewrite Z.sub_diag in *. change (2 ^ 0) with 1 in *. rewrite Z.mul_1_r in *.
    destruct sx, sy; cbn [cond_Zopp];
      try (apply Z.ltb_lt; lia); try (apply Z.ltb_ge; lia).
Qed.

Lemma SFcompare_key a b :
  SFisNaN a = false -> SFisNaN b = false ->
  SFcompare a b = Some (lexcmp (SFkey a) (SFkey b)).
Proof.
  destruct a as [sa|sa| |sa ma ea], b as [sb|sb| |sb mb eb]; simpl;
    try discriminate; intros _ _;
    try (destruct sa; reflexivity); try (destruct sb; reflexivity);
    try (destruct sa, sb; reflexivity).
  destruct sa, sb; simpl; try reflexivity.
  rewrite Z.compare_opp, (Z.compare_antisym ea eb).
  now destruct (ea ?= eb).
Qed.

Lemma lexcmp_le_trans p q r :
  lexcmp p q <> Gt -> lexcmp q r <> Gt -> lexcmp p r <> Gt.
Proof.
  destruct p as [[a1 a2] a3], q as [[b1 b2] b3], r as [[c1 c2] c3]. unfold lexcmp.
  destruct (Z.compare_spec a1 b1), (Z.compare_spec b1 c1), (Z.compare_spec a1 c1);
    try lia; try congruence;
    destruct (Z.compare_spec a2 b2), (Z.compare_spec b2 c2), (Z.compare_spec a2 c2);
    try lia; try congruence;
    destruct (Z.compare_spec a3 b3), (Z.compare_spec b3 c3), (Z.compare_spec a3 c3);
    try lia; congruence.
Qed.

Lemma lexcmp_antisym p q : lexcmp q p = CompOpp (lexcmp p q).
Proof.
  destruct p as [[a1 a2] a3], q as [[b1 b2] b3]. unfold lexcmp.
  rewrite (Z.compare_antisym a1 b1), (Z.compare_antisym a2 b2), (Z.compare_antisym a3 b3).
  destruct (a1 ?= b1), (a2 ?= b2), (a3 ?= b3); reflexivity.
Qed.

End Binary64.

Section Binary64Order.
Local Open Scope float_scope.

(** The sign of a difference of two binary64 numbers tells their order,
    also when the difference underflows or is not a number. *)
Lemma sub_sign (x y : float) : (0 <? x - y) = (y <? x).
Proof.
  rewrite !FloatAxioms.ltb_spec, sub_spec.
  change (Prim2SF 0) with (S754_zero false).
  apply SFsub_sign; apply Prim2SF_valid.
Qed.

Lemma is_nan_spec x : is_nan x = false <-> SFisNaN (Prim2SF x) = false.
Proof.
  unfold is_nan. rewrite FloatAxioms.eqb_spec. unfold SFeqb.
  destruct (Prim2SF x) as [s|s| |s m e]; simpl.
  - tauto.
  - destruct s; simpl; tauto.
  - split; discriminate.
  - rewrite Z.compare_refl.
    destruct s; rewrite Pos.compare_cont_refl; simpl; tauto.
Qed.

Lemma leb_not_nan x y : (x <=? y) = true -> is_nan x = false /\ is_nan y = false.
Proof.
  rewrite FloatAxioms.leb_spec, !is_nan_spec. unfold SFleb.
  destruct (Prim2SF x), (Prim2SF y); simpl; try discriminate; auto.
Qed.

Lemma leb_key x y :
  is_nan x = false -> is_nan y = false ->
  (x <=? y) = match lexcmp (SFkey (Prim2SF x)) (SFkey (Prim2SF y)) with
              | Gt => false
              | _ => true
              end.
Proof.
  rewrite !is_nan_spec, FloatAxioms.leb_spec. intros Hx Hy. unfold SFleb.
  now rewrite (SFcompare_key _ _ Hx Hy).
Qed.

Lemma ltb_key x y :
  is_nan x = false -> is_nan y = false ->
  (x <? y) = match lexcmp (SFkey (Prim2SF x)) (SFkey (Prim2SF y)) with
             | Lt => true
             | _ => false
             end.
Proof.
  rewrite !is_nan_spec, FloatAxioms.ltb_spec. intros Hx Hy. unfold SFltb.
  now rewrite (SFcompare_key _ _ Hx Hy).
Qed.

Lemma float_leb_trans x y z :
  (x <=? y) = true -> (y <=? z) = true -> (x <=? z) = true.
Proof.
  intros Hxy Hyz.
  destruct (leb_not_nan _ _ Hxy) as [Hx Hy]. destruct (leb_not_nan _ _ Hyz) as [_ Hz].
  rewrite leb_key in * by assumption.
  pose proof (lexcmp_le_trans (SFkey (Prim2SF x)) (SFkey (Prim2SF y)) (SFkey (Prim2SF z)))
    as Htrans.
  destruct (lexcmp (SFkey (Prim2SF x)) (SFkey (Prim2SF y))),
           (lexcmp (SFkey (Prim2SF y)) (SFkey (Prim2SF z))),
           (lexcmp (SFkey (Prim2SF x)) (SFkey (Prim2SF z))); try reflexivity;
    try discriminate; exfalso; apply Htrans; congruence.
Qed.

(** Among numbers, "not greater" is "less or equal". *)
Lemma not_ltb_leb x y :
  is_nan x = false -> is_nan y = false -> negb (y <? x) = (x <=? y).
Proof.
  intros Hx Hy. rewrite ltb_key, leb_key by assumption.
  rewrite (lexcmp_antisym (SFkey (Prim2SF x)) (SFkey (Prim2SF y))).
  now destruct (lexcmp (SFkey (Prim2SF x)) (SFkey (Prim2SF y))).
Qed.

Lemma ltb_asym x y : (x <? y) = true -> (y <? x) = false.
Proof.
  rewrite !FloatAxioms.ltb_spec. unfold SFltb.
  destruct (SFisNaN (Prim2SF x)) eqn:Hx; [now destruct (Prim2SF x)|].
  destruct (SFisNaN (Prim2SF y)) eqn:Hy;
    [destruct (Prim2SF x), (Prim2SF y); try discriminate; reflexivity|].
  rewrite (SFcompare_key _ _ Hx Hy), (SFcompare_key _ _ Hy Hx).
  rewrite (lexcmp_antisym (SFkey (Prim2SF x)) (SFkey (Prim2SF y))).
  now destruct (lexcmp (SFkey (Prim2SF x)) (SFkey (Prim2SF y))).
Qed.

Lemma is_finite_spec x :
  is_finite x = true ->
  (exists s, Prim2SF x = S754_zero s) \/ (exists s m e, Prim2SF x = S754_finite s m e).
Proof.
  unfold is_finite, is_nan, is_infinity. rewrite !FloatAxioms.eqb_spec, abs_spec.
  change (Prim2SF infinity) with (S754_infinity false).
  destruct (Prim2SF x) as [s|s| |s m e]; cbn; eauto; try discriminate.
  now destruct s.
Qed.

(** A finite number minus itself is +0. *)
Lemma sub_diag_finite x : is_finite x = true -> x - x = 0.
Proof.
  intros Hfin. apply Prim2SF_inj. rewrite sub_spec.
  change (Prim2SF 0) with (S754_zero false).
  destruct (is_finite_spec x Hfin) as [(s & ->) | (s & m & e & ->)].
  - now destruct s.
  - unfold SF64sub, SFsub. cbv zeta. now rewrite Z.sub_diag.
Qed.

(** A finite number times 0 is a zero. *)
Lemma mul_zero_finite x : is_finite x = true -> x * 0 = 0 \/ x * 0 = neg_zero.
Proof.
  intros Hfin.
  assert (Hz : exists s, Prim2SF (x * 0) = S754_zero s).
  { rewrite mul_spec. change (Prim2SF 0) with (S754_zero false).
    destruct (is_finite_spec x Hfin) as [(s & ->) | (s & m & e & ->)]; cbn; eauto. }
  destruct Hz as [[|] Hz]; [right | left]; apply Prim2SF_inj; rewrite Hz; reflexivity.
Qed.

End Binary64Order.

(* ------------------------------------------------------------------ *)
(** ** Sorting a list of elements that a comparator orders *)

Section SortingOn.
Context {A : Type} (leb : A -> A -> bool) (P : A -> Prop).
Hypothesis leb_total : forall a b, leb a b = false -> leb b a = true.
Hypothesis leb_trans :
  forall a b c, P a -> P b -> P c -> leb a b = true -> leb b c = true -> leb a c = true.

Lemma insertBy_sorted_on (x : A) (l : list A) :
  P x -> Forall P l ->
  StronglySorted (fun a b => leb a b = true) l ->
  StronglySorted (fun a b => leb a b = true) (insertBy leb x l).
Proof.
  intros Hx HP. induction 1 as [|y l Hsorted IH Hall]; simpl.
  - constructor; constructor.
  - inversion HP as [|? ? Hy HPl]; subst.
    destruct (leb x y) eqn:Hxy.
    + constructor; [now constructor|].
      constructor; [exact Hxy|].
      rewrite Forall_forall in *. intros z Hz.
      exact (leb_trans _ _ _ Hx Hy (HPl z Hz) Hxy (Hall z Hz)).
    + constructor; [now apply IH|].
      apply Forall_forall. intros z Hz.
      apply (Permutation_in _ (insertBy_perm leb x l)) in Hz.
      destruct Hz as [<- | Hz]; [now apply leb_total|].
      rewrite Forall_forall in Hall. now apply Hall.
Qed.

Lemma sortBy_Forall (l : list A) : Forall P l -> Forall P (sortBy leb l).
Proof.
  rewrite !Forall_forall. intros HP x Hx. apply HP.
  exact (Permutation_in _ (sortBy_perm leb l) Hx).
Qed.

Lemma sortBy_sorted_on (l : list A) :
  Forall P l -> StronglySorted (fun a b => leb a b = true) (sortBy leb l).
Proof.
  induction l as [|x l IH]; simpl; [constructor|].
  intros HP. inversion HP; subst.
  apply insertBy_sorted_on; [assumption | now apply sortBy_Forall | now apply IH].
Qed.

End SortingOn.

Lemma StronglySorted_weaken_on {A} (P : A -> Prop) (R Q : A -> A -> Prop) (l : list A) :
  (forall a b, P a -> P b -> R a b -> Q a b) ->
  Forall P l -> StronglySorted R l -> StronglySorted Q l.
Proof.
  intros Himp HP. induction 1 as [|x l Hs IH Hall]; constructor;
    inversion HP as [|? ? Hx HPl]; subst; [now apply IH|].
  rewrite Forall_forall in *. intros b Hb. apply Himp; auto.
Qed.

(* ------------------------------------------------------------------ *)
(** ** Proximity search *)

Lemma slice_short {A} (l : list A) (n : Z) :
  (Z.of_nat (length l) <= n)%Z -> JS.slice l 0 n = l.
Proof.
  intros Hn. unfold JS.slice, JS.relIndex.
  assert (Hneg : (n <? 0)%Z = false) by (apply Z.ltb_ge; lia).
  rewrite Hneg. simpl (0 <? 0)%Z. cbv iota.
  replace (Z.min 0 (Z.of_nat (length l))) with 0%Z by lia.
  replace (Z.min n (Z.of_nat (length l))) with (Z.of_nat (length l)) by lia.
  rewrite Z.sub_0_r, Nat2Z.id. simpl. apply firstn_all.
Qed.

Section Proximity.
Context `{MathLib}.
Local Open Scope float_scope.

(** A point with finite coordinates is at distance +0 from itself, given
    what ECMAScript fixes of the library, [Math.sin(0) = 0] and
    [Math.atan2(0, 1) = 0], and a cosine of the latitude whose square is
    finite (a cosine lies between -1 and 1). *)
Lemma calculateDistance_same (lat0 lng0 : float) :
  is_finite lat0 = true -> is_finite lng0 = true ->
  Math_sin 0 = 0 -> Math_atan2 0 1 = 0 ->
  is_finite (Math_cos (lat0 * (Math_PI / 180)) * Math_cos (lat0 * (Math_PI / 180))) = true ->
  calculateDistance lat0 lng0 lat0 lng0 = 0.
Proof.
  intros Hlat Hlng Hsin Hatan Hcos. unfold calculateDistance.
  rewrite (sub_diag_finite _ Hlat), (sub_diag_finite _ Hlng).
  change (0 * (Math_PI / 180) / 2) with 0. rewrite Hsin.
  destruct (mul_zero_finite _ Hcos) as [-> | ->].
  - change (0 * 0 + 0 * 0) with 0. change (sqrt 0) with 0.
    change (sqrt (1 - 0)) with 1. now rewrite Hatan.
  - change (0 * 0 + neg_zero * 0) with 0. change (sqrt 0) with 0.
    change (sqrt (1 - 0)) with 1. now rewrite Hatan.
Qed.

Lemma nearbyRestaurants_length q userLat userLng radius :
  (length (nearbyRestaurants q userLat userLng radius) <= 3)%nat.
Proof.
  unfold nearbyRestaurants. rewrite sortBy_length.
  eapply Nat.le_trans; [apply filter_length_le|].
  eapply Nat.le_trans; [apply filter_length_le|].
  now rewrite length_map.
Qed.

(** Membership in the list [/nearby] paginates. *)
Lemma nearbyRestaurants_In q userLat userLng radius item :
  In item (nearbyRestaurants q userLat userLng radius) <->
  exists r, In r mockRestaurants /\ item = withDistance userLat userLng r /\
            (snd item <=? radius) = true /\ nearbyFilter q item = true.
Proof.
  unfold nearbyRestaurants. rewrite sortBy_In, !filter_In, in_map_iff.
  split.
  - intros [[(r & Hr & Hin) Hd] Hf]. exists r. auto.
  - intros (r & Hin & Hr & Hd & Hf). repeat split; auto. exists r. auto.
Qed.

(** The comparator of the sort orders the numbers as [<=] does. *)
Lemma byDistance_leb a b :
  is_nan (snd a) = false -> is_nan (snd b) = false ->
  byDistance a b = (snd a <=? snd b).
Proof. intros Ha Hb. unfold byDistance. rewrite sub_sign. now apply not_ltb_leb. Qed.

Lemma byDistance_total a b : byDistance a b = false -> byDistance b a = true.
Proof.
  unfold byDistance. rewrite !sub_sign. intros Hab.
  apply negb_false_iff in Hab. now rewrite (ltb_asym _ _ Hab).
Qed.

Lemma nearbyRestaurants_sorted q userLat userLng radius :
  StronglySorted (fun a b : Restaurant * float => (snd a <=? snd b) = true)
                 (nearbyRestaurants q userLat userLng radius).
Proof.
  unfold nearbyRestaurants.
  set (l := filter (nearbyFilter q)
              (filter (fun r => snd r <=? radius)
                 (map (withDistance userLat userLng) mockRestaurants))).
  assert (HP : Forall (fun r : Restaurant * float => is_nan (snd r) = false) l).
  { apply Forall_forall. intros x Hx. unfold l in Hx.
    apply filter_In in Hx. destruct Hx as [Hx _].
    apply filter_In in Hx. destruct Hx as [_ Hx].
    now apply leb_not_nan in Hx. }
  apply (StronglySorted_weaken_on (fun r : Restaurant * float => is_nan (snd r) = false)
           (fun a b => byDistance a b = true)).
  - intros a b Ha Hb Hab. now rewrite <- byDistance_leb.
  - now apply sortBy_Forall.
  - apply (sortBy_sorted_on byDistance
             (fun r : Restaurant * float => is_nan (snd r) = false)).
    + apply byDistance_total.
    + intros a b c Ha Hb Hc. rewrite !byDistance_leb by assumption.
      apply float_leb_trans.
    + exact HP.
Qed.

Lemma nearbyValidation_ok q userLat userLng :
  nq_lat q = Given userLat -> nq_lng q = Given userLng ->
  (nq_radius q = Absent \/
   exists r, nq_radius q = Given r /\ (0.1 <=? r) = true /\ (r <=? 50) = true) ->
  nearbyValidation q = [].
Proof.
  intros Hlat Hlng Hrad. unfold nearbyValidation. rewrite Hlat, Hlng. simpl.
  destruct Hrad as [-> | (r & -> & Hlo & Hhi)]; [reflexivity|].
  now rewrite Hlo, Hhi.
Qed.

Lemma nearbyFilter_no_criteria q item :
  nq_cuisine q = None -> nq_priceRange q = None -> nq_rating q = Absent ->
  nearbyFilter q item = true.
Proof.
  intros Hc Hp Hr. unfold nearbyFilter, matchesCuisine, matchesPriceRange, matchesRating.
  now rewrite Hc, Hp, Hr.
Qed.

(** A query that also asks for Thai cuisine: whatever the point and the
    radius, the request is valid and the answer holds no item, as no
    restaurant of the catalogue is Thai. *)
Lemma nearby_thai_empty userLat userLng radius :
  (0.1 <=? radius) = true -> (radius <=? 50) = true ->
  let q := mkNearbyQuery (Given userLat) (Given userLng) (Given radius)
                         (Some "Thai") None Absent Absent Absent in
  nearbyValidation q = [] /\ data (nearby q) = Some [].
Proof.
  intros Hlo Hhi q.
  assert (Hvalid : nearbyValidation q = []).
  { apply (nearbyValidation_ok q userLat userLng); try reflexivity.
    right. exists radius. now repeat split. }
  split; [exact Hvalid|].
  unfold nearby. rewrite Hvalid. cbn [negb isEmptyList q nq_lat nq_lng].
  assert (Hnone : nearbyRestaurants q userLat userLng
                    (orElse (parsed (nq_radius q)) 5) = []).
  { unfold nearbyRestaurants.
    match goal with |- sortBy _ ?l = [] => assert (Hl : l = []) end.
    { apply filter_nil_iff. intros x Hx. apply filter_In in Hx. destruct Hx as [Hx _].
      apply in_map_iff in Hx. destruct Hx as (r & <- & Hr).
      destruct Hr as [<- | [<- | [<- | []]]]; reflexivity. }
    now rewrite Hl. }
  rewrite Hnone. reflexivity.
Qed.

End Proximity.

(** C8, as stated, fails, whatever the Math library that meets the
    premises: the query point is the place of Sakura Sushi, the radius is
    1 km, and the request also asks for Thai cuisine.  The restaurant is at
    distance 0, within the radius, and is not returned. *)
Lemma nearby_exact_counterexample :
  ~ (forall (M : MathLib) (q : NearbyQuery) (userLat userLng radius : float)
            (items : list (Restaurant * float)),
        Math_sin 0 = 0%float -> Math_atan2 0 1 = 0%float ->
        is_finite (Math_cos (userLat * (Math_PI / 180)) *
                   Math_cos (userLat * (Math_PI / 180))) = true ->
        nq_lat q = Given userLat -> nq_lng q = Given userLng ->
        nq_radius q = Given radius ->
        (0.1 <? radius)%float = true -> (radius <=? 50)%float = true ->
        data (nearby q) = Some items ->
        forall r, In r mockRestaurants ->
          ((snd (withDistance userLat userLng r) <=? radius)%float = true <->
           In (withDistance userLat userLng r) items)).
Proof.
  intros Hclaim.
  destruct (@nearby_thai_empty Sample.math 34.0522%float (-118.2437)%float 1%float
              eq_refl eq_refl) as [_ Hdata].
  destruct (Hclaim Sample.math
              (mkNearbyQuery (Given 34.0522%float) (Given (-118.2437)%float)
                             (Given 1%float) (Some "Thai") None Absent Absent Absent)
              34.0522%float (-118.2437)%float 1%float [] eq_refl eq_refl eq_refl
              eq_refl eq_refl eq_refl eq_refl eq_refl Hdata
              sakuraSushi (or_intror (or_introl eq_refl)))
    as [Hin _].
  apply Hin. unfold withDistance. cbn [snd sakuraSushi location coordinates lat lng].
  now rewrite (@calculateDistance_same Sample.math).
Qed.

(** C8 (amended).  For a query with coordinates and a radius R accepted by
    validation (0.1 <= R <= 50, or no radius and then R = 5), /nearby
    answers 200 with the requested page of the list [found], where [found]
    holds exactly the restaurants whose computed distance to the query
    point is at most R, both binary64 numbers, and that pass the cuisine,
    price and rating criteria of the request, in ascending order of
    distance.  Without page and limit the page is the whole of [found];
    without criteria every restaurant passes them.  For a restaurant at the
    query point the computed distance is 0, as soon as the Math library
    gives [sin 0 = 0], [atan2 0 1 = 0] and a cosine of the latitude with a
    finite square, and the restaurant is in [found] when it passes the
    criteria. *)
Theorem nearby_within_radius `{MathLib} :
  forall q userLat userLng,
    nq_lat q = Given userLat -> nq_lng q = Given userLng ->
    (nq_radius q = Absent \/
     exists r, nq_radius q = Given r /\ (0.1 <=? r)%float = true
                                     /\ (r <=? 50)%float = true) ->
    let radius := orElse (parsed (nq_radius q)) 5%float in
    let found := nearbyRestaurants q userLat userLng radius in
    nearby q = mkResponse 200 "success" None
                 (Some (fst (paginate found (nq_page q) (nq_limit q)))) []
                 (Some (snd (paginate found (nq_page q) (nq_limit q))))
    /\ (forall item,
          In item found <->
          exists r, In r mockRestaurants /\ item = withDistance userLat userLng r /\
                    (snd item <=? radius)%float = true /\ nearbyFilter q item = true)
    /\ StronglySorted (fun a b : Restaurant * float => (snd a <=? snd b)%float = true) found
    /\ (forall p L, nq_page q = Given p -> nq_limit q = Given L ->
                    (1 <= p)%Z -> (1 <= L)%Z ->
                    fst (paginate found (nq_page q) (nq_limit q)) = pageOf found p L)
    /\ (nq_page q = Absent -> nq_limit q = Absent ->
        fst (paginate found (nq_page q) (nq_limit q)) = found)
    /\ (nq_cuisine q = None -> nq_priceRange q = None -> nq_rating q = Absent ->
        forall item, nearbyFilter q item = true)
    /\ (forall r, In r mockRestaurants ->
          lat (coordinates (location r)) = userLat ->
          lng (coordinates (location r)) = userLng ->
          Math_sin 0 = 0%float -> Math_atan2 0 1 = 0%float ->
          is_finite (Math_cos (userLat * (Math_PI / 180)) *
                     Math_cos (userLat * (Math_PI / 180))) = true ->
          snd (withDistance userLat userLng r) = 0%float
          /\ (nearbyFilter q (withDistance userLat userLng r) = true ->
              In (withDistance userLat userLng r) found)).
Proof.
  intros q userLat userLng Hlat Hlng Hrad radius found.
  assert (Hradius : (0 <=? radius)%float = true).
  { unfold radius. destruct Hrad as [-> | (r & -> & Hlo & _)]; [reflexivity|].
    cbn [parsed orElse]. now apply (float_leb_trans 0 0.1 r). }
  split.
  { unfold nearby. rewrite (nearbyValidation_ok q userLat userLng Hlat Hlng Hrad).
    cbn [negb isEmptyList]. rewrite Hlat, Hlng. fold radius. fold found.
    now destruct (paginate found (nq_page q) (nq_limit q)). }
  split; [intros item; apply nearbyRestaurants_In|].
  split; [apply nearbyRestaurants_sorted|].
  split.
  { intros p L -> -> Hp HL. now rewrite paginate_pageOf. }
  split.
  { intros -> ->. unfold paginate. cbn [parsed JS.orDefault fst].
    apply slice_short. pose proof (nearbyRestaurants_length q userLat userLng radius) as Hlen.
    fold found in Hlen. lia. }
  split; [intros Hc Hp Hr item; now apply nearbyFilter_no_criteria|].
  intros r Hin Hrlat Hrlng Hsin Hatan Hcos.
  assert (Hzero : snd (withDistance userLat userLng r) = 0%float).
  { unfold withDistance. cbn [snd]. rewrite Hrlat, Hrlng.
    apply calculateDistance_same; try assumption.
    - rewrite <- Hrlat. destruct Hin as [<- | [<- | [<- | []]]]; reflexivity.
    - rewrite <- Hrlng. destruct Hin as [<- | [<- | [<- | []]]]; reflexivity. }
  split; [exact Hzero|].
  intros Hf. apply nearbyRestaurants_In. exists r.
  repeat split; try assumption. now rewrite Hzero.
Qed.

Lemma nearby_within_radius_witness :
  let q := mkNearbyQuery (Given 34.0522%float) (Given (-118.2437)%float) (Given 1%float)
                         None None Absent Absent Absent in
  snd (@withDistance Sample.math 34.0522 (-118.2437) sakuraSushi) = 0%float
  /\ In (@withDistance Sample.math 34.0522 (-118.2437) sakuraSushi)
        (@nearbyRestaurants Sample.math q 34.0522 (-118.2437) 1).
Proof.
  intros q.
  assert (Hrad : nq_radius q = Absent \/
                 exists r, nq_radius q = Given r /\ (0.1 <=? r)%float = true
                                                 /\ (r <=? 50)%float = true).
  { right. exists 1%float. now repeat split. }
  destruct (@nearby_within_radius Sample.math q 34.0522%float (-118.2437)%float
              eq_refl eq_refl Hrad)
    as (_ & _ & _ & _ & _ & _ & Hsame).
  destruct (Hsame sakuraSushi (or_intror (or_introl eq_refl)) eq_refl eq_refl
              eq_refl eq_refl eq_refl)
    as [Hzero Hin].
  split; [exact Hzero | exact (Hin eq_refl)].
Defined.

(* ------------------------------------------------------------------ *)
(** ** The error handler *)

Lemma message_or_default (m : string) : (if m =? "" then "Server Error" else m) <> "".
Proof. destruct (m =? "") eqn:Hm; [discriminate | now apply String.eqb_neq]. Qed.

Lemma validStatus_range (c : Z) : validStatus c = true <-> (100 <= c <= 999)%Z.
Proof. unfold validStatus. rewrite andb_true_iff, !Z.leb_le. tauto. Qed.

Lemma sentStack_cases (nodeEnv stack : option string) :
  (nodeEnv <> Some "development" -> sentStack nodeEnv stack = None)
  /\ (nodeEnv = Some "development" -> sentStack nodeEnv stack = stack).
Proof.
  unfold sentStack. split.
  - intros Hdev. destruct nodeEnv as [e|]; [|reflexivity].
    destruct (e =? "development") eqn:He; [|reflexivity].
    apply String.eqb_eq in He. now subst.
  - now intros ->.
Qed.

(** X1.  When the handler completes its call [res.status(code).json(body)],
    the code is from 100 to 999 and the body has status "error", a
    non-empty message, and the stack only when NODE_ENV is "development".
    The handler fails to answer, by throwing itself, in two cases only: an
    error named ValidationError without an [errors] object, and an error of
    none of the known kinds whose own status (or statusCode) is not a code
    from 100 to 999. *)
Theorem errorHandler_response_shape :
  forall (nodeEnv : option string) (err : ErrorWithStatus),
    match errorHandler nodeEnv err with
    | Some r =>
        er_status r = "error" /\ (100 <= er_code r <= 999)%Z /\ er_message r <> ""
        /\ (nodeEnv <> Some "development" -> er_stack r = None)
        /\ (nodeEnv = Some "development" -> er_stack r = e_stack err)
    | None =>
        (e_name err = "ValidationError" /\ e_errors err = None)
        \/ (e_name err <> "CastError" /\ e_name err <> "ValidationError"
            /\ e_name err <> "JsonWebTokenError" /\ e_name err <> "TokenExpiredError"
            /\ e_code err <> Some 11000%Z
            /\ validStatus (orNumber (e_status err) (orNumber (e_statusCode err) 500))
               = false)
    end.
Proof.
  intros nodeEnv err.
  assert (Hsome : forall code msg,
            validStatus code = true ->
            let r := mkErrorResponse code "error"
                       (if msg =? "" then "Server Error" else msg)
                       (sentStack nodeEnv (e_stack err)) in
            er_status r = "error" /\ (100 <= er_code r <= 999)%Z /\ er_message r <> ""
            /\ (nodeEnv <> Some "development" -> er_stack r = None)
            /\ (nodeEnv = Some "development" -> er_stack r = e_stack err)).
  { intros code msg Hcode. cbn. split; [reflexivity|].
    split; [now apply validStatus_range|].
    split; [apply message_or_default | apply sentStack_cases]. }
  unfold errorHandler.
  destruct (e_name err =? "ValidationError") eqn:Hval.
  { destruct (e_errors err) as [msgs|];
      [| left; split; [now apply String.eqb_eq | reflexivity]].
    destruct (e_name err =? "JsonWebTokenError"), (e_name err =? "TokenExpiredError");
      now apply Hsome. }
  destruct (e_name err =? "JsonWebTokenError") eqn:Hjwt;
    destruct (e_name err =? "TokenExpiredError") eqn:Hexp;
    destruct (e_name err =? "CastError") eqn:Hcast;
    destruct (e_code err) as [c|] eqn:Hc; try destruct (c =? 11000)%Z eqn:Hdup;
    try (now apply Hsome).
  - destruct (validStatus _) eqn:Hvs; [now apply Hsome|].
    right. apply String.eqb_neq in Hval, Hjwt, Hexp, Hcast.
    repeat split; try assumption.
    intros Heq. injection Heq as ->. discriminate Hdup.
  - destruct (validStatus _) eqn:Hvs; [now apply Hsome|].
    right. apply String.eqb_neq in Hval, Hjwt, Hexp, Hcast.
    repeat split; try assumption. discriminate.
Qed.

(** X2.  Token errors are answered 401 with a fixed message whatever
    message, status or code the error carries, also a duplicate-key code;
    a CastError is answered 404 "Resource not found" unless its code is the
    duplicate-key code 11000, which turns the answer into 400.  This holds
    under every NODE_ENV, which only decides whether the stack is sent. *)
Theorem errorHandler_known_errors :
  forall (nodeEnv : option string) (msg : string) (st stc code : option Z)
         (errs : option (list string)) (stack : option string),
    errorHandler nodeEnv (mkError "JsonWebTokenError" msg st stc code errs stack)
      = Some (mkErrorResponse 401 "error" "Invalid token" (sentStack nodeEnv stack))
    /\ errorHandler nodeEnv (mkError "TokenExpiredError" msg st stc code errs stack)
       = Some (mkErrorResponse 401 "error" "Token expired" (sentStack nodeEnv stack))
    /\ errorHandler nodeEnv (mkError "CastError" msg st stc code errs stack)
       = Some (if match code with Some c => (c =? 11000)%Z | None => false end
               then mkErrorResponse 400 "error" "Duplicate field value entered"
                                    (sentStack nodeEnv stack)
               else mkErrorResponse 404 "error" "Resource not found"
                                    (sentStack nodeEnv stack))
    /\ sentStack nodeEnv stack
       = (if match nodeEnv with Some e => e =? "development" | None => false end
          then stack else None).
Proof.
  intros nodeEnv msg st stc code errs stack. unfold errorHandler. cbn [e_name e_code].
  repeat split; try (destruct code as [c|]; try destruct (c =? 11000)%Z; reflexivity).
  now destruct nodeEnv.
Qed.

(** X3.  For an error whose name is none of the four the handler knows
    and whose code is not 11000, the handler calls
    [res.status(code).json(body)] with the error's own status, or else its
    statusCode, or else 500 (0 counts as missing), and with its own
    message, or "Server Error" when that is empty, provided that status is
    a code from 100 to 999; with any other status the call throws and
    nothing is sent. *)
Theorem errorHandler_fallthrough :
  forall (nodeEnv : option string) (err : ErrorWithStatus),
    e_name err <> "CastError" -> e_name err <> "ValidationError" ->
    e_name err <> "JsonWebTokenError" -> e_name err <> "TokenExpiredError" ->
    e_code err <> Some 11000%Z ->
    let statusCode := orNumber (e_status err) (orNumber (e_statusCode err) 500) in
    errorHandler nodeEnv err =
      if validStatus statusCode
      then Some (mkErrorResponse statusCode "error"
                   (if e_message err =? "" then "Server Error" else e_message err)
                   (sentStack nodeEnv (e_stack err)))
      else None.
Proof.
  intros nodeEnv err Hc Hv Hj Ht Hcode. unfold errorHandler.
  apply String.eqb_neq in Hc, Hv, Hj, Ht. rewrite Hc, Hv, Hj, Ht.
  destruct (e_code err) as [c|]; [|reflexivity].
  destruct (c =? 11000)%Z eqn:Hcv; [|reflexivity].
  apply Z.eqb_eq in Hcv. subst. now destruct Hcode.
Qed.

Lemma errorHandler_fallthrough_witness :
  errorHandler (Some "production")
    (mkError "Error" "" (Some 0%Z) (Some 418%Z) None None (Some "at app.ts:1"))
  = Some (mkErrorResponse 418 "error" "Server Error" None)
  /\ errorHandler (Some "production")
       (mkError "Error" "boom" (Some 42%Z) None None None None)
     = None.
Proof.
  split.
  - apply (errorHandler_fallthrough (Some "production")
             (mkError "Error" "" (Some 0%Z) (Some 418%Z) None None (Some "at app.ts:1")));
      discriminate.
  - apply (errorHandler_fallthrough (Some "production")
             (mkError "Error" "boom" (Some 42%Z) None None None None));
      discriminate.
Defined.

(** X4.  A request that no route takes: the error [notFound] builds is
    answered by the handler with 404 and "Route <url> not found". *)
Theorem notFound_answer :
  forall (nodeEnv : option string) (originalUrl : string) (stack : option string),
    exists sent,
      errorHandler nodeEnv (notFound originalUrl stack) =
        Some (mkErrorResponse 404 "error" ("Route " ++ originalUrl ++ " not found") sent).
Proof.
  intros nodeEnv originalUrl stack. eexists. reflexivity.
Qed.

(* ------------------------------------------------------------------ *)
(** ** Role gate, read routes and isolation between accounts *)

Lemma inList_In (s : string) (l : list string) : inList s l = true <-> In s l.
Proof.
  unfold inList. rewrite existsb_exists. split.
  - intros (x & Hin & Heq). apply String.eqb_eq in Heq. now subst.
  - intros Hin. exists s. split; [assumption | apply String.eqb_refl].
Qed.

Lemma authorize_cases (allowed : list string) (reqUser : option User) :
  match reqUser with
  | None => authorize allowed reqUser = Respond 401 "Access denied. Please log in."
  | Some u =>
      (In (role u) allowed /\ authorize allowed reqUser = Next (Some u))
      \/ (~ In (role u) allowed /\
          authorize allowed reqUser = Respond 403 "Access denied. Insufficient permissions.")
  end.
Proof.
  destruct reqUser as [u|]; [|reflexivity]. unfold authorize.
  destruct (inList (role u) allowed) eqn:Hin; simpl.
  - left. split; [now apply inList_In | reflexivity].
  - right. split; [|reflexivity]. intros Hc. apply inList_In in Hc. congruence.
Qed.

(** X5.  The role gate lets a request through exactly when an account is
    attached whose role is in the allowed list (401 without an account,
    403 otherwise); behind it, GET /users hands out accounts to an
    authenticated requester only if the role is "admin", and answers 403
    to every other role. *)
Theorem listUsers_admin_only `{Platform} :
  forall (env : Env) (st : Store) (h : Headers) (qpage qlimit : Param Z)
         (allowed : list string) (reqUser : option User),
    (forall ou, authorize allowed reqUser = Next ou ->
                exists u, reqUser = Some u /\ ou = Some u /\ In (role u) allowed)
    /\ (forall code msg, authorize allowed reqUser = Respond code msg ->
          (reqUser = None /\ code = 401%Z)
          \/ (exists u, reqUser = Some u /\ ~ In (role u) allowed /\ code = 403%Z))
    /\ match authenticate env st h with
       | Next (Some u) =>
           if role u =? "admin"
           then statusCode (fst (listUsers env st h qpage qlimit)) <> 403%Z
           else fst (listUsers env st h qpage qlimit)
                = failure 403 "Access denied. Insufficient permissions."
       | _ => data (fst (listUsers env st h qpage qlimit)) = None
       end.
Proof.
  intros env st h qpage qlimit allowed reqUser.
  pose proof (authorize_cases allowed reqUser) as Hcases.
  split; [|split].
  - intros ou Hn. destruct reqUser as [u|]; [|rewrite Hcases in Hn; discriminate].
    destruct Hcases as [[Hin Hok] | [_ Hno]]; rewrite Hn in *; [|discriminate].
    injection Hok as Hou. exists u. repeat split; assumption.
  - intros code msg Hr. destruct reqUser as [u|].
    + destruct Hcases as [[_ Hok] | [Hnot Hno]]; rewrite Hr in *; [discriminate|].
      injection Hno as Hcode _. right. exists u. repeat split; assumption.
    + rewrite Hr in Hcases. injection Hcases as Hcode _. left. split; [reflexivity | assumption].
  - unfold listUsers, withAuth.
    destruct (authenticate env st h) as [code msg | [u|]]; try reflexivity.
    unfold authorize, inList. cbn [existsb]. rewrite orb_false_r.
    destruct (role u =? "admin"); cbn [negb]; [|reflexivity].
    destruct (skipLimit _ _ _); cbn [fst statusCode failure]; discriminate.
Qed.

(** X6.  The read routes leave the store as it is, whatever the request:
    GET /auth/me, GET /users, GET /bookings, GET /bookings/:id and
    GET /bookings/reference/:reference. *)
Theorem read_routes_keep_store `{Platform} :
  forall (env : Env) (st : Store) (h : Headers) (qpage qlimit : Param Z)
         (q : BookingsQuery) (id reference : string),
    snd (me env st h) = st
    /\ snd (listUsers env st h qpage qlimit) = st
    /\ snd (listBookings env st h q) = st
    /\ snd (getBooking env st h id) = st
    /\ snd (getByReference env st h reference) = st.
Proof.
  intros env st h qpage qlimit q id reference.
  unfold me, listUsers, listBookings, getBooking, getByReference, referenceHandler, withAuth.
  destruct (authenticate env st h) as [code msg | [u|]];
    cbn [snd]; repeat split; try reflexivity.
  - destruct (authorize ["admin"] (Some u)); [reflexivity|].
    now destruct (skipLimit _ _ _).
  - destruct (negb (isEmptyList (bookingsValidation q))); [reflexivity|].
    now destruct (skipLimit _ _ _).
  - destruct (negb (isEmptyList (idValidation id))); [reflexivity|].
    now destruct (findOwnBooking st id (u_id u)).
  - now destruct (findByReference st (JS.toUpperCase reference) (u_id u)).
Qed.




Lemma skipLimit_sublist {A} (l r : list A) (s n : Z) :
  skipLimit l s n = Some r -> exists a c, l = a ++ r ++ c.
Proof.
  unfold skipLimit. destruct (s <? 0)%Z; [discriminate|].
  intros Heq. injection Heq as <-.
  exists (firstn (Z.to_nat s) l).
  destruct (n =? 0)%Z.
  - exists []. now rewrite app_nil_r, firstn_skipn.
  - exists (skipn (Z.to_nat (Z.abs n)) (skipn (Z.to_nat s) l)).
    now rewrite !firstn_skipn.
Qed.

Lemma skipLimit_length {A} (l r : list A) (s n : Z) :
  skipLimit l s n = Some r -> n <> 0%Z -> (length r <= Z.to_nat (Z.abs n))%nat.
Proof.
  unfold skipLimit. destruct (s <? 0)%Z; [discriminate|].
  intros Heq Hn. injection Heq as <-.
  apply Z.eqb_neq in Hn. rewrite Hn. rewrite length_firstn. lia.
Qed.

Lemma StronglySorted_app_inv {A} (R : A -> A -> Prop) (a b : list A) :
  StronglySorted R (a ++ b) -> StronglySorted R a /\ StronglySorted R b.
Proof.
  induction a as [|x a IH]; simpl; intros Hs; [split; [constructor | assumption]|].
  apply StronglySorted_inv in Hs. destruct Hs as [Hs Hall].
  destruct (IH Hs) as [Ha Hb]. split; [|assumption].
  constructor; [assumption|]. apply Forall_app in Hall. tauto.
Qed.

Lemma StronglySorted_map {A B} (f : A -> B) (R : B -> B -> Prop) (l : list A) :
  StronglySorted (fun x y => R (f x) (f y)) l -> StronglySorted R (map f l).
Proof.
  induction 1 as [|x l Hs IH Hall]; simpl; constructor; [assumption|].
  apply Forall_map. exact Hall.
Qed.

Lemma optionalIn_some (v s : string) (allowed : list string) (path : string) :
  optionalIn (Some s) allowed path = [] -> In s allowed.
Proof. simpl. intros Hc. apply check_nil in Hc. now apply inList_In. Qed.

Section Listing.
Context `{Platform}.

(** What a listing with data was computed from. *)
Lemma listBookings_data env st h q u found :
  authenticate env st h = Next (Some u) ->
  data (fst (listBookings env st h q)) = Some found ->
  bookingsValidation q = [] /\
  exists l,
    skipLimit (matchingBookings st (u_id u) q)
              ((orElse (parsed (bq_page q)) 1 - 1) * orElse (parsed (bq_limit q)) 20)%Z
              (orElse (parsed (bq_limit q)) 20%Z) = Some l
    /\ found = map (populated st) l.
Proof.
  intros Hauth. unfold listBookings. rewrite (withAuth_next _ _ _ _ _ Hauth).
  destruct (bookingsValidation q) as [|e errs] eqn:Hv; cbn [negb isEmptyList];
    [|discriminate].
  fold (matchingBookings st (u_id u) q).
  destruct (skipLimit _ _ _) as [l|] eqn:Hs; cbn [fst data]; [|discriminate].
  intros Heq. injection Heq as <-. split; [reflexivity|]. now exists l.
Qed.

Lemma matchingBookings_In st uid q b :
  In b (matchingBookings st uid q) <->
  In b (bookings st) /\ matchesFilters uid q b = true.
Proof. unfold matchingBookings. now rewrite sortBy_In, filter_In. Qed.

Lemma matchingBookings_sorted st uid q :
  StronglySorted (fun a b => (b_createdAt b <= b_createdAt a)%Z)
                 (matchingBookings st uid q).
Proof.
  unfold matchingBookings.
  eapply StronglySorted_weaken;
    [| apply (sortBy_sorted (fun a b : Booking => (b_createdAt b <=? b_createdAt a)%Z))].
  - intros a b Hab. now apply Z.leb_le.
  - intros a b Hab. apply Z.leb_gt in Hab. apply Z.leb_le. lia.
  - intros a b c Hab Hbc. apply Z.leb_le in Hab, Hbc. apply Z.leb_le. lia.
Qed.

End Listing.

(** X8.  GET /bookings hands out only bookings of the store that the
    requester owns, each with the populated owner; a type or status filter
    of the request holds for every one of them; they come newest first;
    and a page never has more than 100 items. *)
Theorem listBookings_own_sorted `{Platform} :
  forall (env : Env) (st : Store) (h : Headers) (q : BookingsQuery) (u : User)
         (found : list (Booking * option Fields)),
    authenticate env st h = Next (Some u) ->
    data (fst (listBookings env st h q)) = Some found ->
    ownListing (u_id u) found
    /\ Forall (fun pb => In (fst pb) (bookings st)
                         /\ snd pb = populateUser st (fst pb)) found
    /\ (forall t, bq_type q = Some t -> Forall (fun pb => b_type (fst pb) = t) found)
    /\ (forall s, bq_status q = Some s -> Forall (fun pb => status (fst pb) = s) found)
    /\ StronglySorted (fun a b => (b_createdAt (fst b) <= b_createdAt (fst a))%Z) found
    /\ (length found <= 100)%nat.
Proof.
  intros env st h q u found Hauth Hdata.
  destruct (listBookings_data _ _ _ _ _ _ Hauth Hdata) as (Hv & l & Hskip & ->).
  destruct (skipLimit_sublist _ _ _ _ Hskip) as (a & c & Hl).
  assert (Hin : forall b, In b l ->
                  In b (bookings st) /\ matchesFilters (u_id u) q b = true).
  { intros b Hb. apply matchingBookings_In. rewrite Hl.
    apply in_or_app. right. apply in_or_app. now left. }
  unfold bookingsValidation in Hv.
  apply app_eq_nil in Hv. destruct Hv as [Hvt Hv].
  apply app_eq_nil in Hv. destruct Hv as [Hvs Hv].
  apply app_eq_nil in Hv. destruct Hv as [_ Hvl].
  split; [|split; [|split; [|split; [|split]]]].
  - apply Forall_map, Forall_forall. intros b Hb. simpl.
    destruct (Hin b Hb) as [_ Hm]. unfold matchesFilters in Hm.
    apply andb_true_iff in Hm. destruct Hm as [Hm _].
    apply andb_true_iff in Hm. destruct Hm as [Ho _]. now apply String.eqb_eq.
  - apply Forall_map, Forall_forall. intros b Hb. simpl.
    split; [now apply Hin | reflexivity].
  - intros t Ht. apply Forall_map, Forall_forall. intros b Hb. simpl.
    destruct (Hin b Hb) as [_ Hm]. unfold matchesFilters in Hm. rewrite Ht in *.
    apply (optionalIn_some "" t) in Hvt.
    assert (Hne : negb (t =? "") = true).
    { destruct (t =? "") eqn:He; [|reflexivity]. apply String.eqb_eq in He. subst.
      destruct Hvt as [|[|[|[|[]]]]]; discriminate. }
    cbn [JS.truthy orElse] in Hm. rewrite Hne in Hm.
    apply andb_true_iff in Hm. destruct Hm as [Hm _].
    apply andb_true_iff in Hm. destruct Hm as [_ Hty]. now apply String.eqb_eq.
  - intros s Hs. apply Forall_map, Forall_forall. intros b Hb. simpl.
    destruct (Hin b Hb) as [_ Hm]. unfold matchesFilters in Hm. rewrite Hs in *.
    apply (optionalIn_some "" s) in Hvs.
    assert (Hne : negb (s =? "") = true).
    { destruct (s =? "") eqn:He; [|reflexivity]. apply String.eqb_eq in He. subst.
      destruct Hvs as [|[|[|[|[]]]]]; discriminate. }
    cbn [JS.truthy orElse] in Hm. rewrite Hne in Hm.
    apply andb_true_iff in Hm. destruct Hm as [_ Hst]. now apply String.eqb_eq.
  - apply StronglySorted_map.
    pose proof (matchingBookings_sorted st (u_id u) q) as Hsorted.
    rewrite Hl in Hsorted.
    apply StronglySorted_app_inv in Hsorted. destruct Hsorted as [_ Hsorted].
    apply StronglySorted_app_inv in Hsorted. now destruct Hsorted as [Hsorted _].
  - rewrite length_map.
    assert (Hlimit : (1 <= orElse (parsed (bq_limit q)) 20 <= 100)%Z).
    { destruct (bq_limit q) as [| |n]; cbn [parsed orElse optionalInt] in *.
      - lia.
      - discriminate.
      - apply check_nil in Hvl. apply andb_true_iff in Hvl.
        destruct Hvl as [Hlo Hhi]. apply Z.leb_le in Hlo, Hhi. lia. }
    pose proof (skipLimit_length _ _ _ _ Hskip ltac:(lia)) as Hlen. lia.
Qed.

Lemma listBookings_own_sorted_witness :
  ownListing Sample.aliceId
    [populated Sample.store
       (Sample.booking Sample.doneId Sample.aliceId "FLIGHT-LOA1B2C4-ZZ9QA" "completed" 20);
     populated Sample.store
       (Sample.booking Sample.pendingId Sample.aliceId "FLIGHT-LOA1B2C3-K3X9Q" "pending" 10)].
Proof.
  apply (@listBookings_own_sorted Sample.platform Sample.env Sample.store
           (Sample.bearer Sample.aliceId)
           (mkBookingsQuery (Some "flight") None Absent Absent)
           (withoutPassword Sample.alice)); reflexivity.
Defined.

(* ------------------------------------------------------------------ *)
(** ** What a cancellation leaves alone *)

Lemma cancelBooking_store `{Platform} env st h id :
  snd (cancelBooking env st h id) = st \/
  exists b', sameObjectId (b_id b') id = true /\
             snd (cancelBooking env st h id)
             = mkStore (users st) (replaceBooking b' (bookings st)).
Proof.
  unfold cancelBooking, withAuth.
  destruct (authenticate env st h) as [code msg | [u|]]; [now left | | now left].
  unfold cancelHandler.
  destruct (negb (isEmptyList (idValidation id))); [now left|].
  destruct (findOwnBooking st id (u_id u)) as [b|] eqn:Hf; [|now left].
  destruct (status b =? "cancelled"); [now left|].
  destruct (status b =? "completed"); [now left|].
  unfold saveBooking.
  destruct (negb (validBooking (setStatus b "cancelled"))); [now left|].
  right. eexists. split; [|reflexivity].
  unfold bookingPreSave. apply findOwnBooking_spec in Hf.
  now destruct (bookingReference (setStatus b "cancelled") =? "").
Qed.

(** X9.  DELETE /bookings/:id never touches an account and never adds,
    drops or reorders a booking: the bookings keep their ids position by
    position, and every booking whose id is another ObjectId than the
    requested one is left exactly as it was. *)
Theorem cancel_touches_one_booking `{Platform} :
  forall (env : Env) (st : Store) (h : Headers) (id : string),
    users (snd (cancelBooking env st h id)) = users st
    /\ Forall2 (fun x y => b_id y = b_id x /\ (sameObjectId (b_id x) id = false -> y = x))
               (bookings st) (bookings (snd (cancelBooking env st h id))).
Proof.
  intros env st h id.
  destruct (cancelBooking_store env st h id) as [-> | (b' & Hid & ->)].
  - split; [reflexivity|].
    induction (bookings st) as [|x l IH]; constructor; auto.
  - split; [reflexivity|]. simpl.
    induction (bookings st) as [|x l IH]; simpl; constructor; [|assumption].
    destruct (b_id x =? b_id b') eqn:Hx.
    + apply String.eqb_eq in Hx. split; [now symmetry | congruence].
    + split; reflexivity.
Qed.

(* ------------------------------------------------------------------ *)
(** ** What the update routes leave alone *)

Lemma identityOf_applyPatch env p u : identityOf (applyPatch env p u) = identityOf u.
Proof. reflexivity. Qed.

Lemma NoDup_map_inj {A B} (f : A -> B) (l : list A) (x y : A) :
  NoDup (map f l) -> In x l -> In y l -> f x = f y -> x = y.
Proof.
  induction l as [|a l IH]; simpl; [intros _ []|].
  intros Hnd Hx Hy Hf. apply NoDup_cons_iff in Hnd. destruct Hnd as [Hnotin Hnd].
  destruct Hx as [<- | Hx], Hy as [<- | Hy]; auto.
  - exfalso. apply Hnotin. rewrite Hf. now apply in_map.
  - exfalso. apply Hnotin. rewrite <- Hf. now apply in_map.
Qed.

(** Under unique ids, writing a patched account back changes no identity
    path of any account. *)
Lemma replaceUser_identity env p u (l : list User) (x : User) :
  NoDup (map u_id l) -> In u l -> In x l ->
  identityOf (if u_id x =? u_id (applyPatch env p u) then applyPatch env p u else x)
  = identityOf x.
Proof.
  intros Hnd Hu Hx. destruct (u_id x =? u_id (applyPatch env p u)) eqn:Hid; [|reflexivity].
  apply String.eqb_eq in Hid. simpl in Hid.
  rewrite (NoDup_map_inj u_id l x u Hnd Hx Hu Hid). apply identityOf_applyPatch.
Qed.

Lemma patchedStore_identity st st' :
  patchedStore st st' -> NoDup (map u_id (users st)) ->
  bookings st' = bookings st
  /\ map identityOf (users st') = map identityOf (users st).
Proof.
  intros [-> | (env & p & u & Hu & ->)] Hnd; [split; reflexivity|].
  split; [reflexivity|]. simpl. unfold replaceUser. rewrite map_map.
  apply map_ext_in. intros x Hx. now apply (replaceUser_identity env p u (users st)).
Qed.

Lemma findByIdAndUpdate_patched env st id p ou st' :
  findByIdAndUpdate env st id p = Some (ou, st') -> patchedStore st st'.
Proof.
  unfold findByIdAndUpdate. destruct (negb (validPatch p)); [discriminate|].
  destruct (findUserById st id) as [u|] eqn:Hf.
  - intros Heq. injection Heq as _ <-. right. exists env, p, u.
    split; [now apply findUserById_spec in Hf | reflexivity].
  - intros Heq. injection Heq as _ <-. now left.
Qed.

(** Case analysis on a handler down to its calls of [findByIdAndUpdate]. *)
Ltac update_cases :=
  repeat match goal with
         | |- patchedStore ?st ?st => now left
         | |- patchedStore ?st (snd (_, ?st)) => now left
         | |- context [match ?x with _ => _ end] =>
             lazymatch x with
             | context [match _ with _ => _ end] => fail
             | context [findByIdAndUpdate] => fail
             | _ => destruct x
             end
         | |- context [findByIdAndUpdate ?e ?s ?i ?p] =>
             let Hf := fresh "Hf" in
             destruct (findByIdAndUpdate e s i p) as [[[?|] ?]|] eqn:Hf;
             cbn [snd];
             try (apply findByIdAndUpdate_patched in Hf; exact Hf)
         end.

Section Updates.
Context `{Platform}.

Lemma authProfile_patched env st h b : patchedStore st (snd (authProfile env st h b)).
Proof.
  unfold authProfile, withAuth.
  destruct (authenticate env st h) as [code msg | [u|]]; [now left | | now left].
  update_cases.
Qed.

Lemma usersProfile_patched env st h b : patchedStore st (snd (usersProfile env st h b)).
Proof.
  unfold usersProfile, withAuth.
  destruct (authenticate env st h) as [code msg | [u|]]; [now left | | now left].
  update_cases.
Qed.

Lemma usersPreferences_patched env st h b :
  patchedStore st (snd (usersPreferences env st h b)).
Proof.
  unfold usersPreferences, withAuth.
  destruct (authenticate env st h) as [code msg | [u|]]; [now left | | now left].
  update_cases.
Qed.

Lemma usersPassport_patched env st h b : patchedStore st (snd (usersPassport env st h b)).
Proof.
  unfold usersPassport, withAuth.
  destruct (authenticate env st h) as [code msg | [u|]]; [now left | | now left].
  update_cases.
Qed.

End Updates.

(** X10.  With unique account ids, none of the four update routes (PUT
    /auth/profile, /users/profile, /users/preferences, /users/passport)
    changes the id, email, password hash, role, verification flag or
    creation time of any account, whatever keys the body carries, and none
    adds or removes an account or touches a booking. *)
Theorem update_routes_keep_identity `{Platform} :
  forall (env : Env) (st : Store) (h : Headers) (b : Body),
    NoDup (map u_id (users st)) ->
    (bookings (snd (authProfile env st h b)) = bookings st
     /\ map identityOf (users (snd (authProfile env st h b))) = map identityOf (users st))
    /\ (bookings (snd (usersProfile env st h b)) = bookings st
        /\ map identityOf (users (snd (usersProfile env st h b)))
           = map identityOf (users st))
    /\ (bookings (snd (usersPreferences env st h b)) = bookings st
        /\ map identityOf (users (snd (usersPreferences env st h b)))
           = map identityOf (users st))
    /\ (bookings (snd (usersPassport env st h b)) = bookings st
        /\ map identityOf (users (snd (usersPassport env st h b)))
           = map identityOf (users st)).
Proof.
  intros env st h b Hnd.
  split; [|split; [|split]]; apply patchedStore_identity; try assumption.
  - apply authProfile_patched.
  - apply usersProfile_patched.
  - apply usersPreferences_patched.
  - apply usersPassport_patched.
Qed.

Lemma sample_ids_unique : NoDup (map u_id (users Sample.store)).
Proof.
  simpl. constructor; [|constructor; [|constructor]].
  - intros [Heq | []]. discriminate.
  - intros [].
Qed.

Lemma update_routes_keep_identity_witness :
  map identityOf
    (users (snd (@authProfile Sample.platform Sample.env Sample.store
                   (Sample.bearer Sample.aliceId)
                   [("firstName", BStr "Alicia"); ("role", BStr "admin");
                    ("email", BStr "eve@example.com"); ("password", BStr "Hacked1")])))
  = map identityOf (users Sample.store).
Proof.
  apply (@update_routes_keep_identity Sample.platform Sample.env Sample.store
           (Sample.bearer Sample.aliceId)
           [("firstName", BStr "Alicia"); ("role", BStr "admin");
            ("email", BStr "eve@example.com"); ("password", BStr "Hacked1")]
           sample_ids_unique).
Defined.

Lemma find_map_preserved {A} (p : A -> bool) (g : A -> A) (l : list A) :
  (forall x, In x l -> p (g x) = p x) ->
  find p (map g l) = option_map g (find p l).
Proof.
  induction l as [|a l IH]; simpl; [reflexivity|].
  intros Hp. rewrite (Hp a (or_introl eq_refl)).
  destruct (p a); [reflexivity|]. apply IH. intros x Hx. apply Hp. now right.
Qed.

Lemma identityOf_email (a b : User) : identityOf a = identityOf b -> email a = email b.
Proof. unfold identityOf. congruence. Qed.

(** An account found by email before an update is found after it, with
    the same identity paths; one not found stays not found. *)
Lemma patchedStore_findUserByEmail st st' e :
  patchedStore st st' -> NoDup (map u_id (users st)) ->
  match findUserByEmail st e, findUserByEmail st' e with
  | None, None => True
  | Some a, Some b => identityOf b = identityOf a
  | _, _ => False
  end.
Proof.
  intros [-> | (env & p & u & Hu & ->)] Hnd.
  - now destruct (findUserByEmail st e).
  - unfold findUserByEmail. simpl. unfold replaceUser.
    rewrite find_map_preserved.
    + destruct (find _ (users st)) as [a|] eqn:Hf; simpl; [|exact I].
      apply find_In in Hf. destruct Hf as [Ha _].
      now apply (replaceUser_identity env p u (users st)).
    + intros x Hx.
      now rewrite (identityOf_email _ _ (replaceUser_identity env p u (users st) x Hnd Hu Hx)).
Qed.

Lemma login_same_identity `{Platform} env st st' body :
  match findUserByEmail st (normalizeEmail (fieldString (bodyField "email" body))),
        findUserByEmail st' (normalizeEmail (fieldString (bodyField "email" body))) with
  | None, None => True
  | Some a, Some b => identityOf b = identityOf a
  | _, _ => False
  end ->
  statusCode (login env st' body) = statusCode (login env st body)
  /\ option_map snd (data (login env st' body)) = option_map snd (data (login env st body)).
Proof.
  unfold login.
  destruct (negb (isEmptyList (loginValidation body))); [split; reflexivity|].
  destruct (findUserByEmail st _) as [a|], (findUserByEmail st' _) as [b|];
    try contradiction; [|split; reflexivity].
  intros Hid. unfold identityOf in Hid.
  injection Hid as Hi He Hp Hr _ _.
  unfold comparePassword, getSignedJwtToken. rewrite Hi, He, Hp, Hr.
  destruct (bodyField "password" body) as [[pw| |]|]; try (split; reflexivity).
  destruct (u_password a) as [hash|]; [|split; reflexivity].
  destruct (bcrypt_compare pw hash); [|split; reflexivity].
  destruct (JWT_SECRET env) as [secret|]; [|split; reflexivity].
  destruct (secret =? ""); split; reflexivity.
Qed.

(** X11.  A profile, preference or passport update locks nobody out: with
    unique account ids, every login request gets the same HTTP status and
    the same token after the update as before it. *)
Theorem login_unaffected_by_updates `{Platform} :
  forall (env envU : Env) (st st' : Store) (h : Headers) (b body : Body),
    NoDup (map u_id (users st)) ->
    In st' [snd (authProfile envU st h b); snd (usersProfile envU st h b);
            snd (usersPreferences envU st h b); snd (usersPassport envU st h b)] ->
    statusCode (login env st' body) = statusCode (login env st body)
    /\ option_map snd (data (login env st' body))
       = option_map snd (data (login env st body)).
Proof.
  intros env envU st st' h b body Hnd Hin.
  apply login_same_identity, patchedStore_findUserByEmail; [|assumption].
  destruct Hin as [<- | [<- | [<- | [<- | []]]]].
  - apply authProfile_patched.
  - apply usersProfile_patched.
  - apply usersPreferences_patched.
  - apply usersPassport_patched.
Qed.

Lemma login_unaffected_by_updates_witness :
  statusCode
    (@login Sample.platform Sample.env
       (snd (@authProfile Sample.platform Sample.env Sample.store
               (Sample.bearer Sample.aliceId)
               [("firstName", BStr "Alicia"); ("password", BStr "Hacked1")]))
       [("email", BStr "alice@example.com"); ("password", BStr "Passw0rd")])
  = 200%Z.
Proof.
  rewrite (proj1 (@login_unaffected_by_updates Sample.platform Sample.env Sample.env
                    Sample.store _ (Sample.bearer Sample.aliceId)
                    [("firstName", BStr "Alicia"); ("password", BStr "Hacked1")]
                    [("email", BStr "alice@example.com"); ("password", BStr "Passw0rd")]
                    sample_ids_unique (or_introl eq_refl))).
  reflexivity.
Defined.

Lemma findUserById_replace (st : Store) (id : string) (u0 u' : User) :
  findUserById st id = Some u0 -> u_id u' = id ->
  findUserById (mkStore (replaceUser u' (users st)) (bookings st)) id = Some u'.
Proof.
  unfold findUserById. simpl. intros Hf <-.
  induction (users st) as [|x l IH]; simpl in *; [discriminate|].
  destruct (u_id x =? u_id u') eqn:Hx; simpl.
  - now rewrite String.eqb_refl.
  - rewrite Hx. now apply IH.
Qed.

(** A successful update: the patch passed the update validators, the
    account was stored, and the stored account is the patched one. *)
Lemma findByIdAndUpdate_some env st id p user st' :
  findByIdAndUpdate env st id p = Some (Some user, st') ->
  exists u0,
    validPatch p = true /\ findUserById st id = Some u0
    /\ user = withoutPassword (applyPatch env p u0)
    /\ findUserById st' id = Some (applyPatch env p u0).
Proof.
  unfold findByIdAndUpdate. destruct (validPatch p) eqn:Hv; [|discriminate]. simpl.
  destruct (findUserById st id) as [u0|] eqn:Hf; [|discriminate].
  intros Heq. injection Heq as <- <-. exists u0. repeat split; try reflexivity.
  apply findUserById_replace with (u0 := u0); [assumption|].
  simpl. now apply findUserById_spec in Hf.
Qed.

(** Case analysis on a handler that stops at [findByIdAndUpdate]. *)
Ltac route_cases :=
  repeat match goal with
         | |- context [match ?x with _ => _ end] =>
             lazymatch x with
             | context [match _ with _ => _ end] => fail
             | context [findByIdAndUpdate] => fail
             | _ => destruct x eqn:?
             end
         end.

(** X12.  When PUT /users/preferences answers 200, the stored preferences
    of the requester hold, for each of currency, language and
    notifications, the value sent if the key was sent and the previous
    value otherwise; the stored currency and language are of the
    enumerations; and the response carries exactly the stored
    preferences. *)
Theorem preferences_update_merges `{Platform} :
  forall (env : Env) (st st' : Store) (h : Headers) (b : Body) (u : User)
         (r : Response Fields),
    authenticate env st h = Next (Some u) ->
    usersPreferences env st h b = (r, st') ->
    statusCode r = 200%Z ->
    exists stored,
      findUserById st' (u_id u) = Some stored
      /\ data r = Some (preferencesToObject (preferences stored))
      /\ currency (preferences stored)
         = match bodyField "currency" b with
           | Some v => castString v
           | None => currency (preferences u)
           end
      /\ language (preferences stored)
         = match bodyField "language" b with
           | Some v => castString v
           | None => language (preferences u)
           end
      /\ notifications (preferences stored)
         = match bodyField "notifications" b with
           | Some v => castBool v
           | None => notifications (preferences u)
           end
      /\ validPreferences (preferences stored) = true.
Proof.
  intros env st st' h b u r Hauth. unfold usersPreferences.
  rewrite (withAuth_next _ _ _ _ _ Hauth).
  destruct (bodyField "currency" b) as [vc|] eqn:Hbc;
    destruct (bodyField "language" b) as [vl|] eqn:Hbl;
    destruct (bodyField "notifications" b) as [vn|] eqn:Hbn;
    cbn [option_map];
    route_cases;
    try (intros Heq; injection Heq as <- <-; intros Hcode; discriminate Hcode);
    match goal with
    | |- context [findByIdAndUpdate ?e ?s ?i ?p] =>
        destruct (findByIdAndUpdate e s i p) as [[[user|] st1]|] eqn:Hf
    end;
    intros Heq; injection Heq as <- <-; intros Hcode; try discriminate Hcode;
    destruct (findByIdAndUpdate_some _ _ _ _ _ _ Hf) as (u0 & Hvalid & _ & -> & Hstored);
    (eexists; split; [exact Hstored|]);
    (split; [reflexivity|]);
    repeat (split; [reflexivity|]);
    unfold validPatch in Hvalid; cbn [p_firstName p_lastName p_preferences] in Hvalid;
    exact Hvalid.
Qed.

Lemma preferences_update_merges_witness :
  exists stored,
    findUserById
      (snd (@usersPreferences Sample.platform Sample.env Sample.store
              (Sample.bearer Sample.aliceId) [("currency", BStr "EUR")]))
      Sample.aliceId = Some stored
    /\ currency (preferences stored) = Some "EUR"
    /\ language (preferences stored) = Some "en".
Proof.
  destruct (@preferences_update_merges Sample.platform Sample.env Sample.store
              _ (Sample.bearer Sample.aliceId) [("currency", BStr "EUR")]
              (withoutPassword Sample.alice) _ eq_refl
              (surjective_pairing _) eq_refl)
    as (stored & Hfind & _ & Hc & Hl & _).
  exists stored. split; [exact Hfind | split; [exact Hc | exact Hl]].
Defined.

Lemma notEmpty_cast (b : Body) (path msg : string) (v : BodyValue) (s : string) :
  notEmpty b path msg = [] -> bodyField path b = Some v -> castString v = Some s ->
  s <> "".
Proof.
  unfold notEmpty. intros Hc Hb Hs. apply check_nil in Hc. rewrite Hb in Hc.
  apply negb_true_iff, String.eqb_neq in Hc.
  destruct v as [x | [|] | p]; simpl in *; try discriminate;
    injection Hs as <-; assumption || discriminate.
Qed.

(** X13.  When PUT /users/passport answers 200, the requester's stored
    passport is the one sent, its number and country are not empty, and
    its expiry date is strictly later than the time of the request. *)
Theorem passport_update_in_future `{Platform} :
  forall (env : Env) (st st' : Store) (h : Headers) (b : Body) (u : User)
         (r : Response Fields),
    authenticate env st h = Next (Some u) ->
    usersPassport env st h b = (r, st') ->
    statusCode r = 200%Z ->
    exists stored num expiry country,
      findUserById st' (u_id u) = Some stored
      /\ passport stored = Some (mkPassport (Some num) (Some expiry) (Some country))
      /\ data r = Some (passportToObject (mkPassport (Some num) (Some expiry) (Some country)))
      /\ option_map castString (bodyField "number" b) = Some (Some num)
      /\ option_map castDate (bodyField "expiryDate" b) = Some (Some expiry)
      /\ option_map castString (bodyField "countryOfIssue" b) = Some (Some country)
      /\ num <> "" /\ country <> "" /\ (now env < expiry)%Z.
Proof.
  intros env st st' h b u r Hauth. unfold usersPassport.
  rewrite (withAuth_next _ _ _ _ _ Hauth).
  match goal with |- context [isEmptyList ?e] => destruct e as [|e0 errs] eqn:Hv end;
    cbn [negb isEmptyList];
    [|intros Heq; injection Heq as <- <-; intros Hcode; discriminate Hcode].
  apply app_eq_nil in Hv. destruct Hv as [Hnum Hv].
  apply app_eq_nil in Hv. destruct Hv as [_ Hcountry].
  destruct (bodyField "expiryDate" b) as [ve|] eqn:Hbe; cbn [option_map];
    [|intros Heq; injection Heq as <- <-; intros Hcode; discriminate Hcode].
  destruct (castDate ve) as [expiry|] eqn:Hde;
    [|intros Heq; injection Heq as <- <-; intros Hcode; discriminate Hcode].
  destruct (bodyField "number" b) as [vn|] eqn:Hbn; cbn [option_map];
    [|intros Heq; injection Heq as <- <-; intros Hcode; discriminate Hcode].
  destruct (castString vn) as [num|] eqn:Hcn;
    [|intros Heq; injection Heq as <- <-; intros Hcode; discriminate Hcode].
  destruct (bodyField "countryOfIssue" b) as [vc|] eqn:Hbc; cbn [option_map];
    [|intros Heq; injection Heq as <- <-; intros Hcode; discriminate Hcode].
  destruct (castString vc) as [country|] eqn:Hcc;
    [|intros Heq; injection Heq as <- <-; intros Hcode; discriminate Hcode].
  destruct (expiry <=? now env)%Z eqn:Hexp;
    [intros Heq; injection Heq as <- <-; intros Hcode; discriminate Hcode|].
  match goal with
  | |- context [findByIdAndUpdate ?e ?s ?i ?p] =>
      destruct (findByIdAndUpdate e s i p) as [[[user|] st1]|] eqn:Hf
  end;
    intros Heq; injection Heq as <- <-; intros Hcode; try discriminate Hcode.
  destruct (findByIdAndUpdate_some _ _ _ _ _ _ Hf) as (u0 & _ & _ & -> & Hstored).
  exists (applyPatch env
            (mkUserPatch None None None None None
               (Some (mkPassport (Some num) (Some expiry) (Some country)))) u0),
         num, expiry, country.
  split; [exact Hstored|]. split; [reflexivity|]. split; [reflexivity|].
  split; [reflexivity|]. split; [reflexivity|]. split; [reflexivity|].
  split; [exact (notEmpty_cast _ _ _ _ _ Hnum Hbn Hcn)|].
  split; [exact (notEmpty_cast _ _ _ _ _ Hcountry Hbc Hcc)|].
  apply Z.leb_gt in Hexp. lia.
Qed.

Lemma passport_update_in_future_witness :
  exists stored,
    findUserById
      (snd (@usersPassport laterPlatform Sample.env Sample.store
              (Sample.bearer Sample.aliceId)
              [("number", BStr "X1234567"); ("expiryDate", BStr "2027-01-15");
               ("countryOfIssue", BStr "PT")]))
      Sample.aliceId = Some stored
    /\ passport stored
       = Some (mkPassport (Some "X1234567") (Some 1800000000000%Z) (Some "PT")).
Proof.
  destruct (@passport_update_in_future laterPlatform Sample.env Sample.store
              _ (Sample.bearer Sample.aliceId)
              [("number", BStr "X1234567"); ("expiryDate", BStr "2027-01-15");
               ("countryOfIssue", BStr "PT")]
              (withoutPassword Sample.alice) _ eq_refl
              (surjective_pairing _) eq_refl)
    as (stored & num & expiry & country & Hfind & Hp & _ & Hn & He & Hc & _).
  exists stored. split; [exact Hfind|].
  rewrite Hp.
  injection Hn as <-. injection He as <-. injection Hc as <-.
  reflexivity.
Defined.

(* ------------------------------------------------------------------ *)
(** ** When an account is deleted *)

(** X14.  DELETE /users/account changes the store only together with a 200
    answer, and that happens only for an authenticated requester whose
    stored account exists, whose body carries a non-empty string password
    that bcrypt accepts against the stored hash, and who has no pending or
    confirmed booking; the store is then the old one without the account
    and its bookings. *)
Theorem account_deleted_only_after_checks `{Platform} :
  forall (env : Env) (st : Store) (h : Headers) (b : Body),
    (snd (deleteAccount env st h b) = st
     /\ statusCode (fst (deleteAccount env st h b)) <> 200%Z)
    \/ (statusCode (fst (deleteAccount env st h b)) = 200%Z
        /\ exists u stored pw,
             authenticate env st h = Next (Some u)
             /\ findUserById st (u_id u) = Some stored
             /\ bodyField "password" b = Some (BStr pw) /\ pw <> ""
             /\ comparePassword stored pw = Some true
             /\ activeBookings st (u_id u) = 0%nat
             /\ snd (deleteAccount env st h b) = deleteUserAndBookings st (u_id u)).
Proof.
  intros env st h b. unfold deleteAccount, withAuth.
  destruct (authenticate env st h) as [code msg | [u|]] eqn:Hauth;
    try (left; split; [reflexivity | cbn; pose proof (authenticate_respond_401 _ _ _ _ _ Hauth); lia]);
    try (left; split; [reflexivity | discriminate]).
  destruct (notEmpty b "password" _) as [|e errs] eqn:Hv; cbn [negb isEmptyList];
    [|left; split; [reflexivity | discriminate]].
  destruct (findUserById st (u_id u)) as [stored|] eqn:Hstored;
    [|left; split; [reflexivity | discriminate]].
  destruct (bodyField "password" b) as [[pw| |]|] eqn:Hb;
    try (left; split; [reflexivity | discriminate]).
  destruct (comparePassword stored pw) as [[|]|] eqn:Hcmp;
    try (left; split; [reflexivity | discriminate]).
  destruct (0 <? activeBookings st (u_id u))%nat eqn:Hact;
    [left; split; [reflexivity | discriminate]|].
  right. split; [reflexivity|]. exists u, stored, pw.
  repeat split; try reflexivity; try assumption.
  - unfold notEmpty in Hv. rewrite Hb in Hv. apply check_nil in Hv.
    now apply negb_true_iff, String.eqb_neq in Hv.
  - apply Nat.ltb_ge in Hact. lia.
Qed.

(* ------------------------------------------------------------------ *)
(** ** Registration, login and tokens *)

Lemma existsString_firstLine (p : ascii -> bool) (s : string) :
  JS.existsString p (firstLine s) = true -> JS.existsString p s = true.
Proof.
  induction s as [|c s IH]; simpl; [discriminate|].
  destruct ((nat_of_ascii c =? 10)%nat || (nat_of_ascii c =? 13)%nat); simpl;
    [discriminate|].
  intros Hp. apply orb_true_iff in Hp. apply orb_true_iff.
  destruct Hp as [Hc | Hs]; [now left | right; now apply IH].
Qed.

Section Register.
Context `{Platform}.

(** What a request that passed [registerValidation] carries. *)
Lemma registerValidation_ok b :
  registerValidation b = [] ->
  fieldString (bodyField "firstName" b) <> ""
  /\ fieldString (bodyField "lastName" b) <> ""
  /\ isEmail (fieldString (bodyField "email" b)) = true
  /\ exists pw, bodyField "password" b = Some (BStr pw)
                /\ (6 <= String.length pw)%nat
                /\ JS.existsString JS.isLower pw = true
                /\ JS.existsString JS.isUpper pw = true
                /\ JS.existsString JS.isDigit pw = true.
Proof.
  unfold registerValidation, notEmpty. intros Hv.
  apply app_eq_nil in Hv. destruct Hv as [Hfn Hv].
  apply app_eq_nil in Hv. destruct Hv as [Hln Hv].
  apply app_eq_nil in Hv. destruct Hv as [Hem Hv].
  apply app_eq_nil in Hv. destruct Hv as [Hlen Hpat].
  apply check_nil in Hfn, Hln, Hem, Hlen, Hpat.
  apply negb_true_iff, String.eqb_neq in Hfn, Hln.
  repeat split; try assumption.
  destruct (bodyField "password" b) as [[pw | [|] | p]|]; try discriminate.
  exists pw. split; [reflexivity|]. cbn [fieldString] in Hlen, Hpat.
  apply Nat.leb_le in Hlen. unfold passwordPattern in Hpat.
  apply andb_true_iff in Hpat. destruct Hpat as [Hpat Hd].
  apply andb_true_iff in Hpat. destruct Hpat as [Hl Hu].
  repeat split; auto using existsString_firstLine.
Qed.

Lemma createUser_account env st fn ln em pw ph dob u st' :
  createUser env st fn ln em (Some (BStr pw)) ph dob = Some (u, st') ->
  users st' = users st ++ [u] /\ bookings st' = bookings st
  /\ u_id u = freshId env /\ firstName u = JS.trim fn /\ lastName u = JS.trim ln
  /\ email u = JS.trim (JS.toLowerCase em)
  /\ u_password u = Some (bcrypt_hash pw (salt env))
  /\ role u = "user" /\ isEmailVerified u = false
  /\ preferences u = defaultPreferences /\ passport u = None
  /\ (forall x, In x (users st) -> email x <> email u).
Proof.
  intros Hc. pose proof (createUser_store _ _ _ _ _ _ _ _ _ _ Hc) as (Hu & Hb & Hfresh).
  assert (Hnone : forall x, In x (users st) -> email x <> email u).
  { intros x Hx Heq.
    assert (Hex : existsb (fun y => email y =? email u) (users st) = true).
    { apply existsb_exists. exists x. split; [assumption | now apply String.eqb_eq]. }
    congruence. }
  clear Hfresh.
  unfold createUser in Hc. cbn [option_map castString] in Hc.
  destruct (castOptString ph) as [p|]; try discriminate.
  destruct (castOptDate dob) as [d|]; try discriminate.
  match type of Hc with context [negb (validUser ?x)] => destruct (validUser x) end;
    simpl in Hc; try discriminate.
  match type of Hc with context [existsb ?f ?l] => destruct (existsb f l) end;
    try discriminate.
  injection Hc as <- <-. repeat split; try reflexivity. exact Hnone.
Qed.

(** A 201 of [register], taken apart. *)
Lemma register_created env st b r st' :
  register env st b = (r, st') -> statusCode r = 201%Z ->
  exists u token,
    registerValidation b = []
    /\ findUserByEmail st (normalizeEmail (fieldString (bodyField "email" b))) = None
    /\ createUser env st (JS.trim (fieldString (bodyField "firstName" b)))
         (JS.trim (fieldString (bodyField "lastName" b)))
         (normalizeEmail (fieldString (bodyField "email" b)))
         (bodyField "password" b) (bodyField "phone" b) (bodyField "dateOfBirth" b)
       = Some (u, st')
    /\ getSignedJwtToken env u = Some token
    /\ r = success 201 (Some "User registered successfully") (toJSON u, token).
Proof.
  unfold register.
  destruct (registerValidation b) as [|e errs]; cbn [negb isEmptyList];
    [|intros Heq; injection Heq as <- <-; discriminate].
  destruct (findUserByEmail st _) as [x|];
    [intros Heq; injection Heq as <- <-; discriminate|].
  destruct (createUser _ _ _ _ _ _ _ _) as [[u st1]|];
    [|intros Heq; injection Heq as <- <-; discriminate].
  destruct (getSignedJwtToken env u) as [token|] eqn:Ht;
    intros Heq; injection Heq as <- <-; [|discriminate].
  intros _. exists u, token. repeat split; assumption.
Qed.

End Register.

(** X15.  When POST /auth/register answers 201, exactly one account was
    appended and nothing else changed; the new account has role "user"
    whatever the body says, is unverified, stores the bcrypt hash of the
    submitted password and not the password, has an email no earlier
    account has, and is the account of the response; the submitted
    password has at least 6 characters with a lower-case letter, an
    upper-case letter and a digit. *)
Theorem register_creates_plain_user `{Platform} :
  forall (env : Env) (st st' : Store) (b : Body) (r : Response (Fields * string)),
    register env st b = (r, st') ->
    statusCode r = 201%Z ->
    exists u pw token,
      users st' = users st ++ [u] /\ bookings st' = bookings st
      /\ data r = Some (toJSON u, token)
      /\ getSignedJwtToken env u = Some token
      /\ bodyField "password" b = Some (BStr pw)
      /\ u_password u = Some (bcrypt_hash pw (salt env))
      /\ role u = "user" /\ isEmailVerified u = false
      /\ email u = JS.trim (JS.toLowerCase
                              (normalizeEmail (fieldString (bodyField "email" b))))
      /\ (forall x, In x (users st) -> email x <> email u)
      /\ (6 <= String.length pw)%nat
      /\ JS.existsString JS.isLower pw = true
      /\ JS.existsString JS.isUpper pw = true
      /\ JS.existsString JS.isDigit pw = true.
Proof.
  intros env st st' b r Hreg Hcode.
  destruct (register_created _ _ _ _ _ Hreg Hcode) as (u & token & Hv & _ & Hc & Ht & ->).
  destruct (registerValidation_ok b Hv) as (_ & _ & _ & pw & Hpw & Hlen & Hl & Hu & Hd).
  rewrite Hpw in Hc.
  destruct (createUser_account _ _ _ _ _ _ _ _ _ _ Hc)
    as (Husers & Hbk & _ & _ & _ & Hemail & Hhash & Hrole & Hver & _ & _ & Hfresh).
  exists u, pw, token. repeat split; assumption || reflexivity.
Qed.

Lemma register_creates_plain_user_witness :
  exists u,
    users (snd (@register Sample.platform Sample.env Sample.store
                  [("firstName", BStr "Carol"); ("lastName", BStr "Cole");
                   ("email", BStr "carol@example.com"); ("password", BStr "Passw0rd");
                   ("role", BStr "admin")]))
    = users Sample.store ++ [u]
    /\ role u = "user" /\ u_password u = Some "h(Passw0rd)".
Proof.
  destruct (@register_creates_plain_user Sample.platform Sample.env Sample.store _
              [("firstName", BStr "Carol"); ("lastName", BStr "Cole");
               ("email", BStr "carol@example.com"); ("password", BStr "Passw0rd");
               ("role", BStr "admin")] _ (surjective_pairing _) eq_refl)
    as (u & pw & token & Hu & _ & _ & _ & Hpw & Hhash & Hrole & _).
  exists u. split; [exact Hu | split; [exact Hrole|]].
  injection Hpw as <-. exact Hhash.
Defined.

(** X16.  Without JWT_SECRET no registration is answered 201 or carries
    data; yet a valid request with a fresh email is stored before the
    token is made, so it is answered 500 "Error creating user account" with
    the new account kept in the store. *)
Theorem register_without_secret `{Platform} :
  forall (env : Env) (st : Store) (b : Body),
    JWT_SECRET env = None ->
    statusCode (fst (register env st b)) <> 201%Z
    /\ data (fst (register env st b)) = None
    /\ (forall u st1,
          registerValidation b = [] ->
          findUserByEmail st (normalizeEmail (fieldString (bodyField "email" b))) = None ->
          createUser env st (JS.trim (fieldString (bodyField "firstName" b)))
            (JS.trim (fieldString (bodyField "lastName" b)))
            (normalizeEmail (fieldString (bodyField "email" b)))
            (bodyField "password" b) (bodyField "phone" b) (bodyField "dateOfBirth" b)
          = Some (u, st1) ->
          register env st b = (failure 500 "Error creating user account", st1)
          /\ users st1 = users st ++ [u]).
Proof.
  intros env st b Hsecret.
  assert (Htoken : forall u, getSignedJwtToken env u = None)
    by (intros u; unfold getSignedJwtToken; now rewrite Hsecret).
  split; [|split].
  - unfold register.
    destruct (negb (isEmptyList (registerValidation b))); [discriminate|].
    destruct (findUserByEmail st _); [discriminate|].
    destruct (createUser _ _ _ _ _ _ _ _) as [[u st1]|]; [|discriminate].
    rewrite Htoken. discriminate.
  - unfold register.
    destruct (negb (isEmptyList (registerValidation b))); [reflexivity|].
    destruct (findUserByEmail st _); [reflexivity|].
    destruct (createUser _ _ _ _ _ _ _ _) as [[u st1]|]; [|reflexivity].
    now rewrite Htoken.
  - intros u st1 Hv Hfresh Hc. unfold register.
    rewrite Hv, Hfresh, Hc, Htoken. split; [reflexivity|].
    now apply createUser_store in Hc.
Qed.

Lemma register_without_secret_witness :
  exists u st1,
    @register Sample.platform
       (mkEnv None None 1700000000000 "salt" "64b7f0c2a1d3e4f5a6b7c8dc" "0.k3x9q2m7")
       Sample.store
       [("firstName", BStr "Carol"); ("lastName", BStr "Cole");
        ("email", BStr "carol@example.com"); ("password", BStr "Passw0rd")]
    = (failure 500 "Error creating user account", st1)
    /\ users st1 = users Sample.store ++ [u].
Proof.
  eexists. eexists.
  apply (proj2 (proj2 (@register_without_secret Sample.platform
           (mkEnv None None 1700000000000 "salt" "64b7f0c2a1d3e4f5a6b7c8dc" "0.k3x9q2m7")
           Sample.store
           [("firstName", BStr "Carol"); ("lastName", BStr "Cole");
            ("email", BStr "carol@example.com"); ("password", BStr "Passw0rd")]
           eq_refl))); reflexivity.
Defined.

Lemma find_app_none {A} (p : A -> bool) (l : list A) (x : A) :
  find p l = None -> p x = true -> find p (l ++ [x]) = Some x.
Proof.
  induction l as [|a l IH]; simpl; [now intros _ ->|].
  destruct (p a); [discriminate|]. exact IH.
Qed.

(** X17.  Register, then log in.  If bcrypt accepts a password against its
    own hash and the normalized email of the request is in lower case and
    trimmed, then after a registration answered 201 the login with the same
    body is answered 200 with the same account and the same token. *)
Theorem login_after_register `{Platform} :
  forall (env : Env) (st st' : Store) (b : Body) (r : Response (Fields * string)),
    (forall p s, bcrypt_compare p (bcrypt_hash p s) = true) ->
    JS.trim (JS.toLowerCase (normalizeEmail (fieldString (bodyField "email" b))))
      = normalizeEmail (fieldString (bodyField "email" b)) ->
    register env st b = (r, st') ->
    statusCode r = 201%Z ->
    exists d,
      data r = Some d
      /\ login env st' b = success 200 (Some "Login successful") d.
Proof.
  intros env st st' b r Hbcrypt Hnorm Hreg Hcode.
  destruct (register_created _ _ _ _ _ Hreg Hcode)
    as (u & token & Hv & Hfresh & Hc & Ht & ->).
  destruct (registerValidation_ok b Hv) as (_ & _ & Hem & pw & Hpw & Hlen & _).
  rewrite Hpw in Hc.
  destruct (createUser_account _ _ _ _ _ _ _ _ _ _ Hc)
    as (Husers & _ & _ & _ & _ & Hemail & Hhash & _).
  exists (toJSON u, token). split; [reflexivity|].
  unfold login, loginValidation, notEmpty. rewrite Hem, Hpw.
  assert (Hne : negb (fieldString (Some (BStr pw)) =? "") = true).
  { apply negb_true_iff, String.eqb_neq. simpl. intros ->. simpl in Hlen. lia. }
  rewrite Hne. cbn [check app negb isEmptyList].
  assert (Hfind : findUserByEmail st'
                    (normalizeEmail (fieldString (bodyField "email" b))) = Some u).
  { unfold findUserByEmail. rewrite Husers. apply find_app_none; [exact Hfresh|].
    apply String.eqb_eq. now rewrite Hemail. }
  rewrite Hfind. unfold comparePassword. rewrite Hhash, Hbcrypt, Ht. reflexivity.
Qed.

Lemma login_after_register_witness :
  exists d,
    @login Sample.platform Sample.env
      (snd (@register Sample.platform Sample.env Sample.store
              [("firstName", BStr "Carol"); ("lastName", BStr "Cole");
               ("email", BStr "Carol@Example.com"); ("password", BStr "Passw0rd")]))
      [("firstName", BStr "Carol"); ("lastName", BStr "Cole");
       ("email", BStr "Carol@Example.com"); ("password", BStr "Passw0rd")]
    = success 200 (Some "Login successful") d.
Proof.
  destruct (@login_after_register Sample.platform Sample.env Sample.store _
              [("firstName", BStr "Carol"); ("lastName", BStr "Cole");
               ("email", BStr "Carol@Example.com"); ("password", BStr "Passw0rd")] _
              (fun p s => String.eqb_refl _) eq_refl (surjective_pairing _) eq_refl)
    as (d & _ & Hlogin).
  exists d. exact Hlogin.
Defined.

(* ------------------------------------------------------------------ *)
(** ** Reading the token from the headers *)

Lemma split_nonempty (sep : ascii) (s : string) : JS.split sep s <> [].
Proof.
  induction s as [|c s IH]; simpl; [discriminate|].
  destruct (Ascii.eqb c sep); [discriminate|].
  destruct (JS.split sep s); [contradiction | discriminate].
Qed.

Lemma split_lacks (sep : ascii) (t : string) :
  lacks sep t = true -> JS.split sep t = [t].
Proof.
  unfold lacks. induction t as [|c t IH]; simpl; [reflexivity|].
  rewrite negb_true_iff, orb_false_iff. intros [Hc Ht].
  rewrite Ascii.eqb_sym, Hc. rewrite IH; [reflexivity | now rewrite Ht].
Qed.

Lemma split_app_sep (sep : ascii) (a b : string) :
  JS.split sep (a ++ String sep b)%string = JS.split sep a ++ JS.split sep b.
Proof.
  induction a as [|c a IH]; simpl.
  - now rewrite Ascii.eqb_refl.
  - destruct (Ascii.eqb c sep); [now rewrite IH|].
    rewrite IH. pose proof (split_nonempty sep a) as Hne.
    destruct (JS.split sep a) as [|w ws]; [contradiction | reflexivity].
Qed.

Lemma trimEnd_spaceless (s : string) : spaceless s = true -> JS.trimEnd s = s.
Proof.
  unfold spaceless. induction s as [|c s IH]; simpl; [reflexivity|].
  rewrite negb_true_iff, orb_false_iff. intros [Hc Hs].
  rewrite IH by now rewrite Hs. rewrite Hc. now destruct s.
Qed.

Lemma headerToken_bearer (t : string) (c : option string) :
  lacks " " t = true ->
  headerToken (mkHeaders (Some ("Bearer " ++ t)%string) c) = Some t.
Proof.
  intros Ht. unfold headerToken. cbn [authorization].
  change ("Bearer " ++ t)%string with ("Bearer" ++ String " " t)%string.
  rewrite split_app_sep, (split_lacks " " t Ht). reflexivity.
Qed.

(** X18.  A non-empty token in the Authorization header is the token
    [authenticate] uses, and the Cookie header then has no influence on the
    outcome; the header "Bearer " followed by a token without spaces
    yields exactly that token. *)
Theorem bearer_header_wins `{Platform} :
  forall (env : Env) (st : Store) (a c c' : option string) (t : string),
    (headerToken (mkHeaders a c) = Some t -> t <> "" ->
     extractToken (mkHeaders a c) = Some t
     /\ authenticate env st (mkHeaders a c) = authenticate env st (mkHeaders a c'))
    /\ (lacks " " t = true ->
        headerToken (mkHeaders (Some ("Bearer " ++ t)%string) c) = Some t).
Proof.
  intros env st a c c' t. split; [|apply headerToken_bearer].
  intros Hh Hne.
  assert (Hx : forall k, extractToken (mkHeaders a k) = Some t).
  { intros k. unfold extractToken.
    assert (Hk : headerToken (mkHeaders a k) = Some t) by exact Hh.
    rewrite Hk, (truthy_some _ Hne). reflexivity. }
  split; [apply Hx|]. unfold authenticate. now rewrite !Hx.
Qed.

Lemma bearer_header_wins_witness :
  @authenticate Sample.platform Sample.env Sample.store
     (mkHeaders (Some "Bearer forged:64b7f0c2a1d3e4f5a6b7c8d0")
                (Some "token=s3cret:64b7f0c2a1d3e4f5a6b7c8d0"))
  = @authenticate Sample.platform Sample.env Sample.store
      (mkHeaders (Some "Bearer forged:64b7f0c2a1d3e4f5a6b7c8d0") None).
Proof.
  apply (proj1 (@bearer_header_wins Sample.platform Sample.env Sample.store
                  (Some "Bearer forged:64b7f0c2a1d3e4f5a6b7c8d0")
                  (Some "token=s3cret:64b7f0c2a1d3e4f5a6b7c8d0") None
                  "forged:64b7f0c2a1d3e4f5a6b7c8d0"));
    [reflexivity | discriminate].
Defined.

Lemma fold_left_cons {A B} (f : A -> B) (l : list A) (init : list B) :
  fold_left (fun acc x => f x :: acc) l init = rev (map f l) ++ init.
Proof.
  revert init. induction l as [|x l IH]; intros init; simpl; [reflexivity|].
  rewrite IH. now rewrite <- app_assoc.
Qed.

Lemma parseCookies_app (c1 c2 : string) :
  parseCookies (c1 ++ String ";" c2)%string = parseCookies c2 ++ parseCookies c1.
Proof.
  unfold parseCookies. rewrite !fold_left_cons, !app_nil_r.
  now rewrite split_app_sep, map_app, rev_app_distr.
Qed.

Lemma parseCookies_token (t : string) :
  lacks ";" t = true -> lacks "=" t = true -> spaceless t = true ->
  parseCookies (" token=" ++ t)%string = [("token", Some t)]
  /\ parseCookies ("token=" ++ t)%string = [("token", Some t)].
Proof.
  intros Hsemi Heq Hsp.
  assert (Htrim : JS.trim (" token=" ++ t)%string = ("token=" ++ t)%string
                  /\ JS.trim ("token=" ++ t)%string = ("token=" ++ t)%string).
  { unfold JS.trim. cbn [JS.trimStart]. simpl.
    assert (Hs : spaceless ("token=" ++ t)%string = true) by exact Hsp.
    pose proof (trimEnd_spaceless _ Hs) as He. simpl in He. now rewrite He. }
  destruct Htrim as [Ht1 Ht2].
  assert (Hsplit : JS.split "=" ("token=" ++ t)%string = ["token"; t]).
  { change ("token=" ++ t)%string with ("token" ++ String "=" t)%string.
    now rewrite split_app_sep, (split_lacks "=" t Heq). }
  unfold parseCookies.
  rewrite (split_lacks ";" (" token=" ++ t)%string) by exact Hsemi.
  rewrite (split_lacks ";" ("token=" ++ t)%string) by exact Hsemi.
  cbn [fold_left]. rewrite Ht1, Ht2, Hsplit. split; reflexivity.
Qed.

(** X19.  The cookie fallback: the cookies of the header are read left to
    right and a later one shadows an earlier one of the same name; so a
    header that is, or that ends with, "token=T" (T without ';', '=' and
    white space) gives the token T, whatever cookies come before. *)
Theorem cookie_token_last_wins :
  forall (c1 c2 t : string),
    parseCookies (c1 ++ String ";" c2)%string = parseCookies c2 ++ parseCookies c1
    /\ (lacks ";" t = true -> lacks "=" t = true -> spaceless t = true ->
        cookieToken ("token=" ++ t)%string = Some t
        /\ cookieToken (c1 ++ "; token=" ++ t)%string = Some t
        /\ (t <> "" ->
            extractToken (mkHeaders None (Some (c1 ++ "; token=" ++ t)%string)) = Some t)).
Proof.
  intros c1 c2 t. split; [apply parseCookies_app|].
  intros Hsemi Heq Hsp.
  destruct (parseCookies_token t Hsemi Heq Hsp) as [Hsp1 Hsp2].
  assert (Hlast : cookieToken (c1 ++ "; token=" ++ t)%string = Some t).
  { unfold cookieToken.
    change (c1 ++ "; token=" ++ t)%string with (c1 ++ String ";" (" token=" ++ t))%string.
    now rewrite parseCookies_app, Hsp1. }
  split; [unfold cookieToken; now rewrite Hsp2|].
  split; [exact Hlast|].
  intros Hne. unfold extractToken. cbn [headerToken authorization cookie JS.truthy negb andb].
  assert (Hc : negb ((c1 ++ "; token=" ++ t)%string =? "") = true).
  { apply negb_true_iff, String.eqb_neq. destruct c1; discriminate. }
  rewrite Hc. exact Hlast.
Qed.

Lemma cookie_token_last_wins_witness :
  cookieToken ("token=old; theme=dark" ++ "; token=" ++ "s3cret:64b7f0c2a1d3e4f5a6b7c8d0")%string
  = Some "s3cret:64b7f0c2a1d3e4f5a6b7c8d0".
Proof.
  exact (proj1 (proj2 (proj2 (cookie_token_last_wins "token=old; theme=dark" ""
                                "s3cret:64b7f0c2a1d3e4f5a6b7c8d0")
                              eq_refl eq_refl eq_refl))).
Defined.

(* ------------------------------------------------------------------ *)
(** ** From login to an authenticated request *)

Lemma deleteField_app (k : string) (a b : Fields) :
  deleteField k (a ++ b) = deleteField k a ++ deleteField k b.
Proof. unfold deleteField. apply filter_app. Qed.

Lemma toJSON_withoutPassword (u : User) : toJSON (withoutPassword u) = toJSON u.
Proof.
  unfold toJSON, toObject, withoutPassword, setPassword. cbn [u_id firstName lastName email
    u_password phone dateOfBirth passport preferences isEmailVerified role u_createdAt
    u_updatedAt u_v].
  f_equal. rewrite !deleteField_app. f_equal. f_equal.
  now destruct (u_password u).
Qed.

Lemma findUserById_unique (st : Store) (u : User) :
  NoDup (map u_id (users st)) -> In u (users st) ->
  findUserById st (u_id u) = Some u.
Proof.
  intros Hnd Hin. destruct (findUserById st (u_id u)) as [x|] eqn:Hf.
  - apply findUserById_spec in Hf. destruct Hf as [Hx Hid].
    f_equal. exact (NoDup_map_inj u_id _ x u Hnd Hx Hin Hid).
  - unfold findUserById in Hf. apply (find_none _ _ Hf) in Hin.
    now rewrite String.eqb_refl in Hin.
Qed.

(** A login that carries data, taken apart. *)
Lemma login_data `{Platform} env st body acct token :
  data (login env st body) = Some (acct, token) ->
  exists user secret,
    In user (users st) /\ acct = toJSON user
    /\ JWT_SECRET env = Some secret
    /\ token = jwt_sign (mkJwtPayload (u_id user) (email user) (role user)) secret
                        (match JWT_EXPIRE env with Some e => e | None => "30d" end).
Proof.
  unfold login.
  destruct (negb (isEmptyList (loginValidation body))); [discriminate|].
  destruct (findUserByEmail st _) as [user|] eqn:Hf; [|discriminate].
  destruct (bodyField "password" body) as [[pw| |]|]; try discriminate.
  destruct (comparePassword user pw) as [[|]|]; try discriminate.
  unfold getSignedJwtToken.
  destruct (JWT_SECRET env) as [secret|]; [|discriminate].
  destruct (secret =? ""); [discriminate|].
  cbn [data success]. intros Heq. injection Heq as <- <-.
  exists user, secret. apply find_In in Hf. destruct Hf as [Hin _].
  repeat split; assumption || reflexivity.
Qed.

(** X20.  Log in, then use the token.  If jsonwebtoken verifies what it
    signed (same secret) and gives back the user id, account ids are
    unique, and the token has no space, then the token of a successful
    login, sent as "Bearer <token>", authenticates, and GET /auth/me
    answers 200 with the same account the login returned, whatever the
    Cookie header. *)
Theorem me_after_login `{Platform} :
  forall (env : Env) (st : Store) (body : Body) (acct : Fields) (token : string)
         (c : option string),
    (forall p s e, option_map userId (jwt_verify (jwt_sign p s e) (Some s))
                   = Some (userId p)) ->
    NoDup (map u_id (users st)) ->
    data (login env st body) = Some (acct, token) ->
    lacks " " token = true -> token <> "" ->
    me env st (mkHeaders (Some ("Bearer " ++ token)%string) c)
    = (success 200 None acct, st).
Proof.
  intros env st body acct token c Hjwt Hnd Hlogin Hsp Hne.
  destruct (login_data _ _ _ _ _ Hlogin) as (user & secret & Hin & -> & Hsecret & Htok).
  assert (Hauth : authenticate env st (mkHeaders (Some ("Bearer " ++ token)%string) c)
                  = Next (Some (withoutPassword user))).
  { unfold authenticate, extractToken.
    rewrite (headerToken_bearer token c Hsp), (truthy_some _ Hne).
    cbn [negb andb]. rewrite (truthy_some _ Hne). cbn [negb].
    unfold resolveToken. rewrite Hsecret, Htok.
    specialize (Hjwt (mkJwtPayload (u_id user) (email user) (role user)) secret
                     (match JWT_EXPIRE env with Some e => e | None => "30d" end)).
    destruct (jwt_verify _ _) as [d|]; [|discriminate].
    simpl in Hjwt. injection Hjwt as Hd. rewrite Hd.
    now rewrite (findUserById_unique st user Hnd Hin). }
  unfold me. rewrite (withAuth_next _ _ _ _ _ Hauth).
  now rewrite toJSON_withoutPassword.
Qed.

Lemma substring_all (u : string) (m : nat) :
  (String.length u <= m)%nat -> String.substring 0 m u = u.
Proof.
  revert m. induction u as [|c u IH]; intros m Hm; [now destruct m|].
  destruct m as [|m]; simpl in *; [lia|]. rewrite IH by lia. reflexivity.
Qed.

(** The tokens of the sample platform verify. *)
Lemma sample_jwt_roundtrip (p : JwtPayload) (s e : string) :
  option_map userId (@jwt_verify Sample.platform (@jwt_sign Sample.platform p s e) (Some s))
  = Some (userId p).
Proof.
  change (option_map userId (Sample.verify (s ++ ":" ++ userId p)%string (Some s))
          = Some (userId p)).
  unfold Sample.verify.
  assert (Hpre : forall m, (String.length (userId p) <= m)%nat ->
            String.prefix (s ++ ":")%string (s ++ ":" ++ userId p)%string = true
            /\ String.substring (String.length s + 1) m (s ++ ":" ++ userId p)%string
               = userId p).
  { induction s as [|ch s IH]; intros m Hm; simpl.
    - split; [destruct (ascii_dec ":" ":"); [now destruct (userId p) | congruence]
             | now apply substring_all].
    - destruct (IH m Hm) as [Hp Hs]. split; [|exact Hs].
      destruct (ascii_dec ch ch); [exact Hp | congruence]. }
  destruct (Hpre (String.length (s ++ ":" ++ userId p)%string)) as [Hp Hs].
  - clear Hpre. induction s as [|ch s IH]; simpl in *; lia.
  - rewrite Hp. cbn [option_map userId]. now rewrite Hs.
Qed.

Lemma me_after_login_witness :
  @me Sample.platform Sample.env Sample.store
     (mkHeaders (Some "Bearer s3cret:64b7f0c2a1d3e4f5a6b7c8d0") (Some "token=stale"))
  = (success 200 None (toJSON Sample.alice), Sample.store).
Proof.
  apply (@me_after_login Sample.platform Sample.env Sample.store
           [("email", BStr "alice@example.com"); ("password", BStr "Passw0rd")]
           (toJSON Sample.alice) "s3cret:64b7f0c2a1d3e4f5a6b7c8d0" (Some "token=stale")
           sample_jwt_roundtrip sample_ids_unique);
    [reflexivity | reflexivity | discriminate].
Defined.

(* ------------------------------------------------------------------ *)
(** ** The models: the booking reference and the serialized account *)

Lemma prefix_app (a b : string) : String.prefix a (a ++ b) = true.
Proof.
  induction a as [|c a IH]; simpl; [now destruct b|].
  destruct (ascii_dec c c); [exact IH | congruence].
Qed.

Lemma string_app_assoc (a b c : string) :
  ((a ++ b) ++ c = a ++ b ++ c)%string.
Proof. induction a as [|x a IH]; simpl; [reflexivity | now rewrite IH]. Qed.

Lemma mapString_length (f : ascii -> ascii) (s : string) :
  String.length (JS.mapString f s) = String.length s.
Proof. induction s as [|c s IH]; simpl; [reflexivity | now rewrite IH]. Qed.

Lemma substring_length_le (n m : nat) (s : string) :
  (String.length (String.substring n m s) <= m)%nat.
Proof.
  revert n m. induction s as [|c s IH]; intros n m.
  - destruct n, m; simpl; lia.
  - destruct n as [|n]; [destruct m as [|m]; simpl; [lia|]; specialize (IH 0%nat m); lia|].
    simpl. apply IH.
Qed.

(** X21.  The pre-save hook of a booking keeps a reference that is set and
    changes nothing else; it fills in a missing one with the upper-cased
    type, "-", the time in base 36, "-" and at most five random characters;
    afterwards the reference is never empty, so running the hook again
    changes nothing. *)
Theorem bookingPreSave_reference :
  forall (env env2 : Env) (b : Booking),
    (bookingReference b <> "" -> bookingPreSave env b = b)
    /\ (bookingReference b = "" ->
        bookingPreSave env b = setReference b (generateReference env (b_type b))
        /\ String.prefix (JS.toUpperCase (b_type b) ++ "-")%string
                         (bookingReference (bookingPreSave env b)) = true
        /\ exists random,
             (String.length random <= 5)%nat
             /\ bookingReference (bookingPreSave env b)
                = (JS.toUpperCase (b_type b) ++ "-" ++
                   JS.toUpperCase (JS.toString36 (Z.to_N (now env))) ++ "-" ++
                   random)%string)
    /\ bookingReference (bookingPreSave env b) <> ""
    /\ bookingPreSave env2 (bookingPreSave env b) = bookingPreSave env b
    /\ (b_id (bookingPreSave env b), b_user (bookingPreSave env b),
        b_type (bookingPreSave env b), status (bookingPreSave env b),
        totalAmount (bookingPreSave env b))
       = (b_id b, b_user b, b_type b, status b, totalAmount b).
Proof.
  intros env env2 b.
  assert (Hgen : generateReference env (b_type b) <> "").
  { rewrite generateReference_parts. destruct (JS.toUpperCase (b_type b)); discriminate. }
  unfold bookingPreSave. destruct (bookingReference b =? "") eqn:Hr.
  - apply String.eqb_eq in Hr. split; [congruence|].
    split; [|split; [exact Hgen | split; [|reflexivity]]].
    + intros _. split; [reflexivity|]. cbn [bookingReference setReference].
      rewrite generateReference_parts. split.
      * rewrite <- (string_app_assoc _ "-"). apply prefix_app.
      * exists (JS.toUpperCase (JS.substr 2 5 (random36 env))).
        split; [|reflexivity]. unfold JS.toUpperCase. rewrite mapString_length.
        apply substring_length_le.
    + cbn [bookingReference setReference]. apply String.eqb_neq in Hgen.
      now rewrite Hgen.
  - pose proof Hr as Hneq. apply String.eqb_neq in Hneq.
    split; [reflexivity|]. split; [congruence|].
    split; [exact Hneq | split; [now rewrite Hr | reflexivity]].
Qed.

Lemma getField_deleteField_other (k k' : string) (o : Fields) :
  k <> k' -> getField k (deleteField k' o) = getField k o.
Proof.
  intros Hk. unfold deleteField. induction o as [|[k0 v] o IH]; simpl; [reflexivity|].
  destruct (k' =? k0) eqn:Hk0; simpl.
  - apply String.eqb_eq in Hk0. subst k0.
    apply String.eqb_neq in Hk. now rewrite Hk.
  - destruct (k =? k0); [reflexivity | exact IH].
Qed.

Lemma getField_deleteField_same (k : string) (o : Fields) :
  getField k (deleteField k o) = None.
Proof.
  unfold deleteField. induction o as [|[k0 v] o IH]; simpl; [reflexivity|].
  destruct (k =? k0) eqn:Hk0; simpl; [exact IH|]. now rewrite Hk0.
Qed.

(** X22.  [toJSON] removes the keys "password" and "__v" from the object
    of the document and nothing else: every other key reads the same in
    both, and the id and the email are always there. *)
Theorem toJSON_removes_only_secrets :
  forall (u : User) (k : string),
    getField "password" (toJSON u) = None
    /\ getField "__v" (toJSON u) = None
    /\ (k <> "password" -> k <> "__v" -> getField k (toJSON u) = getField k (toObject u))
    /\ getField "_id" (toJSON u) = Some (JStr (u_id u))
    /\ getField "email" (toJSON u) = Some (JStr (email u)).
Proof.
  intros u k.
  assert (Hother : forall k0, k0 <> "password" -> k0 <> "__v" ->
                     getField k0 (toJSON u) = getField k0 (toObject u)).
  { intros k0 Hp Hv. unfold toJSON.
    now rewrite !getField_deleteField_other. }
  split; [|split; [|split; [|split]]].
  - unfold toJSON. rewrite getField_deleteField_other by discriminate.
    apply getField_deleteField_same.
  - unfold toJSON. apply getField_deleteField_same.
  - apply Hother.
  - rewrite Hother by discriminate. reflexivity.
  - rewrite Hother by discriminate. reflexivity.
Qed.

(* ------------------------------------------------------------------ *)
(** ** Restaurant search *)

Lemma slice_sublist {A} (l : list A) (start stop : Z) :
  exists a c, l = a ++ JS.slice l start stop ++ c.
Proof.
  unfold JS.slice.
  set (k := Z.to_nat (JS.relIndex (Z.of_nat (length l)) start)).
  set (n := Z.to_nat (JS.relIndex (Z.of_nat (length l)) stop
                      - JS.relIndex (Z.of_nat (length l)) start)).
  exists (firstn k l), (skipn n (skipn k l)). now rewrite !firstn_skipn.
Qed.

Lemma searchResults_In q r :
  In r (searchResults q) <-> In r mockRestaurants /\ searchFilter q r = true.
Proof. unfold searchResults. now rewrite sortBy_In, filter_In. Qed.

Lemma searchResults_sorted q :
  StronglySorted (fun a b => (rating b <= rating a)%Q) (searchResults q).
Proof.
  unfold searchResults.
  eapply StronglySorted_weaken;
    [| apply (sortBy_sorted (fun a b : Restaurant => Qle_bool (rating b) (rating a)))].
  - intros a b Hab. now apply Qle_bool_iff.
  - intros a b Hab. apply Qle_bool_iff.
    destruct (Qlt_le_dec (rating a) (rating b)) as [Hlt | Hle]; [now apply Qlt_le_weak|].
    apply Qle_bool_iff in Hle. congruence.
  - intros a b c Hab Hbc. apply Qle_bool_iff in Hab, Hbc. apply Qle_bool_iff.
    now apply Qle_trans with (rating b).
Qed.

(** X23.  Whatever GET /restaurants/search returns is made of restaurants
    of the catalogue that pass every criterion of the request (in
    particular the minimum rating), best rating first; and the answer does
    not depend on the headers, the store or the environment: a caller with
    a valid token, a bad one or none gets the same response. *)
Theorem search_results_match `{Platform} :
  forall (env env2 : Env) (st st2 : Store) (h h2 : Headers) (q : SearchQuery),
    search env st h q = search env2 st2 h2 q
    /\ match data (search env st h q) with
       | Some found =>
           Forall (fun r => In r mockRestaurants /\ searchFilter q r = true) found
           /\ StronglySorted (fun a b => (rating b <= rating a)%Q) found
           /\ match sq_rating q with
              | Given x => Forall (fun r => (x <= rating r)%Q) found
              | _ => True
              end
       | None => True
       end.
Proof.
  intros env env2 st st2 h h2 q.
  assert (Hplain : forall e s hh,
            search e s hh q =
              if negb (isEmptyList (searchValidation q)) then invalid (searchValidation q)
              else let (page, pg) := paginate (searchResults q) (sq_page q) (sq_limit q) in
                   mkResponse 200 "success" None (Some page) [] (Some pg)).
  { intros e s hh. unfold search. now destruct (optionalAuth_proceeds e s hh) as [ou ->]. }
  split; [now rewrite !Hplain|].
  rewrite Hplain. destruct (negb (isEmptyList (searchValidation q))); [exact I|].
  unfold paginate. cbn [data].
  set (found := JS.slice (searchResults q) _ _).
  destruct (slice_sublist (searchResults q)
              ((JS.orDefault (parsed (sq_page q)) 1 - 1) * JS.orDefault (parsed (sq_limit q)) 20)
              (JS.orDefault (parsed (sq_page q)) 1 * JS.orDefault (parsed (sq_limit q)) 20))
    as (a & c & Hl).
  fold found in Hl.
  assert (Hin : forall r, In r found ->
                  In r mockRestaurants /\ searchFilter q r = true).
  { intros r Hr. apply searchResults_In. rewrite Hl.
    apply in_or_app. right. apply in_or_app. now left. }
  split; [now apply Forall_forall|]. split.
  - pose proof (searchResults_sorted q) as Hs. rewrite Hl in Hs.
    apply StronglySorted_app_inv in Hs. destruct Hs as [_ Hs].
    apply StronglySorted_app_inv in Hs. now destruct Hs.
  - destruct (sq_rating q) as [| |x] eqn:Hq; try exact I.
    apply Forall_forall. intros r Hr. destruct (Hin r Hr) as [_ Hf].
    unfold searchFilter, matchesRating in Hf. rewrite Hq in Hf.
    apply andb_true_iff in Hf. destruct Hf as [Hf _].
    apply andb_true_iff in Hf. destruct Hf as [_ Hf]. now apply Qle_bool_iff.
Qed.

(** X24.  A valid search that no restaurant matches is a success: 200, an
    empty list, total 0 and totalPages 0. *)
Theorem search_without_match `{Platform} :
  forall (env : Env) (st : Store) (h : Headers) (q : SearchQuery),
    searchValidation q = [] ->
    (forall r, In r mockRestaurants -> searchFilter q r = false) ->
    search env st h q =
      mkResponse 200 "success" None (Some []) []
        (Some (mkPagination (JS.orDefault (parsed (sq_page q)) 1)
                            (JS.orDefault (parsed (sq_limit q)) 20) 0 0)).
Proof.
  intros env st h q Hv Hnone. unfold search.
  destruct (optionalAuth_proceeds env st h) as [ou ->]. rewrite Hv.
  cbn [negb isEmptyList].
  assert (Hres : searchResults q = []).
  { unfold searchResults. apply filter_nil_iff in Hnone. now rewrite Hnone. }
  rewrite Hres. unfold paginate, JS.slice, JS.ceilDiv. cbn [length Z.of_nat].
  rewrite skipn_nil, firstn_nil. reflexivity.
Qed.

Lemma search_without_match_witness :
  @search Sample.platform Sample.env Sample.store Sample.anonymous
     (mkSearchQuery (Some "Mars") None None Absent None Absent Absent)
  = mkResponse 200 "success" None (Some []) [] (Some (mkPagination 1 20 0 0)).
Proof.
  apply (@search_without_match Sample.platform Sample.env Sample.store Sample.anonymous
           (mkSearchQuery (Some "Mars") None None Absent None Absent Absent) eq_refl).
  intros r [<- | [<- | [<- | []]]]; reflexivity.
Defined.

(* ------------------------------------------------------------------ *)
(** ** Page and limit of the restaurant routes, off the good path *)

(** X25.  In /search and /nearby a page that is missing, not a number or
    0 counts as page 1, whatever the limit is, and a limit that is missing,
    not a number or 0 counts as 20, whatever the page is.  A negative limit
    is taken as it is: on page 1 the answer drops the last |limit| items
    instead of limiting the page, and totalPages is 0 or negative. *)
Theorem paginate_defaults_and_negative_limit :
  forall (A : Type) (items : list A) (qpage qlimit : Param Z) (L : Z),
    ((qpage = Absent \/ qpage = Malformed \/ qpage = Given 0%Z) ->
     paginate items qpage qlimit = paginate items (Given 1%Z) qlimit)
    /\ ((qlimit = Absent \/ qlimit = Malformed \/ qlimit = Given 0%Z) ->
        paginate items qpage qlimit = paginate items qpage (Given 20%Z))
    /\ ((L < 0)%Z ->
        paginate items (Given 1%Z) (Given L)
        = (firstn (length items - Z.to_nat (- L)) items,
           mkPagination 1 L (Z.of_nat (length items))
                        (JS.ceilDiv (Z.of_nat (length items)) L))
        /\ (JS.ceilDiv (Z.of_nat (length items)) L <= 0)%Z).
Proof.
  intros A items qpage qlimit L. split; [|split].
  - intros [-> | [-> | ->]]; reflexivity.
  - intros [-> | [-> | ->]]; reflexivity.
  - intros HL. split.
    + unfold paginate. cbn [parsed]. rewrite !orDefault_given by lia.
      f_equal. unfold JS.slice, JS.relIndex.
      replace ((1 - 1) * L)%Z with 0%Z by lia. replace (1 * L)%Z with L by lia.
      assert (Hneg : (L <? 0)%Z = true) by (apply Z.ltb_lt; lia).
      rewrite Hneg. cbn [Z.ltb Z.compare].
      replace (Z.min 0 (Z.of_nat (length items))) with 0%Z by lia.
      cbn [Z.to_nat skipn]. f_equal. lia.
    + unfold JS.ceilDiv.
      pose proof (Z.div_mod (- Z.of_nat (length items)) L ltac:(lia)) as Hdm.
      pose proof (Z.mod_neg_bound (- Z.of_nat (length items)) L HL) as Hmod.
      nia.
Qed.

Lemma paginate_defaults_and_negative_limit_witness :
  paginate [1; 2; 3; 4]%Z Malformed (Given 3%Z)
  = ([1; 2; 3]%Z, mkPagination 1 3 4 2)
  /\ paginate [1; 2; 3; 4]%Z (Given 2%Z) (Given 0%Z)
     = ([]%Z, mkPagination 2 20 4 1)
  /\ paginate [1; 2; 3; 4]%Z (Given 1%Z) (Given (-1)%Z)
     = ([1; 2; 3]%Z, mkPagination 1 (-1) 4 (-4)).
Proof.
  split; [|split].
  - exact (proj1 (paginate_defaults_and_negative_limit Z [1; 2; 3; 4]%Z
                    Malformed (Given 3%Z) 0%Z) (or_intror (or_introl eq_refl))).
  - exact (proj1 (proj2 (paginate_defaults_and_negative_limit Z [1; 2; 3; 4]%Z
                           (Given 2%Z) (Given 0%Z) 0%Z))
                 (or_intror (or_intror eq_refl))).
  - exact (proj1 (proj2 (proj2 (paginate_defaults_and_negative_limit Z [1; 2; 3; 4]%Z
                                  Absent Absent (-1)%Z)) ltac:(lia))).
Defined.

(* ------------------------------------------------------------------ *)
(** ** The filter on console.warn *)

Lemma prefix_app_includes (a b s : string) :
  String.prefix (a ++ b) s = true -> JS.includes s b = true.
Proof.
  revert s. induction a as [|x a IH]; intros s Hp.
  - change ("" ++ b)%string with b in Hp.
    destruct s; cbn [JS.includes]; now rewrite Hp.
  - destruct s as [|y s]; [discriminate|]. simpl in Hp.
    destruct (ascii_dec x y); [|discriminate].
    cbn [JS.includes]. rewrite (IH s Hp). apply orb_true_r.
Qed.

Lemma includes_suffix (a b s : string) :
  JS.includes s (a ++ b) = true -> JS.includes s b = true.
Proof.
  induction s as [|y s IH]; cbn [JS.includes]; intros Hi.
  - rewrite orb_false_r in Hi. apply prefix_app_includes in Hi. exact Hi.
  - apply orb_true_iff in Hi.
    destruct Hi as [Hp | Hi].
    + apply prefix_app_includes in Hp. exact Hp.
    + fold (JS.includes s b). rewrite (IH Hi). apply orb_true_r.
Qed.

(** X26.  The replaced console.warn of the dev server drops a call exactly
    when one of its string arguments contains "unload" or "deprecated":
    the test for "beforeunload" adds nothing, and arguments that are not
    strings never drop a call. *)
Theorem warnSuppressed_iff :
  forall (args : list (option string)),
    warnSuppressed args = true <->
    exists s, In (Some s) args /\
              (JS.includes s "unload" = true \/ JS.includes s "deprecated" = true).
Proof.
  intros args. unfold warnSuppressed. rewrite existsb_exists. split.
  - intros ([s|] & Hin & Hs); [|discriminate].
    exists s. split; [assumption|].
    apply orb_true_iff in Hs. destruct Hs as [Hs | Hd]; [|now right].
    apply orb_true_iff in Hs. destruct Hs as [Hu | Hb]; [now left|].
    left. now apply (includes_suffix "before" "unload").
  - intros (s & Hin & Hs). exists (Some s). split; [assumption|].
    destruct Hs as [-> | ->]; [reflexivity | apply orb_true_r].
Qed.

(* ------------------------------------------------------------------ *)
(** ** After an account is gone *)

Lemma deleteAccount_200 `{Platform} env st h b :
  statusCode (fst (deleteAccount env st h b)) = 200%Z ->
  exists u, authenticate env st h = Next (Some u)
            /\ snd (deleteAccount env st h b) = deleteUserAndBookings st (u_id u).
Proof.
  unfold deleteAccount, withAuth.
  destruct (authenticate env st h) as [code msg | [u|]] eqn:Hauth.
  - cbn. intros ->. now apply authenticate_respond_401 in Hauth.
  - destruct (negb (isEmptyList _)); [discriminate|].
    destruct (findUserById st (u_id u)) as [stored|]; [|discriminate].
    destruct (bodyField "password" b) as [[pw| |]|]; try discriminate.
    destruct (comparePassword stored pw) as [[|]|]; try discriminate.
    destruct (0 <? activeBookings st (u_id u))%nat; [discriminate|].
    intros _. now exists u.
  - discriminate.
Qed.

(** X27.  Once DELETE /users/account has answered 200, the token that
    authorized it is worth nothing: the same headers are refused by
    [authenticate] with 401 "Token is valid but user no longer exists.",
    and no account by that id is left to find. *)
Theorem token_dead_after_deletion `{Platform} :
  forall (env : Env) (st : Store) (h : Headers) (b : Body),
    statusCode (fst (deleteAccount env st h b)) = 200%Z ->
    authenticate env (snd (deleteAccount env st h b)) h
    = Respond 401 "Token is valid but user no longer exists."
    /\ forall ou, authenticate env st h = Next ou ->
         exists u, ou = Some u
                   /\ findUserById (snd (deleteAccount env st h b)) (u_id u) = None.
Proof.
  intros env st h b Hcode.
  destruct (deleteAccount_200 _ _ _ _ Hcode) as (u & Hauth & ->).
  destruct (authenticate_next_inv _ _ _ _ Hauth)
    as (t & d & stored & Ht & Hne & Hv & Hf & Hu).
  injection Hu as ->.
  assert (Hid : u_id (withoutPassword stored) = userId d)
    by (simpl; now apply findUserById_spec in Hf).
  split.
  - rewrite (authenticate_with_token _ _ _ _ Ht Hne). unfold resolveToken.
    rewrite Hv, Hid. now rewrite deleteUserAndBookings_gone.
  - intros ou Hou. rewrite Hauth in Hou. injection Hou as <-.
    exists (withoutPassword stored). split; [reflexivity|].
    apply deleteUserAndBookings_gone.
Qed.

Lemma token_dead_after_deletion_witness :
  @authenticate Sample.platform Sample.env
     (snd (@deleteAccount Sample.platform Sample.env Sample.store
             (Sample.bearer Sample.bobId) [("password", BStr "Secr3tB")]))
     (Sample.bearer Sample.bobId)
  = Respond 401 "Token is valid but user no longer exists.".
Proof.
  apply (@token_dead_after_deletion Sample.platform Sample.env Sample.store
           (Sample.bearer Sample.bobId) [("password", BStr "Secr3tB")]).
  reflexivity.
Defined.
